(** * x402-donate: the donation API route, embedded and verified

    The development follows [src/routes/api/donate.$recipient.$network]
    (the file that defines [NETWORK_CONFIG], [buildPaymentRequirements],
    [createPaymentRequiredResponse] and the [GET] / [POST] handlers) and
    [src/env.ts] ([getServerEnv]).

    Layout:
    - [JS]      the part of the JavaScript platform the route relies on:
                Number values, [parseInt], [Number.prototype.toString],
                [toFixed], JSON values and [JSON.stringify], [btoa] / [atob],
                [Headers.get];
    - [Env]     [src/env.ts];
    - [Donate]  the route file;
    - theorems about the three. *)

From Stdlib Require Import ZArith List String Ascii Bool Lia.
Import ListNotations.

Local Open Scope string_scope.
Local Open Scope Z_scope.

#[local] Set Warnings "-register-all".

(* ===================================================================== *)
(** ** The JavaScript platform                                            *)
(* ===================================================================== *)

Module JS.

(** *** Strings

    A JavaScript string is modelled by the UTF-8 encoding of its text, held
    in a Rocq [string] (one [ascii] per byte); strings are well formed (no
    lone surrogate).  The route file itself is UTF-8, so its literals are
    taken over byte for byte, and a response body in the model is the byte
    sequence sent on the wire.  Concatenation, comparison and the ASCII-only
    operations (digits, header names, Base64 alphabet, the address pattern)
    act on the bytes as they act on the code units; the three places where
    code units above U+007F matter ([parseInt]'s white space, [btoa],
    [atob]) decode or encode them explicitly. *)

Fixpoint repeat_char (c : ascii) (n : nat) : string :=
  match n with
  | O => ""
  | S n' => String c (repeat_char c n')
  end.

Definition code (c : ascii) : Z := Z.of_N (N_of_ascii c).

Definition chr (z : Z) : ascii := ascii_of_N (Z.to_N z).

(** *** Numbers

    A JavaScript Number is an IEEE-754 binary64 value.  The route only ever
    holds NaN, the infinities and integer-valued doubles in its variables
    ([parseInt] returns nothing else, and the product of two of them is one
    again), so [Int z] stands for the double whose value is the integer [z];
    [-0] is identified with [0], which no operation used here tells apart. *)

Inductive number : Type :=
| NaN
| Infinity (negative : bool)
| Int (z : Z).

(** Round-to-nearest, ties-to-even, of a natural number to 53 significant
    bits: what the platform does whenever a mathematical integer becomes a
    Number. *)
Definition round53 (z : Z) : Z :=
  if z <? 2 ^ 53 then z
  else
    let e := Z.log2 z - 52 in
    let q := z / 2 ^ e in
    let r := z mod 2 ^ e in
    let half := 2 ^ (e - 1) in
    let m := if r <? half then q
             else if half <? r then q + 1
             else if Z.even q then q else q + 1 in
    m * 2 ^ e.

(** The Number for a mathematical integer (overflow gives an infinity). *)
Definition of_integer (z : Z) : number :=
  let a := round53 (Z.abs z) in
  if 2 ^ 1024 <=? a then Infinity (z <? 0) else Int (Z.sgn z * a).

(** [x * y] on Numbers. *)
Definition Number_mul (x y : number) : number :=
  match x, y with
  | NaN, _ | _, NaN => NaN
  | Infinity s, Infinity t => Infinity (xorb s t)
  | Infinity s, Int z | Int z, Infinity s =>
      if z =? 0 then NaN else Infinity (xorb s (z <? 0))
  | Int a, Int b => of_integer (a * b)
  end.

(** [x < y] on Numbers: false as soon as one side is NaN. *)
Definition Number_lt (x y : number) : bool :=
  match x, y with
  | NaN, _ | _, NaN => false
  | Infinity true, Infinity true => false
  | Infinity true, _ => true
  | _, Infinity true => false
  | Infinity false, _ => false
  | _, Infinity false => true
  | Int a, Int b => a <? b
  end.

(** *** Decimal digits *)

Definition digit_char (d : Z) : ascii := chr (48 + d).

Fixpoint dec_aux (fuel : nat) (z : Z) (acc : string) : string :=
  match fuel with
  | O => acc
  | S fuel' =>
      let acc' := String (digit_char (z mod 10)) acc in
      if z <? 10 then acc' else dec_aux fuel' (z / 10) acc'
  end.

(** The decimal numeral of a natural number, without leading zeros. *)
Definition dec (z : Z) : string :=
  dec_aux (S (Z.to_nat (Z.log2 z))) z "".

(** The decimal numeral of an integer. *)
Definition decimal (z : Z) : string :=
  if z <? 0 then "-" ++ dec (- z) else dec z.

Definition num_digits (z : Z) : Z := Z.of_nat (String.length (dec z)).

(** *** [Number.prototype.toString] (radix 10), on integer-valued doubles

    The specification asks for integers [n], [k], [s] with [k >= 1],
    [10^(k-1) <= s < 10^k], the Number for [s * 10^(n-k)] being the value
    printed, and [k] as small as possible; among several [s] the one whose
    [s * 10^(n-k)] is closest to the value.  For an integer-valued double
    the smallest [k] is reached with [n >= k], so the candidates are
    [s * 10^j] with [j = n - k >= 0]. *)

Definition candidate_ok (z k s j : Z) : bool :=
  (10 ^ (k - 1) <=? s) && (s <? 10 ^ k) && (round53 (s * 10 ^ j) =? z).

(** Of two candidates, the one closest to [z]; on a tie the even [s]. *)
Definition closer (z : Z) (a b : Z * Z) : Z * Z :=
  let da := Z.abs (fst a * 10 ^ snd a - z) in
  let db := Z.abs (fst b * 10 ^ snd b - z) in
  if da <? db then a
  else if db <? da then b
  else if Z.even (fst a) then a else b.

Definition best (z : Z) (l : list (Z * Z)) : option (Z * Z) :=
  match l with
  | [] => None
  | c :: l' => Some (fold_left (closer z) l' c)
  end.

(** The candidates with [k] digits: [n] is the number of digits of [z] or
    one more, and [s] is [z / 10^j] rounded down or up. *)
Definition candidates (z k : Z) : list (Z * Z) :=
  let d := num_digits z in
  flat_map
    (fun n =>
       let j := n - k in
       if j <? 0 then []
       else filter (fun c => candidate_ok z k (fst c) (snd c))
                   [(z / 10 ^ j, j); (z / 10 ^ j + 1, j)])
    [d; d + 1].

Fixpoint shortest_from (fuel : nat) (z k : Z) : Z * Z :=
  match fuel with
  | O => (z, 0)
  | S fuel' =>
      match best z (candidates z k) with
      | Some c => c
      | None => shortest_from fuel' z (k + 1)
      end
  end.

(** [(s, n - k)] for the positive integer-valued double [z]. *)
Definition shortest (z : Z) : Z * Z :=
  shortest_from (Z.to_nat (num_digits z)) z 1.

Definition toString_pos (z : Z) : string :=
  let (s, j) := shortest z in
  let digits := dec s in
  let k := Z.of_nat (String.length digits) in
  let n := k + j in
  if n <=? 21 then digits ++ repeat_char "0" (Z.to_nat j)
  else
    match digits with
    | String d1 EmptyString => String d1 ("e+" ++ dec (n - 1))
    | String d1 rest => String d1 ("." ++ rest ++ "e+" ++ dec (n - 1))
    | EmptyString => ""
    end.

Definition Number_toString (x : number) : string :=
  match x with
  | NaN => "NaN"
  | Infinity false => "Infinity"
  | Infinity true => "-Infinity"
  | Int z =>
      if z =? 0 then "0"
      else if z <? 0 then "-" ++ toString_pos (- z)
      else toString_pos z
  end.

(** *** [parseInt(string, 10)]

    Leading white space is skipped, an optional sign is read, then the
    longest prefix of decimal digits; without a digit the result is NaN.
    With radix 10 no [0x] prefix is recognised.  (For a numeral of more than
    20 significant digits the specification lets an implementation replace
    the digits after the 20th by zeros before rounding; the model rounds the
    exact value.) *)

Definition is_white_space1 (a : ascii) : bool :=
  let n := code a in
  ((9 <=? n) && (n <=? 13)) || (n =? 32).

(** U+00A0. *)
Definition is_white_space2 (a b : ascii) : bool :=
  (code a =? 194) && (code b =? 160).

(** U+1680, U+2000..U+200A, U+2028, U+2029, U+202F, U+205F, U+3000,
    U+FEFF. *)
Definition is_white_space3 (a b c : ascii) : bool :=
  let x := code a in
  let y := code b in
  let z := code c in
  ((x =? 225) && (y =? 154) && (z =? 128))
  || ((x =? 226) && (y =? 128)
      && (((128 <=? z) && (z <=? 138)) || (z =? 168) || (z =? 169) || (z =? 175)))
  || ((x =? 226) && (y =? 129) && (z =? 159))
  || ((x =? 227) && (y =? 128) && (z =? 128))
  || ((x =? 239) && (y =? 187) && (z =? 191)).

Fixpoint skip_white_space (s : string) : string :=
  match s with
  | EmptyString => s
  | String a r1 =>
      if is_white_space1 a then skip_white_space r1
      else
        match r1 with
        | EmptyString => s
        | String b r2 =>
            if is_white_space2 a b then skip_white_space r2
            else
              match r2 with
              | EmptyString => s
              | String c r3 =>
                  if is_white_space3 a b c then skip_white_space r3 else s
              end
        end
  end.

Definition is_digit (c : ascii) : bool :=
  (48 <=? code c) && (code c <=? 57).

Fixpoint digits_value (s : string) (acc : Z) (seen : bool) : option Z :=
  match s with
  | String c s' =>
      if is_digit c then digits_value s' (acc * 10 + (code c - 48)) true
      else if seen then Some acc else None
  | EmptyString => if seen then Some acc else None
  end.

Definition parseInt (s : string) : number :=
  let s1 := skip_white_space s in
  let '(negative, s2) :=
    match s1 with
    | String "-" r => (true, r)
    | String "+" r => (false, r)
    | _ => (false, s1)
    end in
  match digits_value s2 0 false with
  | None => NaN
  | Some v => of_integer (if negative then - v else v)
  end.

(** *** Division and [toFixed]

    [x / d] leaves the integers, so its result has a type of its own: a
    finite quotient is [m * 2^e], negated when [negative]. *)

Inductive quotient : Type :=
| QNaN
| QInf (negative : bool)
| QFin (negative : bool) (m e : Z).

(** The double nearest to [p / q] (ties to even) for [p, q > 0], as
    [(m, e)] with [2^52 <= m <= 2^53]; the quotients met here are far from
    the subnormal and the overflow range. *)
Definition round_ratio (p q : Z) : Z * Z :=
  let e1 := Z.log2 p - Z.log2 q - 52 in
  let below :=
    if 0 <=? e1 then p <? 2 ^ 52 * q * 2 ^ e1
    else p * 2 ^ (- e1) <? 2 ^ 52 * q in
  let e := if below then e1 - 1 else e1 in
  let N := if 0 <=? e then p else p * 2 ^ (- e) in
  let D := if 0 <=? e then q * 2 ^ e else q in
  let qt := N / D in
  let r := N mod D in
  let m := if 2 * r <? D then qt
           else if D <? 2 * r then qt + 1
           else if Z.even qt then qt else qt + 1 in
  (m, e).

(** [x / d] for a positive integer constant [d]. *)
Definition Number_div (x : number) (d : Z) : quotient :=
  match x with
  | NaN => QNaN
  | Infinity s => QInf s
  | Int z =>
      if z =? 0 then QFin false 0 0
      else let (m, e) := round_ratio (Z.abs z) d in QFin (z <? 0) m e
  end.

Definition pad_left (c : ascii) (len : nat) (s : string) : string :=
  repeat_char c (len - String.length s) ++ s.

(** [x.toFixed(f)]: below [10^21] the integer [n] nearest to [x * 10^f]
    (the larger one on a tie) is printed with [f] digits after the point;
    from [10^21] on the result is that of [toString]. *)
Definition toFixed (x : quotient) (f : Z) : string :=
  match x with
  | QNaN => "NaN"
  | QInf false => "Infinity"
  | QInf true => "-Infinity"
  | QFin negative m e =>
      let sign := if negative && negb (m =? 0) then "-" else "" in
      if (0 <=? e) && (10 ^ 21 <=? m * 2 ^ e)
      then sign ++ Number_toString (Int (m * 2 ^ e))
      else
        let n := if 0 <=? e then m * 2 ^ e * 10 ^ f
                 else (2 * m * 10 ^ f + 2 ^ (- e)) / (2 * 2 ^ (- e)) in
        let ds := pad_left "0" (S (Z.to_nat f)) (dec n) in
        let k := (String.length ds - Z.to_nat f)%nat in
        if f =? 0 then sign ++ ds
        else sign ++ substring 0 k ds ++ "." ++ substring k (Z.to_nat f) ds
  end.

(** *** Values

    The values that travel through the handlers: what [JSON.parse] returns,
    what object literals hold, and [undefined] for a property that is not
    there.  An object keeps its own properties in insertion order, each key
    once. *)

Inductive value : Type :=
| JUndefined
| JNull
| JBool (b : bool)
| JNum (n : number)
| JStr (s : string)
| JArr (items : list value)
| JObj (fields : list (string * value)).

(** ToBoolean. *)
Definition truthy (v : value) : bool :=
  match v with
  | JUndefined | JNull => false
  | JBool b => b
  | JNum NaN => false
  | JNum (Int z) => negb (z =? 0)
  | JNum (Infinity _) => true
  | JStr s => negb (s =? "")%string
  | JArr _ | JObj _ => true
  end.

Fixpoint assoc {A : Type} (k : string) (l : list (string * A)) : option A :=
  match l with
  | [] => None
  | (k', a) :: l' => if (k =? k')%string then Some a else assoc k l'
  end.

(** [v.name] for a property name that no prototype defines ([isValid],
    [invalidReason], [success], [errorReason], [transaction]): reading it
    off [null] or [undefined] throws a TypeError ([None]), an object gives
    its own property or [undefined], every other value gives [undefined]. *)
Definition get_prop (v : value) (name : string) : option value :=
  match v with
  | JUndefined | JNull => None
  | JObj fields =>
      match assoc name fields with
      | Some x => Some x
      | None => Some JUndefined
      end
  | _ => Some JUndefined
  end.

(** *** [JSON.stringify] *)

Fixpoint join (sep : string) (l : list string) : string :=
  match l with
  | [] => ""
  | [x] => x
  | x :: l' => x ++ sep ++ join sep l'
  end.

Definition hex_digit (d : Z) : ascii :=
  if d <? 10 then chr (48 + d) else chr (87 + d).

(** QuoteJSONString, one code unit at a time. *)
Definition quote_char (c : ascii) : string :=
  let n := code c in
  if n =? 8 then "\b"
  else if n =? 9 then "\t"
  else if n =? 10 then "\n"
  else if n =? 12 then "\f"
  else if n =? 13 then "\r"
  else if n =? 34 then String "\" (String c "")
  else if n =? 92 then "\\"
  else if n <? 32 then
    "\u00" ++ String (hex_digit (n / 16)) (String (hex_digit (n mod 16)) "")
  else String c "".

Fixpoint quote_body (s : string) : string :=
  match s with
  | EmptyString => ""
  | String c s' => quote_char c ++ quote_body s'
  end.

Definition dquote : ascii := chr 34.

Definition quote (s : string) : string :=
  String dquote (quote_body s ++ String dquote "").

(** SerializeJSONProperty: [None] is [undefined], which drops the property
    of an object and prints as [null] inside an array.  A Number that is not
    finite prints as [null]. *)
Fixpoint serialize (v : value) : option string :=
  match v with
  | JUndefined => None
  | JNull => Some "null"
  | JBool true => Some "true"
  | JBool false => Some "false"
  | JNum (Int z) => Some (Number_toString (Int z))
  | JNum _ => Some "null"
  | JStr s => Some (quote s)
  | JArr items =>
      Some ("[" ++ join ","
                     (map (fun x => match serialize x with
                                    | Some t => t
                                    | None => "null"
                                    end) items)
                ++ "]")
  | JObj fields =>
      Some ("{" ++ join ","
                     (flat_map (fun kv => match serialize (snd kv) with
                                          | Some t => [quote (fst kv) ++ ":" ++ t]
                                          | None => []
                                          end) fields)
                ++ "}")
  end.

(** [JSON.stringify(v)]; the handlers only ever pass object literals, for
    which the result is a string. *)
Definition JSON_stringify (v : value) : string :=
  match serialize v with
  | Some t => t
  | None => "undefined"
  end.

(** *** [btoa] and [atob] *)

Definition base64_alphabet : string :=
  "ABCDEFGHIJKLMNOPQRSTUVWXYZabcdefghijklmnopqrstuvwxyz0123456789+/".

Definition sextet_char (i : Z) : ascii :=
  match String.get (Z.to_nat i) base64_alphabet with
  | Some c => c
  | None => "="%char
  end.

(** The code units of a string when all of them are below 256 (a byte below
    128 is one unit; the two-byte sequences led by 0xC2 and 0xC3 are the
    units 128..255); [None] when a character lies above U+00FF. *)
Fixpoint latin1_units (s : string) : option (list Z) :=
  match s with
  | EmptyString => Some []
  | String a r =>
      if code a <? 128 then option_map (cons (code a)) (latin1_units r)
      else
        match r with
        | String b r' =>
            if (code a =? 194) || (code a =? 195)
            then option_map (cons ((code a - 194) * 64 + code b)) (latin1_units r')
            else None
        | EmptyString => None
        end
  end.

Fixpoint encode_base64 (l : list Z) : string :=
  match l with
  | [] => ""
  | [a] =>
      let n := a * 65536 in
      String (sextet_char (n / 262144))
        (String (sextet_char (n / 4096 mod 64)) "==")
  | [a; b] =>
      let n := a * 65536 + b * 256 in
      String (sextet_char (n / 262144))
        (String (sextet_char (n / 4096 mod 64))
           (String (sextet_char (n / 64 mod 64)) "="))
  | a :: b :: c :: rest =>
      let n := a * 65536 + b * 256 + c in
      String (sextet_char (n / 262144))
        (String (sextet_char (n / 4096 mod 64))
           (String (sextet_char (n / 64 mod 64))
              (String (sextet_char (n mod 64)) (encode_base64 rest))))
  end.

(** [btoa]; [None] is the InvalidCharacterError thrown for a character above
    U+00FF. *)
Definition btoa (s : string) : option string :=
  option_map encode_base64 (latin1_units s).

Definition sextet_of (c : ascii) : option Z :=
  let n := code c in
  if (65 <=? n) && (n <=? 90) then Some (n - 65)
  else if (97 <=? n) && (n <=? 122) then Some (n - 71)
  else if (48 <=? n) && (n <=? 57) then Some (n + 4)
  else if n =? 43 then Some 62
  else if n =? 47 then Some 63
  else None.

Definition is_ascii_white_space (c : ascii) : bool :=
  let n := code c in
  (n =? 9) || (n =? 10) || (n =? 12) || (n =? 13) || (n =? 32).

Fixpoint remove_white_space (s : string) : string :=
  match s with
  | EmptyString => ""
  | String c s' =>
      if is_ascii_white_space c then remove_white_space s'
      else String c (remove_white_space s')
  end.

Definition ends_with_eq (s : string) : bool :=
  match String.get (String.length s - 1) s with
  | Some c => (code c =? 61) && negb (String.length s =? 0)%nat
  | None => false
  end.

Definition drop_last (s : string) : string :=
  substring 0 (String.length s - 1) s.

(** One or two trailing [=] go when the length is a multiple of four. *)
Definition strip_padding (s : string) : string :=
  if (Nat.modulo (String.length s) 4 =? 0)%nat && ends_with_eq s then
    let s1 := drop_last s in
    if ends_with_eq s1 then drop_last s1 else s1
  else s.

Definition sextets (a b c d : ascii) : option Z :=
  match sextet_of a, sextet_of b, sextet_of c, sextet_of d with
  | Some x, Some y, Some z, Some w => Some (x * 262144 + y * 4096 + z * 64 + w)
  | _, _, _, _ => None
  end.

Fixpoint decode_sextets (s : string) : option (list Z) :=
  match s with
  | EmptyString => Some []
  | String _ EmptyString => None
  | String a (String b EmptyString) =>
      match sextets a b "A" "A" with
      | Some n => Some [n / 65536]
      | None => None
      end
  | String a (String b (String c EmptyString)) =>
      match sextets a b c "A" with
      | Some n => Some [n / 65536; n / 256 mod 256]
      | None => None
      end
  | String a (String b (String c (String d rest))) =>
      match sextets a b c d, decode_sextets rest with
      | Some n, Some t => Some (n / 65536 :: n / 256 mod 256 :: n mod 256 :: t)
      | _, _ => None
      end
  end.

(** The string whose code units are the given bytes. *)
Fixpoint of_latin1_units (l : list Z) : string :=
  match l with
  | [] => ""
  | u :: l' =>
      if u <? 128 then String (chr u) (of_latin1_units l')
      else String (chr (194 + u / 64 - 2))
             (String (chr (128 + u mod 64)) (of_latin1_units l'))
  end.

(** [atob] (forgiving-base64 decode); [None] is the InvalidCharacterError. *)
Definition atob (s : string) : option string :=
  option_map of_latin1_units
    (decode_sextets (strip_padding (remove_white_space s))).

(** *** [Headers.get]

    Header names are matched without regard to ASCII case; the values of
    several headers of one name are joined by a comma and a space; [None] is
    [null]. *)

Definition lower (c : ascii) : ascii :=
  if (65 <=? code c) && (code c <=? 90) then chr (code c + 32) else c.

Fixpoint lowercase (s : string) : string :=
  match s with
  | EmptyString => ""
  | String c s' => String (lower c) (lowercase s')
  end.

Definition Headers : Type := list (string * string).

Definition Headers_get (h : Headers) (name : string) : option string :=
  match filter (fun kv => (lowercase (fst kv) =? lowercase name)%string) h with
  | [] => None
  | l => Some (join ", " (map snd l))
  end.

(** [a || b] on header values: [null] and the empty string are falsy. *)
Definition or_else (a b : option string) : option string :=
  match a with
  | Some s => if (s =? "")%string then b else a
  | None => b
  end.

End JS.

(* ===================================================================== *)
(** ** [src/env.ts]                                                       *)
(* ===================================================================== *)

Module Env.

(** [process.env]: a variable is a string or is not set. *)
Definition process_env : Type := string -> option string.

(** [getServerEnv]: on the server [createServerOnlyFn(f)] is [f].  The
    object it returns has the single property [FACILITATOR_URL];
    [a ?? b] is [b] only when [a] is undefined. *)
Definition getServerEnv (env : process_env) : list (string * string) :=
  [("FACILITATOR_URL",
    match env "FACILITATOR_URL" with
    | Some u => u
    | None => "https://x402.org/facilitator"
    end)].

End Env.

(* ===================================================================== *)
(** ** The route [/api/donate/$recipient/$network]                        *)
(* ===================================================================== *)

Module Donate.

Import JS.

Module Eip712.
Record t : Type := { name : string; version : string }.
End Eip712.

Module NetworkConfig.
Record t : Type := {
  chainId : Z;
  chainIdCAIP : string;
  asset : string;
  name : string;
  eip712 : Eip712.t
}.
End NetworkConfig.

(** x402 v2 payment requirements format. *)
Module PaymentRequirement.
Record t : Type := {
  scheme : string;
  network : string;
  amount : string;
  resource : string;
  description : string;
  mimeType : string;
  payTo : string;
  maxTimeoutSeconds : number;
  asset : string;
  extra : list (string * value)
}.

(** The object that an object literal with these properties is, in the
    order the literal lists them. *)
Definition to_value (r : t) : value :=
  JObj [("scheme", JStr (scheme r));
        ("network", JStr (network r));
        ("amount", JStr (amount r));
        ("resource", JStr (resource r));
        ("description", JStr (description r));
        ("mimeType", JStr (mimeType r));
        ("payTo", JStr (payTo r));
        ("maxTimeoutSeconds", JNum (maxTimeoutSeconds r));
        ("asset", JStr (asset r));
        ("extra", JObj (extra r))].
End PaymentRequirement.

Definition NETWORK_CONFIG : list (string * NetworkConfig.t) :=
  [("base-sepolia",
    {| NetworkConfig.chainId := 84532;
       NetworkConfig.chainIdCAIP := "eip155:84532";
       NetworkConfig.asset := "0x036CbD53842c5426634e7929541eC2318f3dCF7e";
       NetworkConfig.name := "Base Sepolia";
       NetworkConfig.eip712 := {| Eip712.name := "USDC"; Eip712.version := "2" |} |});
   ("base",
    {| NetworkConfig.chainId := 8453;
       NetworkConfig.chainIdCAIP := "eip155:8453";
       NetworkConfig.asset := "0x833589fCD6eDb6E08f4c7C32D4f71b54bdA02913";
       NetworkConfig.name := "Base";
       NetworkConfig.eip712 := {| Eip712.name := "USD Coin"; Eip712.version := "2" |} |});
   ("sepolia",
    {| NetworkConfig.chainId := 11155111;
       NetworkConfig.chainIdCAIP := "eip155:11155111";
       NetworkConfig.asset := "0x1c7D4B196Cb0C7B01d743Fbc6116a902379C7238";
       NetworkConfig.name := "Sepolia";
       NetworkConfig.eip712 := {| Eip712.name := "USDC"; Eip712.version := "2" |} |});
   ("mainnet",
    {| NetworkConfig.chainId := 1;
       NetworkConfig.chainIdCAIP := "eip155:1";
       NetworkConfig.asset := "0xA0b86991c6218b36c1d19D4a2e9Eb0cE3606eB48";
       NetworkConfig.name := "Ethereum";
       NetworkConfig.eip712 := {| Eip712.name := "USD Coin"; Eip712.version := "2" |} |})].

(** [NETWORK_CONFIG] is an object literal, so [NETWORK_CONFIG[network]]
    also finds what [Object.prototype] provides: for those names the value
    read is a function (or the prototype itself), which is truthy and has
    none of the properties of a network configuration. *)
Definition Object_prototype_names : list string :=
  ["constructor"; "__defineGetter__"; "__defineSetter__"; "hasOwnProperty";
   "__lookupGetter__"; "__lookupSetter__"; "isPrototypeOf";
   "propertyIsEnumerable"; "toString"; "valueOf"; "__proto__";
   "toLocaleString"].

Inductive looked_up : Type :=
| Own (c : NetworkConfig.t)
| Inherited
| Undefined.

Definition NETWORK_CONFIG_at (network : string) : looked_up :=
  match assoc network NETWORK_CONFIG with
  | Some c => Own c
  | None =>
      if existsb (String.eqb network) Object_prototype_names
      then Inherited else Undefined
  end.

(** [!NETWORK_CONFIG[network]]. *)
Definition not_configured (network : string) : bool :=
  match NETWORK_CONFIG_at network with
  | Undefined => true
  | _ => false
  end.

(** Build x402 v2 payment requirements for a donation.  [None] stands for
    an exception: the [Error("Unsupported network")] of the source, or the
    TypeError of reading [.name] off the missing [eip712] of an inherited
    property. *)
Definition buildPaymentRequirements
    (recipient network : string) (amountCents : number) (resourceUrl : string)
  : option (list PaymentRequirement.t) :=
  match NETWORK_CONFIG_at network with
  | Undefined => None
  | Inherited => None
  | Own networkConfig =>
      let amountInUsdcUnits := Number_toString (Number_mul amountCents (Int 10000)) in
      let priceInDollars := toFixed (Number_div amountCents 100) 2 in
      Some
        [{| PaymentRequirement.scheme := "exact";
            PaymentRequirement.network := NetworkConfig.chainIdCAIP networkConfig;
            PaymentRequirement.amount := amountInUsdcUnits;
            PaymentRequirement.resource := resourceUrl;
            PaymentRequirement.description :=
              "Donation of $" ++ priceInDollars ++ " to " ++ recipient;
            PaymentRequirement.mimeType := "application/json";
            PaymentRequirement.payTo := recipient;
            PaymentRequirement.maxTimeoutSeconds := Int 300;
            PaymentRequirement.asset := NetworkConfig.asset networkConfig;
            PaymentRequirement.extra :=
              [("name", JStr (Eip712.name (NetworkConfig.eip712 networkConfig)));
               ("version", JStr (Eip712.version (NetworkConfig.eip712 networkConfig)))]
         |}]
  end.

(** *** Responses *)

Record Response : Type := {
  status : Z;
  headers : Headers;
  body : string
}.

(** [Response.json(data, { status })]. *)
Definition Response_json (data : value) (st : Z) : Response :=
  {| status := st;
     headers := [("content-type", "application/json")];
     body := JSON_stringify data |}.

(** The object serialised into the [PAYMENT-REQUIRED] header. *)
Definition paymentRequired (paymentRequirements : list PaymentRequirement.t) : value :=
  JObj [("x402Version", JNum (Int 2));
        ("accepts", JArr (map PaymentRequirement.to_value paymentRequirements));
        ("error", JStr "Payment Required")].

(** Create a 402 Payment Required response with x402 v2 format; [None] when
    [btoa] throws. *)
Definition createPaymentRequiredResponse
    (paymentRequirements : list PaymentRequirement.t) : option Response :=
  match btoa (JSON_stringify (paymentRequired paymentRequirements)) with
  | None => None
  | Some encodedPaymentRequired =>
      Some {| status := 402;
              headers := [("Content-Type", "application/json");
                          ("PAYMENT-REQUIRED", encodedPaymentRequired)];
              body := JSON_stringify (JObj [("error", JStr "Payment Required")]) |}
  end.

(** *** Requests *)

Record Params : Type := { recipient : string; network : string }.

(** An incoming request: [request.url], the value of
    [new URL(request.url).searchParams.get("amount")] and the headers. *)
Record Request : Type := {
  url : string;
  searchParams_amount : option string;
  request_headers : Headers
}.

(** [/^0x[a-fA-F0-9]{40}$/.test(s)] *)
Definition is_hex (c : ascii) : bool :=
  let n := code c in
  ((48 <=? n) && (n <=? 57)) || ((97 <=? n) && (n <=? 102))
  || ((65 <=? n) && (n <=? 70)).

Fixpoint all_chars (p : ascii -> bool) (s : string) : bool :=
  match s with
  | EmptyString => true
  | String c s' => p c && all_chars p s'
  end.

Definition is_address (s : string) : bool :=
  match s with
  | String "0" (String "x" r) => (String.length r =? 40)%nat && all_chars is_hex r
  | _ => false
  end.

(** [Number.parseInt(url.searchParams.get("amount") || "100", 10)] *)
Definition amountCents_of (request : Request) : number :=
  parseInt (match or_else (searchParams_amount request) (Some "100") with
            | Some s => s
            | None => "100"
            end).

(** *** Asynchronous handlers

    A handler runs against the outside world, here the facilitator reached
    through [fetch]; it either returns a value or throws, and the requests
    it has sent so far are kept in order. *)

Record FetchRequest : Type := {
  fetch_url : string;
  fetch_method : string;
  fetch_headers : Headers;
  fetch_body : string
}.

(** What the handler can see of a response: [status], the result of
    [text()] and the result of [json()] ([None]: the body is not JSON and
    the promise rejects). *)
Record FetchResponse : Type := {
  response_status : Z;
  response_text : string;
  response_json : option value
}.

Inductive settled (A : Type) : Type :=
| Fulfilled (a : A)
| Rejected.
Arguments Fulfilled {A} a.
Arguments Rejected {A}.

Definition Async (A : Type) : Type :=
  list FetchRequest -> settled A * list FetchRequest.

Definition ret {A : Type} (a : A) : Async A := fun sent => (Fulfilled a, sent).

Definition throw {A : Type} : Async A := fun sent => (Rejected, sent).

Definition bind {A B : Type} (m : Async A) (k : A -> Async B) : Async B :=
  fun sent =>
    match m sent with
    | (Fulfilled a, sent') => k a sent'
    | (Rejected, sent') => (Rejected, sent')
    end.

(** [try { m } catch (err) { handler }] *)
Definition try_catch {A : Type} (m handler : Async A) : Async A :=
  fun sent =>
    match m sent with
    | (Rejected, sent') => handler sent'
    | r => r
    end.

(** A computation that throws when it has no result. *)
Definition lift {A : Type} (o : option A) : Async A :=
  match o with
  | Some a => ret a
  | None => throw
  end.

Notation "'let*' x ':=' m 'in' k" := (bind m (fun x => k))
  (at level 10, x name, m at level 100, k at level 200).

(** [response.ok] *)
Definition ok (r : FetchResponse) : bool :=
  (200 <=? response_status r) && (response_status r <=? 299).

(** A template literal prints an undefined value as [undefined]. *)
Definition template (o : option string) : string :=
  match o with
  | Some s => s
  | None => "undefined"
  end.

(** [a[0]] *)
Definition first_value (l : list PaymentRequirement.t) : value :=
  match l with
  | r :: _ => PaymentRequirement.to_value r
  | [] => JUndefined
  end.

(** The literal of the success message, byte for byte as the source file
    has it: the ASCII text followed by the three characters U+00E2, U+02DC
    and U+2022. *)
Definition thank_you : string :=
  "Thank you for your donation! "
  ++ String (chr 195) (String (chr 162) (String (chr 203) (String (chr 156)
       (String (chr 226) (String (chr 128) (String (chr 162) "")))))).

Section Handlers.

(** [JSON.parse]; [None] is the SyntaxError. *)
Variable JSON_parse : string -> option value.

(** [process.env] *)
Variable env : Env.process_env.

(** The world behind [fetch]: for every request either a response or a
    rejection (network failure, timeout). *)
Variable world : FetchRequest -> settled FetchResponse.

Definition fetch (r : FetchRequest) : Async FetchResponse :=
  fun sent => (world r, (sent ++ [r])%list).

(** GET returns 402 with payment requirements. *)
Definition GET (request : Request) (params : Params) : Async Response :=
  let recipient := recipient params in
  let network := network params in
  let amountCents := amountCents_of request in
  (* Validate recipient address *)
  if negb (is_address recipient) then
    ret (Response_json (JObj [("error", JStr "Invalid recipient address")]) 400)
  (* Validate network *)
  else if not_configured network then
    ret (Response_json (JObj [("error", JStr "Unsupported network")]) 400)
  (* Validate amount *)
  else if Number_lt amountCents (Int 1) then
    ret (Response_json (JObj [("error", JStr "Invalid amount")]) 400)
  else
    let* paymentRequirements :=
      lift (buildPaymentRequirements recipient network amountCents (url request)) in
    lift (createPaymentRequiredResponse paymentRequirements).

(** [request.headers.get("PAYMENT-SIGNATURE") || .. || ..get("x-payment")] *)
Definition paymentHeader_of (request : Request) : option string :=
  let h := request_headers request in
  or_else
    (or_else
       (or_else (Headers_get h "PAYMENT-SIGNATURE")
                (Headers_get h "payment-signature"))
       (Headers_get h "X-PAYMENT"))
    (Headers_get h "x-payment").

Definition facilitator_body (paymentPayload : value)
    (paymentRequirements : list PaymentRequirement.t) : value :=
  JObj [("x402Version", JNum (Int 2));
        ("paymentPayload", paymentPayload);
        ("paymentRequirements", first_value paymentRequirements)].

(** The headers sent to the facilitator. *)
Definition facilitator_headers (FACILITATOR_API_KEY : option string) : Headers :=
  match FACILITATOR_API_KEY with
  | Some key =>
      if (key =? "")%string then [("Content-Type", "application/json")]
      else [("Content-Type", "application/json"); ("X-API-KEY", key)]
  | None => [("Content-Type", "application/json")]
  end.

(** The body of the [try] block of POST, from the decoding of the payment
    header to the success response. *)
Definition redeem (request : Request) (params : Params)
    (paymentHeader : string) : Async Response :=
  let recipient := recipient params in
  let network := network params in
  let amountCents := amountCents_of request in
  (* Parse the payment payload from the header (base64 encoded) *)
  let* decoded := lift (atob paymentHeader) in
  let* paymentPayload := lift (JSON_parse decoded) in
  (* Build payment requirements (must match what was sent in 402) *)
  let* paymentRequirements :=
    lift (buildPaymentRequirements recipient network amountCents (url request)) in
  let server_env := Env.getServerEnv env in
  let FACILITATOR_URL := assoc "FACILITATOR_URL" server_env in
  let FACILITATOR_API_KEY := assoc "FACILITATOR_API_KEY" server_env in
  (* Step 1: Verify the payment with the facilitator *)
  let verifyRequestBody := facilitator_body paymentPayload paymentRequirements in
  let headers := facilitator_headers FACILITATOR_API_KEY in
  let* verifyResponse :=
    fetch {| fetch_url := template FACILITATOR_URL ++ "/verify";
             fetch_method := "POST";
             fetch_headers := headers;
             fetch_body := JSON_stringify verifyRequestBody |} in
  if negb (ok verifyResponse) then
    let errorText := response_text verifyResponse in
    ret (Response_json
           (JObj [("error", JStr "Payment verification failed");
                  ("details", JStr errorText)]) 400)
  else
    let* verifyResult := lift (response_json verifyResponse) in
    let* isValid := lift (get_prop verifyResult "isValid") in
    if negb (truthy isValid) then
      let* invalidReason := lift (get_prop verifyResult "invalidReason") in
      ret (Response_json
             (JObj [("error", JStr "Invalid payment");
                    ("reason", invalidReason)]) 400)
    else
      (* Step 2: Settle the payment with the facilitator *)
      let settleRequestBody := facilitator_body paymentPayload paymentRequirements in
      let* settleResponse :=
        fetch {| fetch_url := template FACILITATOR_URL ++ "/settle";
                 fetch_method := "POST";
                 fetch_headers := headers;
                 fetch_body := JSON_stringify settleRequestBody |} in
      if negb (ok settleResponse) then
        let errorText := response_text settleResponse in
        ret (Response_json
               (JObj [("error", JStr "Payment settlement failed");
                      ("details", JStr errorText)]) 500)
      else
        let* settleResult := lift (response_json settleResponse) in
        let* success := lift (get_prop settleResult "success") in
        if negb (truthy success) then
          let* errorReason := lift (get_prop settleResult "errorReason") in
          ret (Response_json
                 (JObj [("error", JStr "Settlement failed");
                        ("reason", errorReason)]) 500)
        else
          (* Return success response with transaction hash *)
          let* transaction := lift (get_prop settleResult "transaction") in
          ret (Response_json
                 (JObj [("success", JBool true);
                        ("message", JStr thank_you);
                        ("recipient", JStr recipient);
                        ("network", JStr network);
                        ("txHash", transaction)]) 200).

(** POST handles the payment verification and settlement. *)
Definition POST (request : Request) (params : Params) : Async Response :=
  let recipient := recipient params in
  let network := network params in
  let amountCents := amountCents_of request in
  (* Validate network *)
  if not_configured network then
    ret (Response_json (JObj [("error", JStr "Unsupported network")]) 400)
  else
    (* Check for payment header (x402 v2 uses PAYMENT-SIGNATURE, v1 uses X-PAYMENT) *)
    let paymentHeader := paymentHeader_of request in
    (* No payment provided, return 402 *)
    let challenge :=
      let* paymentRequirements :=
        lift (buildPaymentRequirements recipient network amountCents (url request)) in
      lift (createPaymentRequiredResponse paymentRequirements) in
    match paymentHeader with
    | None => challenge
    | Some header =>
        if (header =? "")%string then challenge
        else
          try_catch
            (redeem request params header)
            (ret (Response_json (JObj [("error", JStr "Payment processing failed")]) 500))
    end.

End Handlers.

(** Running a handler from the start: its result and the requests sent to
    the facilitator, in order. *)
Definition run {A : Type} (m : Async A) : settled A * list FetchRequest := m [].

(** *** Vocabulary of the statements *)

(** Every byte below 128: the string is ASCII text. *)
Definition is_ascii (s : string) : bool := all_chars (fun c => code c <? 128) s.

(** The facilitator endpoints, as [redeem] forms them. *)
Definition facilitator_url (env : Env.process_env) : string :=
  template (assoc "FACILITATOR_URL" (Env.getServerEnv env)).

Definition verify_url (env : Env.process_env) : string :=
  facilitator_url env ++ "/verify".

Definition settle_url (env : Env.process_env) : string :=
  facilitator_url env ++ "/settle".

(** A request sent to the settle endpoint. *)
Definition is_settle (env : Env.process_env) (r : FetchRequest) : bool :=
  (fetch_url r =? settle_url env)%string.

(** Neither payment header is there. *)
Definition no_payment_header (request : Request) : Prop :=
  Headers_get (request_headers request) "PAYMENT-SIGNATURE" = None /\
  Headers_get (request_headers request) "X-PAYMENT" = None.

Section Vocabulary.
Variable JSON_parse : string -> option value.
Variable env : Env.process_env.
Variable world : FetchRequest -> settled FetchResponse.

(** What the facilitator does with the requests to an endpoint. *)
Definition verify_answers (vr : FetchResponse) : Prop :=
  forall r, fetch_url r = verify_url env -> world r = Fulfilled vr.

Definition settle_answers (sr : FetchResponse) : Prop :=
  forall r, fetch_url r = settle_url env -> world r = Fulfilled sr.

Definition verify_fails : Prop :=
  forall r, fetch_url r = verify_url env -> world r = Rejected.

(** A verify request that was answered with a 2xx response whose JSON body
    has a truthy [isValid]. *)
Definition valid_verify (v : FetchRequest) : Prop :=
  fetch_url v = verify_url env /\
  exists vr body isValid,
    world v = Fulfilled vr /\ ok vr = true /\ response_json vr = Some body /\
    get_prop body "isValid" = Some isValid /\ truthy isValid = true.

(** The request reaches the facilitator: its network is configured, it
    carries a payment header, and the header decodes to a payload. *)
Definition redeemable (request : Request) (params : Params) : Prop :=
  (exists cfg, NETWORK_CONFIG_at (network params) = Own cfg) /\
  exists header decoded payload,
    paymentHeader_of request = Some header /\ header <> "" /\
    atob header = Some decoded /\ JSON_parse decoded = Some payload.

(** POST answers with [resp]. *)
Definition responds (request : Request) (params : Params) (resp : Response) : Prop :=
  fst (run (POST JSON_parse env world request params)) = Fulfilled resp.

End Vocabulary.

(** *** The statements of the specification, as it words them *)

(** Every string inside a value is ASCII text. *)
Fixpoint ascii_value (v : value) : bool :=
  match v with
  | JStr s => is_ascii s
  | JArr items => forallb ascii_value items
  | JObj fields =>
      forallb (fun kv => is_ascii (fst kv) && ascii_value (snd kv)) fields
  | _ => true
  end.

(** The amount of the single requirement is the decimal numeral of
    [c * 10000]. *)
Definition amount_is_exact (recipient network : string) (c : Z)
    (resourceUrl : string) : Prop :=
  exists r,
    buildPaymentRequirements recipient network (Int c) resourceUrl = Some [r] /\
    PaymentRequirement.amount r = decimal (c * 10000).

(** GET answers 402 with the body [{error}] and a [PAYMENT-REQUIRED] header
    that is the Base64 form of the serialised object [wrap reqs]. *)
Definition challenges_with (wrap : list PaymentRequirement.t -> value)
    (request : Request) (params : Params) : Prop :=
  exists reqs blob,
    buildPaymentRequirements (recipient params) (network params)
      (amountCents_of request) (url request) = Some reqs /\
    btoa (JSON_stringify (wrap reqs)) = Some blob /\
    run (GET request params) =
      (Fulfilled
         {| status := 402;
            headers := [("Content-Type", "application/json");
                        ("PAYMENT-REQUIRED", blob)];
            body := JSON_stringify (JObj [("error", JStr "Payment Required")]) |},
       []).

(** The object of the challenge with the version under the key
    [protocolVersion]. *)
Definition protocolVersion_object (reqs : list PaymentRequirement.t) : value :=
  JObj [("protocolVersion", JNum (Int 2));
        ("accepts", JArr (map PaymentRequirement.to_value reqs));
        ("error", JStr "Payment Required")].

(** A request that carries both payment headers has the value of
    [PAYMENT-SIGNATURE] as its payment header. *)
Definition signature_header_wins (request : Request) : Prop :=
  forall ps xp,
    Headers_get (request_headers request) "PAYMENT-SIGNATURE" = Some ps ->
    Headers_get (request_headers request) "X-PAYMENT" = Some xp ->
    paymentHeader_of request = Some ps.

Section Described.
Variable JSON_parse : string -> option value.
Variable env : Env.process_env.
Variable world : FetchRequest -> settled FetchResponse.

(** Every request to the settle endpoint comes second, after a verify request
    that was answered 2xx with [isValid] equal to [true]. *)
Definition settle_follows_isValid_true (request : Request) (params : Params) : Prop :=
  forall s,
    In s (snd (run (POST JSON_parse env world request params))) ->
    fetch_url s = settle_url env ->
    exists v vr body,
      snd (run (POST JSON_parse env world request params)) = [v; s] /\
      fetch_url v = verify_url env /\
      world v = Fulfilled vr /\ ok vr = true /\ response_json vr = Some body /\
      get_prop body "isValid" = Some (JBool true).

(** POST answers with status 400. *)
Definition answers_400 (request : Request) (params : Params) : Prop :=
  exists resp, responds JSON_parse env world request params resp /\ status resp = 400.

(** GET and POST give one and the same 402 response. *)
Definition same_challenge (request : Request) (params : Params) : Prop :=
  exists resp,
    status resp = 402 /\
    run (GET request params) = (Fulfilled resp, []) /\
    run (POST JSON_parse env world request params) = (Fulfilled resp, []).

End Described.

(** *** Further vocabulary *)

(** The keys of [NETWORK_CONFIG]. *)
Definition configured_networks : list string :=
  ["base-sepolia"; "base"; "sepolia"; "mainnet"].

(** The answer of the [catch] block of POST. *)
Definition processing_failed : Response :=
  Response_json (JObj [("error", JStr "Payment processing failed")]) 500.

(** A JSON response that reports an error: the content type is
    [application/json] and the body is the JSON text of an object whose
    first property is [error], a string. *)
Definition error_response (resp : Response) : Prop :=
  Headers_get (headers resp) "Content-Type" = Some "application/json" /\
  exists message rest,
    body resp = JSON_stringify (JObj (("error", JStr message) :: rest)).

(** The string does not go on with a decimal digit. *)
Definition no_digit_ahead (s : string) : bool :=
  match s with
  | EmptyString => true
  | String c _ => negb (is_digit c)
  end.

(** Dollars and cents: the numeral of [c / 100], a point, and the two digits
    of [c mod 100]. *)
Definition dollars (c : Z) : string :=
  dec (c / 100) ++ "."
  ++ String (digit_char (c / 10 mod 10)) (String (digit_char (c mod 10)) "").

(** The bytes of a string. *)
Fixpoint bytes_of (s : string) : list Z :=
  match s with
  | EmptyString => []
  | String c s' => code c :: bytes_of s'
  end.

Definition is_byte (u : Z) : Prop := 0 <= u < 256.

Section Exchanges.
Variable JSON_parse : string -> option value.
Variable env : Env.process_env.
Variable world : FetchRequest -> settled FetchResponse.

(** The facilitator cannot be reached for settling. *)
Definition settle_fails : Prop :=
  forall r, fetch_url r = settle_url env -> world r = Rejected.

(** A settle request that was answered with a 2xx response whose JSON body
    has a truthy [success] and the transaction [transaction]. *)
Definition successful_settle (s : FetchRequest) (transaction : value) : Prop :=
  fetch_url s = settle_url env /\
  exists sr sbody success,
    world s = Fulfilled sr /\ ok sr = true /\ response_json sr = Some sbody /\
    get_prop sbody "success" = Some success /\ truthy success = true /\
    get_prop sbody "transaction" = Some transaction.

(** The payment went through: verify accepted it, settle succeeded, and the
    response is the success body for the transaction. *)
Definition settled_outcome (params : Params) (resp : Response)
    (sent : list FetchRequest) : Prop :=
  exists v s transaction,
    sent = [v; s] /\ valid_verify env world v /\
    successful_settle s transaction /\
    resp = Response_json
             (JObj [("success", JBool true);
                    ("message", JStr thank_you);
                    ("recipient", JStr (recipient params));
                    ("network", JStr (network params));
                    ("txHash", transaction)]) 200.

(** The request that [redeem] sends to an endpoint of the facilitator: a
    POST to the URL of the environment (or the default one) followed by the
    endpoint, with the decoded payment header and the requirement built for
    the request as body. *)
Definition facilitator_request (request : Request) (params : Params)
    (endpoint : string) (r : FetchRequest) : Prop :=
  exists header decoded payload reqs,
    paymentHeader_of request = Some header /\
    atob header = Some decoded /\ JSON_parse decoded = Some payload /\
    buildPaymentRequirements (recipient params) (network params)
      (amountCents_of request) (url request) = Some reqs /\
    r = {| fetch_url :=
             match env "FACILITATOR_URL" with
             | Some u => u
             | None => "https://x402.org/facilitator"
             end ++ endpoint;
           fetch_method := "POST";
           fetch_headers := [("Content-Type", "application/json")];
           fetch_body :=
             JSON_stringify
               (JObj [("x402Version", JNum (Int 2));
                      ("paymentPayload", payload);
                      ("paymentRequirements", first_value reqs)]) |}.

End Exchanges.

End Donate.

(* ===================================================================== *)
(** ** Test doubles                                                       *)
(* ===================================================================== *)

(** Concrete requests, environments and facilitators on which the
    statements below are evaluated. *)
Module Doubles.

Import JS Donate.

Definition example_recipient : string := "0x" ++ repeat_char "a" 40.

Definition example_url : string :=
  "https://donate.example/api/donate/" ++ example_recipient ++ "/base?amount=300".

Definition example_params : Params :=
  {| recipient := example_recipient; network := "base" |}.

Definition example_request (amount : option string) (h : Headers) : Request :=
  {| url := example_url; searchParams_amount := amount; request_headers := h |}.

(** [JSON.parse] on the one text the examples decode: [{}] is the empty
    object. *)
Definition parse_empty_object (s : string) : option value :=
  if (s =? "{}")%string then Some (JObj []) else None.

(** [e30=] is the Base64 form of [{}]. *)
Definition paying_request : Request :=
  example_request (Some "300") [("PAYMENT-SIGNATURE", "e30=")].

Definition no_env : Env.process_env := fun _ => None.

Definition env_with_key : Env.process_env :=
  fun name => if (name =? "FACILITATOR_API_KEY")%string then Some "secret" else None.

Definition json_response (st : Z) (v : value) : FetchResponse :=
  {| response_status := st;
     response_text := JSON_stringify v;
     response_json := Some v |}.

Definition text_response (st : Z) (t : string) : FetchResponse :=
  {| response_status := st; response_text := t; response_json := None |}.

(** A facilitator that answers its two endpoints as told. *)
Definition facilitator (env : Env.process_env)
    (verify settle : settled FetchResponse) (r : FetchRequest)
  : settled FetchResponse :=
  if (fetch_url r =? verify_url env)%string then verify
  else if (fetch_url r =? settle_url env)%string then settle
  else Rejected.

Definition verify_valid : settled FetchResponse :=
  Fulfilled (json_response 200 (JObj [("isValid", JBool true)])).

Definition verify_expired : settled FetchResponse :=
  Fulfilled (json_response 200
               (JObj [("isValid", JBool false); ("invalidReason", JStr "expired")])).

Definition verify_yes : settled FetchResponse :=
  Fulfilled (json_response 200 (JObj [("isValid", JStr "yes")])).

Definition verify_unavailable : settled FetchResponse :=
  Fulfilled (text_response 503 "Service Unavailable").

Definition settle_paid : settled FetchResponse :=
  Fulfilled (json_response 200
               (JObj [("success", JBool true); ("transaction", JStr "0xabc123")])).

Definition settle_insufficient : settled FetchResponse :=
  Fulfilled (json_response 200
               (JObj [("success", JBool false);
                      ("errorReason", JStr "insufficient_funds")])).

(** A request that pays with the given header. *)
Definition paying_with (header : string) : Request :=
  example_request (Some "300") [("PAYMENT-SIGNATURE", header)].

Definition settle_unavailable : settled FetchResponse :=
  Fulfilled (text_response 503 "Service Unavailable").

Definition verify_plain_text : settled FetchResponse :=
  Fulfilled (text_response 200 "OK").

Definition verify_empty_object : settled FetchResponse :=
  Fulfilled (json_response 200 (JObj [])).

End Doubles.

(* ===================================================================== *)
(** ** Facts about the platform                                           *)
(* ===================================================================== *)

Import JS Donate Doubles.

(** *** Decimal numerals *)

Lemma append_nil_r (s : string) : s ++ "" = s.
Proof. induction s; simpl; congruence. Qed.

Lemma append_assoc (a b c : string) : (a ++ b) ++ c = a ++ (b ++ c).
Proof. induction a; simpl; congruence. Qed.

Lemma dec_aux_acc (fuel : nat) : forall z acc,
  dec_aux fuel z acc = dec_aux fuel z "" ++ acc.
Proof.
  induction fuel as [|f IH]; intros z acc; simpl.
  - reflexivity.
  - destruct (z <? 10).
    + reflexivity.
    + rewrite (IH (z / 10) (String _ acc)), (IH (z / 10) (String _ "")).
      rewrite append_assoc. reflexivity.
Qed.

Lemma dec_aux_S (f : nat) (z : Z) (acc : string) :
  dec_aux (S f) z acc =
  if z <? 10 then String (digit_char (z mod 10)) acc
  else dec_aux f (z / 10) (String (digit_char (z mod 10)) acc).
Proof. reflexivity. Qed.

Lemma dec_aux_fuel (f : nat) : forall (g : nat) z acc,
  0 <= z -> z < 10 ^ Z.of_nat (S f) -> z < 10 ^ Z.of_nat (S g) ->
  dec_aux (S f) z acc = dec_aux (S g) z acc.
Proof.
  induction f as [|f IH]; intros g z acc Hz Hf Hg.
  - change (10 ^ Z.of_nat 1) with 10 in Hf.
    simpl. destruct (Z.ltb_spec z 10); [reflexivity | lia].
  - rewrite !dec_aux_S. destruct (Z.ltb_spec z 10) as [Hlt|Hge]; [reflexivity|].
    destruct g as [|g].
    + change (10 ^ Z.of_nat 1) with 10 in Hg. lia.
    + apply IH.
      * apply Z.div_pos; lia.
      * apply Z.div_lt_upper_bound; [lia|].
        rewrite Nat2Z.inj_succ, Z.pow_succ_r in Hf by lia. lia.
      * apply Z.div_lt_upper_bound; [lia|].
        rewrite Nat2Z.inj_succ, Z.pow_succ_r in Hg by lia. lia.
Qed.

Lemma pow2_le_pow10 (n : Z) : 0 <= n -> 2 ^ n <= 10 ^ n.
Proof. intros H. apply Z.pow_le_mono_l. lia. Qed.

Lemma dec_fuel (z : Z) (g : nat) :
  0 <= z -> z < 10 ^ Z.of_nat (S g) -> dec z = dec_aux (S g) z "".
Proof.
  intros Hz Hg. unfold dec. apply dec_aux_fuel; trivial.
  destruct (Z.eq_dec z 0) as [->|Hnz].
  - apply Z.pow_pos_nonneg; lia.
  - pose proof (Z.log2_spec z ltac:(lia)) as [_ Hlog].
    pose proof (Z.log2_nonneg z).
    rewrite Nat2Z.inj_succ, Z2Nat.id by lia.
    pose proof (pow2_le_pow10 (Z.succ (Z.log2 z)) ltac:(lia)). lia.
Qed.

Lemma dec_times_10 (s : Z) : 1 <= s -> dec (10 * s) = dec s ++ "0".
Proof.
  intros Hs.
  pose proof (Z.log2_nonneg s) as Hl.
  pose proof (Z.log2_spec s ltac:(lia)) as [_ Hlog].
  pose proof (pow2_le_pow10 (Z.succ (Z.log2 s)) ltac:(lia)) as Hp.
  set (g := Z.to_nat (Z.log2 s)).
  assert (Hg : s < 10 ^ Z.of_nat (S g)).
  { unfold g. rewrite Nat2Z.inj_succ, Z2Nat.id by lia. lia. }
  rewrite (dec_fuel (10 * s) (S g)); [| lia |].
  - rewrite dec_aux_S.
    replace (10 * s / 10) with s by (rewrite Z.mul_comm, Z.div_mul; lia).
    replace ((10 * s) mod 10) with 0 by (rewrite Z.mul_comm, Z.mod_mul; lia).
    destruct (Z.ltb_spec (10 * s) 10); [lia|].
    rewrite dec_aux_acc. rewrite <- (dec_fuel s g) by (trivial; lia).
    reflexivity.
  - rewrite Nat2Z.inj_succ, Z.pow_succ_r by lia. lia.
Qed.

Lemma repeat_char_snoc (c : ascii) (n : nat) :
  repeat_char c (S n) = repeat_char c n ++ String c "".
Proof. induction n; simpl in *; congruence. Qed.

Lemma dec_shift (s : Z) (j : nat) :
  1 <= s -> dec (s * 10 ^ Z.of_nat j) = dec s ++ repeat_char "0" j.
Proof.
  intros Hs. induction j as [|j IH].
  - simpl. rewrite Z.mul_1_r, append_nil_r. reflexivity.
  - rewrite Nat2Z.inj_succ, Z.pow_succ_r by lia.
    replace (s * (10 * 10 ^ Z.of_nat j)) with (10 * (s * 10 ^ Z.of_nat j)) by lia.
    assert (0 < 10 ^ Z.of_nat j) by (apply Z.pow_pos_nonneg; lia).
    rewrite dec_times_10 by nia.
    rewrite IH, repeat_char_snoc, append_assoc. reflexivity.
Qed.

Lemma length_append (a b : string) :
  String.length (a ++ b) = (String.length a + String.length b)%nat.
Proof. induction a; simpl; congruence. Qed.

Lemma dec_aux_length (f : nat) : forall z (m : nat),
  0 <= z -> z < 10 ^ Z.of_nat (S m) ->
  (String.length (dec_aux (S f) z "") <= S m)%nat.
Proof.
  induction f as [|f IH]; intros z m Hz Hm.
  - simpl. destruct (z <? 10); simpl; lia.
  - rewrite dec_aux_S. destruct (Z.ltb_spec z 10) as [Hlt|Hge].
    + simpl; lia.
    + rewrite dec_aux_acc, length_append. simpl String.length at 2.
      destruct m as [|m].
      * change (10 ^ Z.of_nat 1) with 10 in Hm. lia.
      * assert (String.length (dec_aux (S f) (z / 10) "") <= S m)%nat.
        { apply IH.
          - apply Z.div_pos; lia.
          - apply Z.div_lt_upper_bound; [lia|].
            rewrite (Nat2Z.inj_succ (S m)), Z.pow_succ_r in Hm by lia. lia. }
        lia.
Qed.

Lemma dec_length (z : Z) (m : nat) :
  0 <= z -> z < 10 ^ Z.of_nat (S m) -> (String.length (dec z) <= S m)%nat.
Proof. intros Hz Hm. unfold dec. apply dec_aux_length; trivial. Qed.

Lemma round53_small (z : Z) : z < 2 ^ 53 -> round53 z = z.
Proof.
  intros H. unfold round53.
  destruct (Z.ltb_spec z (2 ^ 53)); [reflexivity | lia].
Qed.

Lemma round53_large (x : Z) : 2 ^ 53 <= x -> 2 ^ 53 <= round53 x.
Proof.
  intros H. unfold round53.
  destruct (Z.ltb_spec x (2 ^ 53)) as [Hlt|_]; [lia|].
  assert (Hx : 0 < x) by lia.
  pose proof (Z.log2_spec x Hx) as [Hlo _].
  assert (Hl : 53 <= Z.log2 x).
  { apply Z.log2_le_pow2; lia. }
  set (e := Z.log2 x - 52) in *.
  assert (He : 1 <= e) by (unfold e; lia).
  assert (Hpe : 2 <= 2 ^ e).
  { change 2 with (2 ^ 1) at 1. apply Z.pow_le_mono_r; lia. }
  assert (Hq : 2 ^ 52 <= x / 2 ^ e).
  { apply Z.div_le_lower_bound; [lia|].
    replace (Z.log2 x) with (e + 52) in Hlo by (unfold e; lia).
    rewrite Z.pow_add_r in Hlo by lia. lia. }
  set (q := x / 2 ^ e) in *.
  assert (Hm : forall m, q <= m -> 2 ^ 53 <= m * 2 ^ e).
  { intros m Hqm. change (2 ^ 53) with (2 ^ 52 * 2). 
    apply Z.mul_le_mono_nonneg; lia. }
  destruct (_ <? _); [apply Hm; lia|].
  destruct (_ <? _); [apply Hm; lia|].
  destruct (Z.even q); apply Hm; lia.
Qed.

Lemma round53_exact (x z : Z) : z < 2 ^ 53 -> round53 x = z -> x = z.
Proof.
  intros Hz Hx.
  destruct (Z.lt_ge_cases x (2 ^ 53)) as [Hlt|Hge].
  - rewrite round53_small in Hx; trivial.
  - pose proof (round53_large x Hge). lia.
Qed.

Lemma closer_cases (z : Z) (a b : Z * Z) : closer z a b = a \/ closer z a b = b.
Proof.
  unfold closer. destruct (_ <? _); [now left|].
  destruct (_ <? _); [now right|]. destruct (Z.even _); [now left | now right].
Qed.

Lemma fold_closer_in (z : Z) (l : list (Z * Z)) : forall c,
  In (fold_left (closer z) l c) (c :: l).
Proof.
  induction l as [|b l IH]; intros c; simpl.
  - now left.
  - destruct (closer_cases z c b) as [E|E]; rewrite E.
    + destruct (IH c) as [H|H]; [now left | now right; right].
    + right. apply IH.
Qed.

Lemma best_in (z : Z) (l : list (Z * Z)) (c : Z * Z) :
  best z l = Some c -> In c l.
Proof.
  destruct l as [|a l]; simpl; [discriminate|].
  intros [= <-]. apply fold_closer_in.
Qed.

Lemma candidates_sound (z k : Z) (c : Z * Z) :
  In c (candidates z k) -> 0 <= snd c /\ round53 (fst c * 10 ^ snd c) = z.
Proof.
  unfold candidates. rewrite in_flat_map. intros [n [_ Hc]].
  destruct (Z.ltb_spec (n - k) 0) as [|Hj]; [contradiction|].
  apply filter_In in Hc. destruct Hc as [Hin Hok].
  unfold candidate_ok in Hok.
  apply andb_true_iff in Hok. destruct Hok as [_ Hr].
  apply Z.eqb_eq in Hr. split; [|exact Hr].
  simpl in Hin. destruct Hin as [<-|[<-|[]]]; simpl; lia.
Qed.

Lemma shortest_from_sound (fuel : nat) : forall z k,
  round53 z = z ->
  0 <= snd (shortest_from fuel z k) /\
  round53 (fst (shortest_from fuel z k) * 10 ^ snd (shortest_from fuel z k)) = z.
Proof.
  induction fuel as [|f IH]; intros z k Hz; simpl.
  - rewrite Z.mul_1_r. split; [lia | exact Hz].
  - destruct (best z (candidates z k)) as [c|] eqn:E.
    + apply candidates_sound with (k := k). apply best_in with (z := z). exact E.
    + apply IH. exact Hz.
Qed.

Lemma shortest_exact (z : Z) :
  0 < z < 2 ^ 53 ->
  0 <= snd (shortest z) /\ 1 <= fst (shortest z) /\
  fst (shortest z) * 10 ^ snd (shortest z) = z.
Proof.
  intros [Hpos Hlt].
  destruct (shortest_from_sound (Z.to_nat (num_digits z)) z 1 (round53_small z Hlt))
    as [Hj Hr].
  fold (shortest z) in Hj, Hr.
  apply round53_exact in Hr; trivial.
  split; [exact Hj|]. split; [|exact Hr].
  assert (0 < 10 ^ snd (shortest z)) by (apply Z.pow_pos_nonneg; lia).
  nia.
Qed.

Lemma toString_pos_exact (z : Z) : 0 < z < 2 ^ 53 -> toString_pos z = dec z.
Proof.
  intros Hz. destruct (shortest_exact z Hz) as [Hj [Hs Hr]].
  unfold toString_pos. destruct (shortest z) as [s j]. simpl in Hj, Hs, Hr.
  assert (Hd : dec z = dec s ++ repeat_char "0" (Z.to_nat j)).
  { rewrite <- Hr. rewrite <- (Z2Nat.id j) at 1 by lia. apply dec_shift. lia. }
  assert (Hlen : (String.length (dec z) <= 16)%nat).
  { apply dec_length; [lia|]. 
    assert (2 ^ 53 < 10 ^ Z.of_nat 16) by (vm_compute; reflexivity). lia. }
  rewrite Hd, length_append in Hlen.
  assert (Hrep : forall c n, String.length (repeat_char c n) = n).
  { intros c n. induction n; simpl; congruence. }
  rewrite Hrep in Hlen.
  destruct (Z.leb_spec (Z.of_nat (String.length (dec s)) + j) 21) as [_|Hgt].
  - symmetry. exact Hd.
  - lia.
Qed.

Lemma of_integer_exact (z : Z) : 0 <= z < 2 ^ 53 -> of_integer z = Int z.
Proof.
  intros [Hz Hlt]. unfold of_integer.
  rewrite Z.abs_eq by lia. rewrite round53_small by lia.
  assert (2 ^ 53 < 2 ^ 1024) by (apply Z.pow_lt_mono_r; lia).
  destruct (Z.leb_spec (2 ^ 1024) z); [lia|].
  f_equal. destruct (Z.eq_dec z 0) as [->|]; [reflexivity|].
  rewrite Z.sgn_pos by lia. lia.
Qed.

Lemma Number_toString_exact (z : Z) :
  0 < z < 2 ^ 53 -> Number_toString (Int z) = decimal z.
Proof.
  intros Hz. unfold Number_toString, decimal.
  destruct (Z.eqb_spec z 0); [lia|].
  destruct (Z.ltb_spec z 0); [lia|].
  apply toString_pos_exact, Hz.
Qed.

(** *** ASCII text *)

Lemma code_chr (n : Z) : 0 <= n < 256 -> code (chr n) = n.
Proof.
  intros H. unfold code, chr. rewrite N_ascii_embedding by lia. lia.
Qed.

Lemma is_ascii_cons (c : ascii) (s : string) :
  is_ascii (String c s) = (code c <? 128) && is_ascii s.
Proof. reflexivity. Qed.

Lemma is_ascii_append (a b : string) :
  is_ascii (a ++ b) = is_ascii a && is_ascii b.
Proof.
  induction a as [|c a IH]; simpl; [reflexivity|].
  rewrite !is_ascii_cons, IH, andb_assoc. reflexivity.
Qed.

Lemma is_ascii_repeat (c : ascii) (n : nat) :
  (code c <? 128) = true -> is_ascii (repeat_char c n) = true.
Proof.
  intros H. induction n; simpl; [reflexivity|].
  rewrite is_ascii_cons, H, IHn. reflexivity.
Qed.

Lemma is_ascii_substring (s : string) : forall n m,
  is_ascii s = true -> is_ascii (substring n m s) = true.
Proof.
  induction s as [|c s IH]; intros n m H.
  - destruct n, m; reflexivity.
  - rewrite is_ascii_cons in H. apply andb_true_iff in H. destruct H as [Hc Hs].
    destruct n; simpl.
    + destruct m; [reflexivity|]. rewrite is_ascii_cons, Hc. simpl. apply IH, Hs.
    + apply IH, Hs.
Qed.

Lemma digit_char_ascii (z : Z) : (code (digit_char (z mod 10)) <? 128) = true.
Proof.
  pose proof (Z.mod_pos_bound z 10 ltac:(lia)).
  unfold digit_char. rewrite code_chr by lia. apply Z.ltb_lt. lia.
Qed.

Lemma is_ascii_dec_aux (fuel : nat) : forall z acc,
  is_ascii acc = true -> is_ascii (dec_aux fuel z acc) = true.
Proof.
  induction fuel as [|f IH]; intros z acc H; [exact H|].
  rewrite dec_aux_S.
  assert (is_ascii (String (digit_char (z mod 10)) acc) = true).
  { rewrite is_ascii_cons, digit_char_ascii, H. reflexivity. }
  destruct (z <? 10); [trivial | apply IH; trivial].
Qed.

Lemma is_ascii_dec (z : Z) : is_ascii (dec z) = true.
Proof. apply is_ascii_dec_aux. reflexivity. Qed.

Lemma is_ascii_toString_pos (z : Z) : is_ascii (toString_pos z) = true.
Proof.
  unfold toString_pos. destruct (shortest z) as [s j].
  pose proof (is_ascii_dec s) as Hs.
  destruct (_ <=? 21).
  - rewrite is_ascii_append, Hs. apply is_ascii_repeat. reflexivity.
  - destruct (dec s) as [|d1 rest]; [reflexivity|].
    rewrite is_ascii_cons in Hs. apply andb_true_iff in Hs. destruct Hs as [H1 H2].
    destruct rest as [|d2 rest].
    + rewrite is_ascii_cons, H1, is_ascii_append, is_ascii_dec. reflexivity.
    + rewrite is_ascii_cons, H1, !is_ascii_append, H2, is_ascii_dec. reflexivity.
Qed.

Lemma is_ascii_Number_toString (x : number) : is_ascii (Number_toString x) = true.
Proof.
  destruct x as [|[]|z]; try reflexivity.
  unfold Number_toString. destruct (z =? 0); [reflexivity|].
  destruct (z <? 0).
  - rewrite is_ascii_append, is_ascii_toString_pos. reflexivity.
  - apply is_ascii_toString_pos.
Qed.

Lemma is_ascii_toFixed (x : quotient) (f : Z) : is_ascii (toFixed x f) = true.
Proof.
  destruct x as [|[]|neg m e]; try reflexivity.
  unfold toFixed.
  assert (Hsign : is_ascii (if neg && negb (m =? 0) then "-" else "") = true)
    by (destruct (neg && negb (m =? 0)); reflexivity).
  destruct ((0 <=? e) && _).
  - rewrite is_ascii_append, Hsign, is_ascii_Number_toString. reflexivity.
  - set (ds := pad_left _ _ _).
    assert (Hds : is_ascii ds = true).
    { unfold ds, pad_left. rewrite is_ascii_append, is_ascii_dec, is_ascii_repeat; reflexivity. }
    destruct (f =? 0).
    + rewrite is_ascii_append, Hsign, Hds. reflexivity.
    + rewrite !is_ascii_append, Hsign, !is_ascii_substring by exact Hds. reflexivity.
Qed.

Lemma quote_char_ascii (c : ascii) :
  (code c <? 128) = true -> is_ascii (quote_char c) = true.
Proof.
  intros H. unfold quote_char.
  repeat (destruct (code c =? _); [try reflexivity|]).
  - rewrite !is_ascii_cons, H. reflexivity.
  - destruct (Z.ltb_spec (code c) 32) as [Hlt|_].
    + assert (0 <= code c) by (unfold code; lia).
      rewrite is_ascii_append. simpl is_ascii at 1.
      rewrite !is_ascii_cons.
      assert (Hh : forall d, 0 <= d < 16 -> (code (hex_digit d) <? 128) = true).
      { intros d Hd. unfold hex_digit. destruct (d <? 10); rewrite code_chr by lia; apply Z.ltb_lt; lia. }
      rewrite !Hh; [reflexivity | apply Z.mod_pos_bound; lia |].
      split; [apply Z.div_pos; lia | apply Z.div_lt_upper_bound; lia].
    + rewrite is_ascii_cons, H. reflexivity.
Qed.

Lemma is_ascii_quote (s : string) : is_ascii s = true -> is_ascii (quote s) = true.
Proof.
  intros H. unfold quote. rewrite is_ascii_cons, is_ascii_append.
  assert (Hb : is_ascii (quote_body s) = true).
  { induction s as [|c s IH]; [reflexivity|].
    rewrite is_ascii_cons in H. apply andb_true_iff in H. destruct H as [Hc Hs].
    simpl. rewrite is_ascii_append, quote_char_ascii, IH; trivial. }
  rewrite Hb. reflexivity.
Qed.

Lemma latin1_units_ascii (s : string) :
  is_ascii s = true -> exists l, latin1_units s = Some l.
Proof.
  induction s as [|c s IH]; intros H; [now exists []|].
  rewrite is_ascii_cons in H. apply andb_true_iff in H. destruct H as [Hc Hs].
  destruct (IH Hs) as [l Hl]. exists (code c :: l).
  simpl. rewrite Hc, Hl. reflexivity.
Qed.

Lemma btoa_ascii (s : string) : is_ascii s = true -> exists t, btoa s = Some t.
Proof.
  intros H. destruct (latin1_units_ascii s H) as [l Hl].
  exists (encode_base64 l). unfold btoa. rewrite Hl. reflexivity.
Qed.

Lemma is_hex_ascii (s : string) : all_chars is_hex s = true -> is_ascii s = true.
Proof.
  induction s as [|c s IH]; [reflexivity|]. simpl. intros H.
  apply andb_true_iff in H. destruct H as [Hc Hs].
  rewrite is_ascii_cons, IH by exact Hs. rewrite andb_true_r.
  unfold is_hex in Hc. apply Z.ltb_lt. lia.
Qed.

Lemma is_address_inv (s : string) :
  is_address s = true ->
  exists r, s = String "0" (String "x" r) /\ all_chars is_hex r = true.
Proof.
  destruct s as [|a [|b r]]; try (simpl; discriminate).
  - destruct a as [[] [] [] [] [] [] [] []]; simpl; discriminate.
  - destruct a as [[] [] [] [] [] [] [] []]; try (simpl; discriminate).
    destruct b as [[] [] [] [] [] [] [] []]; try (simpl; discriminate).
    simpl. intros H. apply andb_true_iff in H. destruct H as [_ H].
    exists r. split; [reflexivity | exact H].
Qed.

Lemma is_address_ascii (s : string) : is_address s = true -> is_ascii s = true.
Proof.
  intros H. destruct (is_address_inv s H) as [r [-> Hr]].
  rewrite !is_ascii_cons. rewrite (is_hex_ascii r Hr). reflexivity.
Qed.

(* ===================================================================== *)
(** ** Facts about the handlers                                           *)
(* ===================================================================== *)

Lemma append_inj_l (p a b : string) : p ++ a = p ++ b -> a = b.
Proof. induction p; simpl; intros H; [exact H | injection H; auto]. Qed.

Lemma verify_url_not_settle (env : Env.process_env) : verify_url env <> settle_url env.
Proof. unfold verify_url, settle_url. intros H. apply append_inj_l in H. discriminate. Qed.

Section Redeem.
Variable JSON_parse : string -> option value.
Variable env : Env.process_env.
Variable world : FetchRequest -> settled FetchResponse.

Lemma redeem_sent (request : Request) (params : Params) (h : string) sent0 :
  let sent := snd (redeem JSON_parse env world request params h sent0) in
  sent = sent0 \/
  (exists v, sent = (sent0 ++ [v])%list /\ fetch_url v = verify_url env) \/
  (exists v s, sent = (sent0 ++ [v; s])%list /\ valid_verify env world v /\ fetch_url s = settle_url env).
Proof.
  cbv [redeem bind lift ret throw fetch].
  destruct (atob h) as [decoded|]; [|left; reflexivity].
  destruct (JSON_parse decoded) as [payload|]; [|left; reflexivity].
  destruct (buildPaymentRequirements _ _ _ _) as [reqs|]; [|left; reflexivity].
  match goal with |- context [world ?r] => set (v := r) end.
  destruct (world v) as [vr|] eqn:Ev; [|right; left; exists v; split; reflexivity].
  destruct (ok vr) eqn:Eok; simpl; [|right; left; exists v; split; reflexivity].
  destruct (response_json vr) as [body|] eqn:Ej; [|right; left; exists v; split; reflexivity].
  destruct (get_prop body "isValid") as [iv|] eqn:Ei; [|right; left; exists v; split; reflexivity].
  destruct (truthy iv) eqn:Et; simpl.
  2:{ destruct (get_prop body "invalidReason"); right; left; exists v; split; reflexivity. }
  match goal with |- context [world ?r] => set (s := r) end.
  assert (Hs : snd (world s, ((sent0 ++ [v]) ++ [s])%list) = (sent0 ++ [v; s])%list).
  { simpl. rewrite <- app_assoc. reflexivity. }
  assert (Hv : valid_verify env world v).
  { split; [reflexivity|]. exists vr, body, iv. auto. }
  right; right. exists v, s. split; [|split; [exact Hv | reflexivity]].
  destruct (world s) as [sr|]; [|rewrite <- app_assoc; reflexivity].
  destruct (ok sr); simpl; [|rewrite <- app_assoc; reflexivity].
  destruct (response_json sr) as [sbody|]; [|rewrite <- app_assoc; reflexivity].
  destruct (get_prop sbody "success") as [sv|]; [|rewrite <- app_assoc; reflexivity].
  destruct (truthy sv); simpl.
  - destruct (get_prop sbody "transaction"); rewrite <- app_assoc; reflexivity.
  - destruct (get_prop sbody "errorReason"); rewrite <- app_assoc; reflexivity.
Qed.
End Redeem.

Lemma getServerEnv_no_key (env : Env.process_env) :
  assoc "FACILITATOR_API_KEY" (Env.getServerEnv env) = None.
Proof. reflexivity. Qed.

Lemma POST_sent (JSON_parse : string -> option value) (env : Env.process_env)
    (world : FetchRequest -> settled FetchResponse)
    (request : Request) (params : Params) :
  let sent := snd (run (POST JSON_parse env world request params)) in
  sent = [] \/
  (exists v, sent = [v] /\ fetch_url v = verify_url env) \/
  (exists v s, sent = [v; s] /\ valid_verify env world v /\ fetch_url s = settle_url env).
Proof.
  unfold run, POST.
  destruct (not_configured _); [left; reflexivity|].
  assert (Hchallenge : forall m : option Response,
    snd (bind (lift (buildPaymentRequirements (recipient params) (network params)
                       (amountCents_of request) (url request)))
              (fun reqs => lift (createPaymentRequiredResponse reqs)) []) = []).
  { intros _. unfold bind, lift, ret, throw.
    destruct (buildPaymentRequirements _ _ _ _) as [reqs|]; [|reflexivity].
    destruct (createPaymentRequiredResponse reqs); reflexivity. }
  destruct (paymentHeader_of request) as [header|]; [|left; apply Hchallenge; exact None].
  destruct (header =? "")%string; [left; apply Hchallenge; exact None|].
  pose proof (redeem_sent JSON_parse env world request params header []) as H.
  unfold try_catch. cbv zeta in H.
  destruct (redeem JSON_parse env world request params header []) as [[resp|] sent];
    cbn [snd] in *; exact H.
Qed.

(** C1, counterexample.  The facilitator answers verify with status 200 and
    the body [{"isValid": "yes"}]: the string is truthy, so POST goes on to
    settle, although [isValid] is not [true]. *)
Lemma settle_follows_truthy_string :
  ~ settle_follows_isValid_true parse_empty_object no_env
      (facilitator no_env verify_yes settle_paid) paying_request example_params.
Proof.
  intros H. unfold settle_follows_isValid_true in H.
  set (sent := snd (run (POST parse_empty_object no_env
                           (facilitator no_env verify_yes settle_paid)
                           paying_request example_params))) in *.
  assert (Hs : exists v s, sent = [v; s] /\ fetch_url s = settle_url no_env).
  { unfold sent. vm_compute. eexists; eexists. split; reflexivity. }
  destruct Hs as [v [s [Hsent Hurl]]].
  destruct (H s) as [v' [vr [body [Hsent' [Hv [Hw [_ [Hj Hi]]]]]]]].
  - rewrite Hsent. right; left; reflexivity.
  - exact Hurl.
  - unfold facilitator in Hw. rewrite Hv in Hw. rewrite String.eqb_refl in Hw.
    injection Hw as <-. injection Hj as <-. discriminate Hi.
Qed.

(** C1, as amended.  For every request and every facilitator, POST sends at
    most one request to the settle endpoint, and when it sends one, the
    requests sent are exactly a verify request followed by that settle
    request, the verify request having been answered with a 2xx response
    whose JSON body has a truthy [isValid] (for a boolean [isValid]: [true],
    see [truthy_boolean]). *)
Theorem settle_only_after_valid_verify
    (JSON_parse : string -> option value) (env : Env.process_env)
    (world : FetchRequest -> settled FetchResponse)
    (request : Request) (params : Params) :
  let sent := snd (run (POST JSON_parse env world request params)) in
  (List.length (filter (is_settle env) sent) <= 1)%nat /\
  forall s, In s sent -> fetch_url s = settle_url env ->
    exists v, sent = [v; s] /\ valid_verify env world v.
Proof.
  intros sent.
  assert (Hne : forall v, fetch_url v = verify_url env -> is_settle env v = false).
  { intros v Hv. unfold is_settle. rewrite Hv. apply String.eqb_neq.
    apply verify_url_not_settle. }
  destruct (POST_sent JSON_parse env world request params)
    as [H|[[v [H Hv]]|[v [s [H [Hv Hs]]]]]]; fold sent in H; rewrite H.
  - split; [simpl; lia | intros s []].
  - split.
    + simpl. rewrite (Hne v Hv). simpl; lia.
    + intros s [<-|[]] Hs. exfalso. apply (verify_url_not_settle env). congruence.
  - split.
    + simpl. rewrite (Hne v (proj1 Hv)). destruct (is_settle env s); simpl; lia.
    + intros s' [<-|[<-|[]]] Hs'.
      * exfalso. apply (verify_url_not_settle env). destruct Hv as [Hv _]. congruence.
      * exists v. split; [reflexivity | exact Hv].
Qed.

Lemma truthy_boolean (b : bool) : truthy (JBool b) = true -> b = true.
Proof. exact (fun H => H). Qed.

(* ===================================================================== *)
(** ** The amount conversion                                              *)
(* ===================================================================== *)

(** C2, counterexample.  For 9007199254740991 cents, which [parseInt] reads
    exactly, the product with 10000 is rounded to the nearest double and the
    amount printed is 90071992547409900000, not 90071992547409910000. *)
Lemma amount_rounds_above_safe_integers :
  parseInt "9007199254740991" = Int 9007199254740991 /\
  ~ amount_is_exact example_recipient "base" 9007199254740991 example_url.
Proof.
  split; [vm_compute; reflexivity|].
  intros [r [H1 H2]]. vm_compute in H1. injection H1 as <-.
  vm_compute in H2. discriminate.
Qed.

(** C2, as amended.  For every recipient, configured network and amount
    [c >= 1] with [c * 10000] at most 2^53 - 1, the requirement returned by
    [buildPaymentRequirements] is single and its amount is the decimal
    numeral of [c * 10000]; for [c = 300] it is 3000000 on every configured
    network. *)
Theorem amount_exact_for_safe_integers
    (recipient network : string) (cfg : NetworkConfig.t) (c : Z) (resourceUrl : string) :
  NETWORK_CONFIG_at network = Own cfg ->
  1 <= c -> c * 10000 <= 9007199254740991 ->
  amount_is_exact recipient network c resourceUrl /\
  (c = 300 ->
   option_map (map PaymentRequirement.amount)
     (buildPaymentRequirements recipient network (Int c) resourceUrl)
   = Some ["3000000"]).
Proof.
  intros Hcfg Hc Hsafe.
  assert (Hprod : Number_mul (Int c) (Int 10000) = Int (c * 10000)).
  { simpl. apply of_integer_exact. change (2 ^ 53) with 9007199254740992. lia. }
  assert (Hstr : Number_toString (Number_mul (Int c) (Int 10000)) = decimal (c * 10000)).
  { rewrite Hprod. apply Number_toString_exact. change (2 ^ 53) with 9007199254740992. lia. }
  split.
  - unfold amount_is_exact, buildPaymentRequirements. rewrite Hcfg.
    eexists. split; [reflexivity|]. simpl PaymentRequirement.amount. exact Hstr.
  - intros ->. unfold buildPaymentRequirements. rewrite Hcfg. reflexivity.
Qed.

(** The amended C2 at 300 cents on Base. *)
Lemma amount_exact_for_safe_integers_witness :
  NETWORK_CONFIG_at "base" <> Undefined /\
  amount_is_exact example_recipient "base" 300 example_url /\
  option_map (map PaymentRequirement.amount)
    (buildPaymentRequirements example_recipient "base" (Int 300) example_url)
  = Some ["3000000"].
Proof.
  split; [discriminate|].
  destruct (amount_exact_for_safe_integers example_recipient "base" _ 300 example_url
              eq_refl ltac:(lia) ltac:(lia)) as [H1 H2].
  split; [exact H1 | exact (H2 eq_refl)].
Defined.

(* ===================================================================== *)
(** ** The redemption flow, branch by branch                              *)
(* ===================================================================== *)

Section Redemption.
Variable JSON_parse : string -> option value.
Variable env : Env.process_env.
Variable world : FetchRequest -> settled FetchResponse.

(** What POST does once the request is redeemable: it verifies. *)
Ltac enter_redeem H :=
  let cfg := fresh "cfg" in
  let Hcfg := fresh "Hcfg" in
  let header := fresh "header" in
  let decoded := fresh "decoded" in
  let payload := fresh "payload" in
  let Hh := fresh "Hh" in
  let Hne := fresh "Hne" in
  let Ha := fresh "Ha" in
  let Hp := fresh "Hp" in
  destruct H as [[cfg Hcfg] [header [decoded [payload [Hh [Hne [Ha Hp]]]]]]];
  unfold responds, run, POST, not_configured; rewrite Hcfg, Hh;
  apply String.eqb_neq in Hne; rewrite Hne;
  unfold try_catch, redeem, bind, lift, ret, throw, fetch;
  rewrite Ha, Hp; unfold buildPaymentRequirements; rewrite Hcfg;
  cbv beta iota.

Ltac answer Hw :=
  match goal with
  | |- context [world ?r] => rewrite (Hw r eq_refl); cbv beta iota
  end.

Lemma verify_not_ok (request : Request) (params : Params) (vr : FetchResponse) :
  redeemable JSON_parse request params ->
  verify_answers env world vr -> ok vr = false ->
  responds JSON_parse env world request params
    (Response_json
       (JObj [("error", JStr "Payment verification failed");
              ("details", JStr (response_text vr))]) 400).
Proof.
  intros H Hv Hok. enter_redeem H. answer Hv. rewrite Hok. reflexivity.
Qed.

Lemma verify_rejected (request : Request) (params : Params) :
  redeemable JSON_parse request params ->
  verify_fails env world ->
  responds JSON_parse env world request params
    (Response_json (JObj [("error", JStr "Payment processing failed")]) 500).
Proof.
  intros H Hv. enter_redeem H. answer Hv. reflexivity.
Qed.

Lemma verify_not_json (request : Request) (params : Params) (vr : FetchResponse) :
  redeemable JSON_parse request params ->
  verify_answers env world vr -> ok vr = true -> response_json vr = None ->
  responds JSON_parse env world request params
    (Response_json (JObj [("error", JStr "Payment processing failed")]) 500).
Proof.
  intros H Hv Hok Hj. enter_redeem H. answer Hv. rewrite Hok, Hj. reflexivity.
Qed.

Lemma verify_falsy (request : Request) (params : Params)
    (vr : FetchResponse) (body isValid reason : value) :
  redeemable JSON_parse request params ->
  verify_answers env world vr -> ok vr = true -> response_json vr = Some body ->
  get_prop body "isValid" = Some isValid -> truthy isValid = false ->
  get_prop body "invalidReason" = Some reason ->
  responds JSON_parse env world request params
    (Response_json (JObj [("error", JStr "Invalid payment"); ("reason", reason)]) 400).
Proof.
  intros H Hv Hok Hj Hi Ht Hr. enter_redeem H. answer Hv.
  rewrite Hok, Hj. cbv beta iota. rewrite Hi. cbv beta iota. rewrite Ht, Hr. reflexivity.
Qed.

Lemma settle_not_ok (request : Request) (params : Params)
    (vr sr : FetchResponse) (body isValid : value) :
  redeemable JSON_parse request params ->
  verify_answers env world vr -> ok vr = true -> response_json vr = Some body ->
  get_prop body "isValid" = Some isValid -> truthy isValid = true ->
  settle_answers env world sr -> ok sr = false ->
  responds JSON_parse env world request params
    (Response_json
       (JObj [("error", JStr "Payment settlement failed");
              ("details", JStr (response_text sr))]) 500).
Proof.
  intros H Hv Hok Hj Hi Ht Hs Hsok. enter_redeem H. answer Hv.
  rewrite Hok, Hj. cbv beta iota. rewrite Hi. cbv beta iota. rewrite Ht.
  cbv beta iota. answer Hs. rewrite Hsok. reflexivity.
Qed.

Lemma settle_falsy (request : Request) (params : Params)
    (vr sr : FetchResponse) (body isValid sbody success reason : value) :
  redeemable JSON_parse request params ->
  verify_answers env world vr -> ok vr = true -> response_json vr = Some body ->
  get_prop body "isValid" = Some isValid -> truthy isValid = true ->
  settle_answers env world sr -> ok sr = true -> response_json sr = Some sbody ->
  get_prop sbody "success" = Some success -> truthy success = false ->
  get_prop sbody "errorReason" = Some reason ->
  responds JSON_parse env world request params
    (Response_json (JObj [("error", JStr "Settlement failed"); ("reason", reason)]) 500).
Proof.
  intros H Hv Hok Hj Hi Ht Hs Hsok Hsj Hsu Hst Hr. enter_redeem H. answer Hv.
  rewrite Hok, Hj. cbv beta iota. rewrite Hi. cbv beta iota. rewrite Ht.
  cbv beta iota. answer Hs. rewrite Hsok, Hsj. cbv beta iota.
  rewrite Hsu. cbv beta iota. rewrite Hst, Hr. reflexivity.
Qed.

Lemma settle_truthy (request : Request) (params : Params)
    (vr sr : FetchResponse) (body isValid sbody success transaction : value) :
  redeemable JSON_parse request params ->
  verify_answers env world vr -> ok vr = true -> response_json vr = Some body ->
  get_prop body "isValid" = Some isValid -> truthy isValid = true ->
  settle_answers env world sr -> ok sr = true -> response_json sr = Some sbody ->
  get_prop sbody "success" = Some success -> truthy success = true ->
  get_prop sbody "transaction" = Some transaction ->
  responds JSON_parse env world request params
    (Response_json
       (JObj [("success", JBool true);
              ("message", JStr thank_you);
              ("recipient", JStr (recipient params));
              ("network", JStr (network params));
              ("txHash", transaction)]) 200).
Proof.
  intros H Hv Hok Hj Hi Ht Hs Hsok Hsj Hsu Hst Hr. enter_redeem H. answer Hv.
  rewrite Hok, Hj. cbv beta iota. rewrite Hi. cbv beta iota. rewrite Ht.
  cbv beta iota. answer Hs. rewrite Hsok, Hsj. cbv beta iota.
  rewrite Hsu. cbv beta iota. rewrite Hst, Hr. reflexivity.
Qed.

End Redemption.

(** *** The test doubles do what their names say *)

Lemma facilitator_verify (env : Env.process_env) (vr : FetchResponse)
    (settle : settled FetchResponse) :
  verify_answers env (facilitator env (Fulfilled vr) settle) vr.
Proof.
  intros r Hr. unfold facilitator. rewrite Hr, String.eqb_refl. reflexivity.
Qed.

Lemma facilitator_verify_fails (env : Env.process_env) (settle : settled FetchResponse) :
  verify_fails env (facilitator env Rejected settle).
Proof.
  intros r Hr. unfold facilitator. rewrite Hr, String.eqb_refl. reflexivity.
Qed.

Lemma facilitator_settle (env : Env.process_env) (verify : settled FetchResponse)
    (sr : FetchResponse) :
  settle_answers env (facilitator env verify (Fulfilled sr)) sr.
Proof.
  intros r Hr. unfold facilitator. rewrite Hr, String.eqb_refl.
  destruct (String.eqb_spec (settle_url env) (verify_url env)) as [E|_];
    [|reflexivity].
  exfalso. apply (verify_url_not_settle env). symmetry. exact E.
Qed.

Lemma paying_request_redeemable :
  redeemable parse_empty_object paying_request example_params.
Proof.
  split.
  - eexists. reflexivity.
  - exists "e30=", "{}", (JObj []).
    repeat split; try reflexivity. discriminate.
Qed.

(** C3.  For a POST with a payment header that decodes, on a configured
    network: when verify answers 2xx with [isValid] false and
    [invalidReason] [reason], the response is 400 with the body
    [{error: "Invalid payment", reason}]; when verify answers 2xx with
    [isValid] true and settle answers 2xx with [success] false and
    [errorReason] [reason], the response is 500 with the body
    [{error: "Settlement failed", reason}]. *)
Theorem invalid_payment_and_failed_settlement
    (JSON_parse : string -> option value) (env : Env.process_env)
    (world : FetchRequest -> settled FetchResponse)
    (request : Request) (params : Params) :
  redeemable JSON_parse request params ->
  (forall vr body reason,
     verify_answers env world vr -> ok vr = true ->
     response_json vr = Some body ->
     get_prop body "isValid" = Some (JBool false) ->
     get_prop body "invalidReason" = Some reason ->
     responds JSON_parse env world request params
       (Response_json
          (JObj [("error", JStr "Invalid payment"); ("reason", reason)]) 400))
  /\
  (forall vr vbody sr sbody reason,
     verify_answers env world vr -> ok vr = true ->
     response_json vr = Some vbody ->
     get_prop vbody "isValid" = Some (JBool true) ->
     settle_answers env world sr -> ok sr = true ->
     response_json sr = Some sbody ->
     get_prop sbody "success" = Some (JBool false) ->
     get_prop sbody "errorReason" = Some reason ->
     responds JSON_parse env world request params
       (Response_json
          (JObj [("error", JStr "Settlement failed"); ("reason", reason)]) 500)).
Proof.
  intros H. split.
  - intros vr body reason Hv Hok Hj Hi Hr.
    apply (verify_falsy JSON_parse env world request params vr body (JBool false) reason);
      trivial.
  - intros vr vbody sr sbody reason Hv Hok Hj Hi Hs Hsok Hsj Hsu Hr.
    apply (settle_falsy JSON_parse env world request params vr sr vbody (JBool true)
             sbody (JBool false) reason); trivial.
Qed.

(** C3 on a facilitator that reports an expired payment, and on one whose
    settlement fails for insufficient funds. *)
Lemma invalid_payment_and_failed_settlement_witness :
  responds parse_empty_object no_env (facilitator no_env verify_expired settle_paid)
    paying_request example_params
    (Response_json
       (JObj [("error", JStr "Invalid payment"); ("reason", JStr "expired")]) 400)
  /\
  responds parse_empty_object no_env (facilitator no_env verify_valid settle_insufficient)
    paying_request example_params
    (Response_json
       (JObj [("error", JStr "Settlement failed");
              ("reason", JStr "insufficient_funds")]) 500).
Proof.
  split.
  - eapply (proj1 (invalid_payment_and_failed_settlement parse_empty_object no_env _
                     paying_request example_params paying_request_redeemable));
      [apply facilitator_verify | reflexivity ..].
  - eapply (proj2 (invalid_payment_and_failed_settlement parse_empty_object no_env _
                     paying_request example_params paying_request_redeemable));
      [apply facilitator_verify | reflexivity | reflexivity | reflexivity
      | apply facilitator_settle | reflexivity ..].
Defined.

(** C4, counterexample.  The verify call itself fails (the fetch rejects):
    the response is not a 400. *)
Lemma verify_rejection_answers_500 :
  redeemable parse_empty_object paying_request example_params /\
  verify_fails no_env (facilitator no_env Rejected settle_paid) /\
  ~ answers_400 parse_empty_object no_env (facilitator no_env Rejected settle_paid)
      paying_request example_params.
Proof.
  split; [exact paying_request_redeemable|].
  split; [apply facilitator_verify_fails|].
  intros [resp [Hr Hs]].
  pose proof (verify_rejected parse_empty_object no_env _ paying_request example_params
                paying_request_redeemable (facilitator_verify_fails no_env settle_paid)) as H.
  unfold responds in *. rewrite H in Hr. injection Hr as <-. discriminate Hs.
Qed.

(** C4, as amended.  For a POST with a payment header that decodes, on a
    configured network: a non-2xx answer to verify gives 400 with the body
    [{error: "Payment verification failed", details}], [details] being the
    text of the answer; a verify call that fails (the fetch rejects: network
    error, timeout) gives 500 with the body
    [{error: "Payment processing failed"}]. *)
Theorem verify_transport_failure
    (JSON_parse : string -> option value) (env : Env.process_env)
    (world : FetchRequest -> settled FetchResponse)
    (request : Request) (params : Params) :
  redeemable JSON_parse request params ->
  (forall vr,
     verify_answers env world vr -> ok vr = false ->
     responds JSON_parse env world request params
       (Response_json
          (JObj [("error", JStr "Payment verification failed");
                 ("details", JStr (response_text vr))]) 400))
  /\
  (verify_fails env world ->
   responds JSON_parse env world request params
     (Response_json (JObj [("error", JStr "Payment processing failed")]) 500)).
Proof.
  intros H. split.
  - intros vr Hv Hok. apply verify_not_ok; trivial.
  - intros Hv. apply verify_rejected; trivial.
Qed.

(** The amended C4 on a facilitator that answers 503, and on one that cannot
    be reached. *)
Lemma verify_transport_failure_witness :
  responds parse_empty_object no_env
    (facilitator no_env verify_unavailable settle_paid)
    paying_request example_params
    (Response_json
       (JObj [("error", JStr "Payment verification failed");
              ("details", JStr "Service Unavailable")]) 400)
  /\
  responds parse_empty_object no_env (facilitator no_env Rejected settle_paid)
    paying_request example_params
    (Response_json (JObj [("error", JStr "Payment processing failed")]) 500).
Proof.
  split.
  - eapply (proj1 (verify_transport_failure parse_empty_object no_env _
                     paying_request example_params paying_request_redeemable)
              (text_response 503 "Service Unavailable"));
      [apply facilitator_verify | reflexivity].
  - apply (proj2 (verify_transport_failure parse_empty_object no_env _
                    paying_request example_params paying_request_redeemable)).
    apply facilitator_verify_fails.
Defined.

(** C8, counterexample.  After a successful verify and settle the response
    is not the one whose body has the four properties [success],
    [recipient], [network] and [txHash] only. *)
Lemma success_body_has_message :
  ~ responds parse_empty_object no_env (facilitator no_env verify_valid settle_paid)
      paying_request example_params
      (Response_json
         (JObj [("success", JBool true);
                ("recipient", JStr example_recipient);
                ("network", JStr "base");
                ("txHash", JStr "0xabc123")]) 200).
Proof.
  unfold responds. vm_compute. intros H. discriminate H.
Qed.

(** C8, as amended.  When verify answers 2xx with [isValid] true and settle
    answers 2xx with [success] true and [transaction] [t], POST answers 200
    with the body [{success: true, message, recipient, network, txHash: t}],
    [message] being the fixed thank-you text and [recipient], [network] the
    parameters of the request. *)
Theorem success_response
    (JSON_parse : string -> option value) (env : Env.process_env)
    (world : FetchRequest -> settled FetchResponse)
    (request : Request) (params : Params)
    (vr sr : FetchResponse) (vbody sbody transaction : value) :
  redeemable JSON_parse request params ->
  verify_answers env world vr -> ok vr = true ->
  response_json vr = Some vbody ->
  get_prop vbody "isValid" = Some (JBool true) ->
  settle_answers env world sr -> ok sr = true ->
  response_json sr = Some sbody ->
  get_prop sbody "success" = Some (JBool true) ->
  get_prop sbody "transaction" = Some transaction ->
  responds JSON_parse env world request params
    (Response_json
       (JObj [("success", JBool true);
              ("message", JStr thank_you);
              ("recipient", JStr (recipient params));
              ("network", JStr (network params));
              ("txHash", transaction)]) 200).
Proof.
  intros H Hv Hok Hj Hi Hs Hsok Hsj Hsu Ht.
  apply (settle_truthy JSON_parse env world request params vr sr vbody (JBool true)
           sbody (JBool true) transaction); trivial.
Qed.

(** The amended C8 on a facilitator that settles with transaction
    0xabc123. *)
Lemma success_response_witness :
  responds parse_empty_object no_env (facilitator no_env verify_valid settle_paid)
    paying_request example_params
    (Response_json
       (JObj [("success", JBool true);
              ("message", JStr thank_you);
              ("recipient", JStr example_recipient);
              ("network", JStr "base");
              ("txHash", JStr "0xabc123")]) 200).
Proof.
  eapply (success_response parse_empty_object no_env _ paying_request example_params);
    [exact paying_request_redeemable
    | apply facilitator_verify | reflexivity | reflexivity | reflexivity
    | apply facilitator_settle | reflexivity ..].
Defined.

(* ===================================================================== *)
(** ** The challenge                                                      *)
(* ===================================================================== *)

(** *** [JSON.stringify] keeps ASCII data ASCII *)

Lemma is_ascii_join (sep : string) (l : list string) :
  is_ascii sep = true -> Forall (fun t => is_ascii t = true) l ->
  is_ascii (join sep l) = true.
Proof.
  intros Hsep H. induction H as [|x l Hx Hl IH]; [reflexivity|].
  destruct l as [|y l]; [exact Hx|].
  change (join sep (x :: y :: l)) with (x ++ sep ++ join sep (y :: l)).
  rewrite !is_ascii_append, Hx, Hsep, IH. reflexivity.
Qed.

Lemma is_ascii_serialize : forall v,
  ascii_value v = true ->
  match serialize v with
  | Some t => is_ascii t = true
  | None => True
  end.
Proof.
  fix IH 1. intros [ | | [] | [| |z] | s | items | fields] H; try exact I;
    try reflexivity.
  - apply is_ascii_Number_toString.
  - apply is_ascii_quote. exact H.
  - cbn [serialize]. rewrite !is_ascii_append. 
    rewrite is_ascii_join; [reflexivity | reflexivity |].
    cbn [ascii_value] in H. induction items as [|x items IHitems]; [constructor|].
    cbn [forallb] in H. apply andb_true_iff in H. destruct H as [Hx Hs].
    cbn [map]. constructor; [|apply IHitems; exact Hs].
    specialize (IH x Hx). destruct (serialize x); [exact IH | reflexivity].
  - cbn [serialize]. rewrite !is_ascii_append.
    rewrite is_ascii_join; [reflexivity | reflexivity |].
    cbn [ascii_value] in H. induction fields as [|[k x] fields IHfields]; [constructor|].
    cbn [forallb fst snd] in H. apply andb_true_iff in H. destruct H as [Hkx Hs].
    apply andb_true_iff in Hkx. destruct Hkx as [Hk Hx].
    cbn [flat_map fst snd]. specialize (IH x Hx).
    destruct (serialize x) as [t|].
    + cbn [app]. constructor; [|apply IHfields; exact Hs].
      rewrite !is_ascii_append, is_ascii_quote, IH by exact Hk. reflexivity.
    + apply IHfields; exact Hs.
Qed.

Lemma is_ascii_JSON_stringify (v : value) :
  ascii_value v = true -> is_ascii (JSON_stringify v) = true.
Proof.
  intros H. unfold JSON_stringify. pose proof (is_ascii_serialize v H) as Hs.
  destruct (serialize v); [exact Hs | reflexivity].
Qed.

(** *** The challenge *)

Lemma configured_cases (network : string) (cfg : NetworkConfig.t) :
  NETWORK_CONFIG_at network = Own cfg ->
  In (network, cfg) NETWORK_CONFIG.
Proof.
  unfold NETWORK_CONFIG_at.
  destruct (assoc network NETWORK_CONFIG) as [c|] eqn:E.
  - intros [= <-]. revert E. generalize NETWORK_CONFIG.
    induction l as [|[k x] l IH]; cbn [assoc]; [discriminate|].
    destruct (String.eqb_spec network k) as [->|_].
    + intros [= ->]. now left.
    + intros H. right. apply IH, H.
  - destruct (existsb _ _); discriminate.
Qed.

Lemma configured_ascii (network : string) (cfg : NetworkConfig.t) :
  NETWORK_CONFIG_at network = Own cfg ->
  is_ascii (NetworkConfig.chainIdCAIP cfg) = true /\
  is_ascii (NetworkConfig.asset cfg) = true /\
  is_ascii (Eip712.name (NetworkConfig.eip712 cfg)) = true /\
  is_ascii (Eip712.version (NetworkConfig.eip712 cfg)) = true.
Proof.
  intros H. apply configured_cases in H.
  repeat (destruct H as [[= <- <-]|H]; [repeat split; reflexivity|]).
  destruct H.
Qed.

Lemma build_configured (recipient network : string) (cfg : NetworkConfig.t)
    (amountCents : number) (resourceUrl : string) :
  NETWORK_CONFIG_at network = Own cfg ->
  exists r,
    buildPaymentRequirements recipient network amountCents resourceUrl = Some [r] /\
    PaymentRequirement.scheme r = "exact" /\
    PaymentRequirement.network r = NetworkConfig.chainIdCAIP cfg /\
    PaymentRequirement.amount r = Number_toString (Number_mul amountCents (Int 10000)) /\
    PaymentRequirement.resource r = resourceUrl /\
    PaymentRequirement.description r =
      "Donation of $" ++ toFixed (Number_div amountCents 100) 2 ++ " to " ++ recipient /\
    PaymentRequirement.mimeType r = "application/json" /\
    PaymentRequirement.payTo r = recipient /\
    PaymentRequirement.maxTimeoutSeconds r = Int 300 /\
    PaymentRequirement.asset r = NetworkConfig.asset cfg /\
    PaymentRequirement.extra r =
      [("name", JStr (Eip712.name (NetworkConfig.eip712 cfg)));
       ("version", JStr (Eip712.version (NetworkConfig.eip712 cfg)))].
Proof.
  intros H. unfold buildPaymentRequirements. rewrite H.
  eexists. split; [reflexivity|]. repeat split.
Qed.

Lemma ascii_requirement (r : PaymentRequirement.t) :
  is_ascii (PaymentRequirement.scheme r) = true ->
  is_ascii (PaymentRequirement.network r) = true ->
  is_ascii (PaymentRequirement.amount r) = true ->
  is_ascii (PaymentRequirement.resource r) = true ->
  is_ascii (PaymentRequirement.description r) = true ->
  is_ascii (PaymentRequirement.mimeType r) = true ->
  is_ascii (PaymentRequirement.payTo r) = true ->
  is_ascii (PaymentRequirement.asset r) = true ->
  ascii_value (JObj (PaymentRequirement.extra r)) = true ->
  ascii_value (paymentRequired [r]) = true.
Proof.
  intros H1 H2 H3 H4 H5 H6 H7 H8 H9.
  unfold paymentRequired, PaymentRequirement.to_value.
  cbn [ascii_value forallb map fst snd] in *.
  rewrite H1, H2, H3, H4, H5, H6, H7, H8, H9. reflexivity.
Qed.

Lemma challenge_is_ascii (recipient network : string) (cfg : NetworkConfig.t)
    (amountCents : number) (resourceUrl : string) (reqs : list PaymentRequirement.t) :
  NETWORK_CONFIG_at network = Own cfg ->
  is_ascii recipient = true -> is_ascii resourceUrl = true ->
  buildPaymentRequirements recipient network amountCents resourceUrl = Some reqs ->
  is_ascii (JSON_stringify (paymentRequired reqs)) = true.
Proof.
  intros Hcfg Hr Hu Hb. apply is_ascii_JSON_stringify.
  destruct (build_configured recipient network cfg amountCents resourceUrl Hcfg)
    as [r [Hb' [F1 [F2 [F3 [F4 [F5 [F6 [F7 [_ [F9 F10]]]]]]]]]]].
  rewrite Hb' in Hb. injection Hb as <-.
  destruct (configured_ascii network cfg Hcfg) as [H1 [H2 [H3 H4]]].
  apply ascii_requirement.
  - rewrite F1. reflexivity.
  - rewrite F2. exact H1.
  - rewrite F3. apply is_ascii_Number_toString.
  - rewrite F4. exact Hu.
  - rewrite F5, !is_ascii_append, is_ascii_toFixed, Hr. reflexivity.
  - rewrite F6. reflexivity.
  - rewrite F7. exact Hr.
  - rewrite F9. exact H2.
  - rewrite F10. cbn [ascii_value forallb fst snd]. rewrite H3, H4. reflexivity.
Qed.

(** C5, counterexample.  The header of the challenge is not the Base64 form
    of an object with the key [protocolVersion]. *)
Lemma challenge_key_is_x402Version :
  ~ challenges_with protocolVersion_object (example_request (Some "300") []) example_params.
Proof.
  intros [reqs [blob [Hb [Hblob Hrun]]]].
  vm_compute in Hb. injection Hb as <-.
  vm_compute in Hblob. injection Hblob as <-.
  vm_compute in Hrun. discriminate Hrun.
Qed.

(** C5, as amended.  For a recipient that matches the address pattern, a
    configured network, an amount [c >= 1] and an ASCII request URL, GET
    answers 402 with the body [{error: "Payment Required"}] and a
    [PAYMENT-REQUIRED] header that is the Base64 form of the JSON text of
    [{x402Version: 2, accepts: requirements, error: "Payment Required"}]. *)
Theorem challenge_response (request : Request) (params : Params)
    (cfg : NetworkConfig.t) (c : Z) :
  is_address (recipient params) = true ->
  NETWORK_CONFIG_at (network params) = Own cfg ->
  amountCents_of request = Int c -> 1 <= c ->
  is_ascii (url request) = true ->
  challenges_with paymentRequired request params.
Proof.
  intros Ha Hcfg Hc H1 Hu.
  destruct (build_configured (recipient params) (network params) cfg
              (amountCents_of request) (url request) Hcfg) as [r [Hb _]].
  destruct (btoa_ascii (JSON_stringify (paymentRequired [r]))) as [blob Hblob].
  { apply (challenge_is_ascii (recipient params) (network params) cfg
             (amountCents_of request) (url request)); trivial.
    apply is_address_ascii, Ha. }
  exists [r], blob. split; [exact Hb|]. split; [exact Hblob|].
  rewrite Hc in Hb.
  unfold run, GET, not_configured, bind, lift, ret.
  rewrite Ha, Hcfg, Hc, Hb. cbn [negb Number_lt].
  destruct (Z.ltb_spec c 1); [lia|].
  unfold createPaymentRequiredResponse. rewrite Hblob. reflexivity.
Qed.

(** The amended C5 at 300 cents on Base. *)
Lemma challenge_response_witness :
  challenges_with paymentRequired (example_request (Some "300") []) example_params.
Proof.
  eapply (challenge_response (example_request (Some "300") []) example_params _ 300);
    [reflexivity | reflexivity | reflexivity | lia | reflexivity].
Defined.

(* ===================================================================== *)
(** ** Payment headers, GET against POST, validation, the API key        *)
(* ===================================================================== *)

(** *** Payment headers *)

Lemma Headers_get_case (h : Headers) (n1 n2 : string) :
  lowercase n1 = lowercase n2 -> Headers_get h n1 = Headers_get h n2.
Proof. intros H. unfold Headers_get. rewrite H. reflexivity. Qed.

Lemma or_else_same (a : option string) : or_else a a = a.
Proof. destruct a as [s|]; [|reflexivity]. simpl. destruct (s =? "")%string; reflexivity. Qed.

Lemma paymentHeader_of_eq (request : Request) :
  paymentHeader_of request =
  or_else (Headers_get (request_headers request) "PAYMENT-SIGNATURE")
          (Headers_get (request_headers request) "X-PAYMENT").
Proof.
  unfold paymentHeader_of.
  rewrite (Headers_get_case _ "payment-signature" "PAYMENT-SIGNATURE") by reflexivity.
  rewrite (Headers_get_case _ "x-payment" "X-PAYMENT") by reflexivity.
  rewrite or_else_same.
  destruct (Headers_get _ "PAYMENT-SIGNATURE") as [ps|];
    destruct (Headers_get _ "X-PAYMENT") as [xp|]; simpl;
    repeat match goal with
           | |- context [(?s =? "")%string] => destruct (s =? "")%string eqn:?; simpl
           end; congruence.
Qed.

(** C10, counterexample.  With an empty [PAYMENT-SIGNATURE] header and a
    non-empty [X-PAYMENT] header, the value used is that of [X-PAYMENT]. *)
Lemma empty_signature_header_loses :
  ~ signature_header_wins
      (example_request (Some "300") [("PAYMENT-SIGNATURE", ""); ("X-PAYMENT", "e30=")]).
Proof.
  intros H. specialize (H "" "e30=" eq_refl eq_refl). discriminate H.
Qed.

(** C10, as amended.  A non-empty [PAYMENT-SIGNATURE] value is the payment
    header, whatever [X-PAYMENT] holds; the [X-PAYMENT] value is the payment
    header when [PAYMENT-SIGNATURE] is absent or empty; both names are
    matched without regard to case. *)
Theorem payment_header_priority (request : Request) :
  (forall ps,
     Headers_get (request_headers request) "PAYMENT-SIGNATURE" = Some ps ->
     ps <> "" ->
     paymentHeader_of request = Some ps)
  /\
  (Headers_get (request_headers request) "PAYMENT-SIGNATURE" = None \/
   Headers_get (request_headers request) "PAYMENT-SIGNATURE" = Some "" ->
   paymentHeader_of request = Headers_get (request_headers request) "X-PAYMENT")
  /\
  (forall name,
     lowercase name = "payment-signature" ->
     Headers_get (request_headers request) name
     = Headers_get (request_headers request) "PAYMENT-SIGNATURE")
  /\
  (forall name,
     lowercase name = "x-payment" ->
     Headers_get (request_headers request) name
     = Headers_get (request_headers request) "X-PAYMENT").
Proof.
  repeat split.
  - intros ps Hps Hne. rewrite paymentHeader_of_eq, Hps. simpl.
    apply String.eqb_neq in Hne. rewrite Hne. reflexivity.
  - intros [H|H]; rewrite paymentHeader_of_eq, H; reflexivity.
  - intros name H. apply Headers_get_case. exact H.
  - intros name H. apply Headers_get_case. exact H.
Qed.

(** The amended C10 on a request with both headers in mixed case, and on
    one with the legacy header only. *)
Lemma payment_header_priority_witness :
  paymentHeader_of
    (example_request None [("x-payment", "djE="); ("Payment-Signature", "e30=")])
  = Some "e30="
  /\
  paymentHeader_of (example_request None [("X-Payment", "djE=")]) = Some "djE=".
Proof.
  split.
  - apply (proj1 (payment_header_priority
                    (example_request None
                       [("x-payment", "djE="); ("Payment-Signature", "e30=")]))).
    + reflexivity.
    + discriminate.
  - rewrite (proj1 (proj2 (payment_header_priority
                             (example_request None [("X-Payment", "djE=")])))).
    + reflexivity.
    + left. reflexivity.
Defined.

(** *** GET and POST without a payment header *)

Lemma no_payment_header_of (request : Request) :
  no_payment_header request -> paymentHeader_of request = None.
Proof.
  intros [H1 H2]. rewrite paymentHeader_of_eq, H1, H2. reflexivity.
Qed.

Lemma POST_without_header (JSON_parse : string -> option value)
    (env : Env.process_env) (world : FetchRequest -> settled FetchResponse)
    (request : Request) (params : Params) :
  no_payment_header request ->
  is_address (recipient params) = true ->
  Number_lt (amountCents_of request) (Int 1) = false ->
  run (POST JSON_parse env world request params) = run (GET request params).
Proof.
  intros Hh Ha Hlt. unfold run, POST, GET.
  rewrite (no_payment_header_of request Hh), Ha, Hlt. cbn [negb].
  destruct (not_configured (network params)); reflexivity.
Qed.

Lemma GET_402_inv (request : Request) (params : Params) (resp : Response)
    (sent : list FetchRequest) :
  run (GET request params) = (Fulfilled resp, sent) -> status resp = 402 ->
  is_address (recipient params) = true /\
  not_configured (network params) = false /\
  Number_lt (amountCents_of request) (Int 1) = false.
Proof.
  unfold run, GET. intros H Hs.
  destruct (is_address (recipient params)); cbn [negb] in H.
  2:{ injection H as <- _. discriminate Hs. }
  destruct (not_configured (network params)).
  { injection H as <- _. discriminate Hs. }
  destruct (Number_lt (amountCents_of request) (Int 1)).
  { injection H as <- _. discriminate Hs. }
  repeat split.
Qed.

(** C6, counterexample.  For the recipient [bob] and no payment header, GET
    answers 400, so there is no 402 response that GET and POST share. *)
Lemma POST_challenges_unchecked_recipient :
  no_payment_header (example_request (Some "300") []) /\
  ~ same_challenge parse_empty_object no_env
      (facilitator no_env verify_valid settle_paid)
      (example_request (Some "300") [])
      {| recipient := "bob"; network := "base" |}.
Proof.
  split; [split; reflexivity|].
  intros [resp [Hs [HG _]]]. vm_compute in HG. injection HG as <-. discriminate Hs.
Qed.

(** C6, as amended.  Whenever GET answers a request with a 402 challenge, a
    POST with the same parameters and no payment header returns the same
    response (status, headers and body) and calls nothing. *)
Theorem POST_challenge_matches_GET (JSON_parse : string -> option value)
    (env : Env.process_env) (world : FetchRequest -> settled FetchResponse)
    (request : Request) (params : Params) (resp : Response) :
  no_payment_header request ->
  run (GET request params) = (Fulfilled resp, []) -> status resp = 402 ->
  run (POST JSON_parse env world request params) = (Fulfilled resp, []).
Proof.
  intros Hh HG Hs.
  destruct (GET_402_inv request params resp [] HG Hs) as [Ha [_ Hlt]].
  rewrite POST_without_header; trivial.
Qed.

(** The amended C6 at 300 cents on Base. *)
Lemma POST_challenge_matches_GET_witness :
  exists resp,
    status resp = 402 /\
    run (GET (example_request (Some "300") []) example_params) = (Fulfilled resp, []) /\
    run (POST parse_empty_object no_env (facilitator no_env verify_valid settle_paid)
           (example_request (Some "300") []) example_params) = (Fulfilled resp, []).
Proof.
  eexists. split; [|split].
  2:{ vm_compute. reflexivity. }
  - reflexivity.
  - apply POST_challenge_matches_GET.
    + split; reflexivity.
    + vm_compute. reflexivity.
    + reflexivity.
Defined.

(** C7, at the failing input.  For [amount=abc], [parseInt] gives NaN,
    [NaN < 1] is false, and GET answers with a 402 challenge whose
    requirement has the amount [NaN]. *)
Lemma GET_accepts_non_numeric_amount :
  amountCents_of (example_request (Some "abc") []) = NaN /\
  Number_lt NaN (Int 1) = false /\
  challenges_with paymentRequired (example_request (Some "abc") []) example_params /\
  option_map (map PaymentRequirement.amount)
    (buildPaymentRequirements example_recipient "base" NaN example_url)
  = Some ["NaN"].
Proof.
  split; [reflexivity|]. split; [reflexivity|]. split; [|reflexivity].
  unfold challenges_with. eexists. eexists.
  split; [vm_compute; reflexivity|].
  split; vm_compute; reflexivity.
Qed.

(** C9, at the failing input.  With [FACILITATOR_API_KEY] set in the
    process environment, neither the verify nor the settle request carries
    an [X-API-KEY] header. *)
Lemma POST_omits_configured_api_key :
  env_with_key "FACILITATOR_API_KEY" = Some "secret" /\
  exists v s,
    snd (run (POST parse_empty_object env_with_key
                (facilitator env_with_key verify_valid settle_paid)
                paying_request example_params)) = [v; s] /\
    fetch_url v = verify_url env_with_key /\
    fetch_url s = settle_url env_with_key /\
    Headers_get (fetch_headers v) "X-API-KEY" = None /\
    Headers_get (fetch_headers s) "X-API-KEY" = None.
Proof.
  split; [reflexivity|].
  vm_compute. eexists. eexists. repeat split.
Qed.

(* ===================================================================== *)
(** ** More about the builder and the challenge *)
(* ===================================================================== *)

(** *** Which networks are configured *)

Lemma configured_iff (network : string) :
  (exists cfg, NETWORK_CONFIG_at network = Own cfg) <-> In network configured_networks.
Proof.
  split.
  - intros [cfg H]. apply configured_cases in H.
    unfold configured_networks.
    repeat (destruct H as [[= <- _]|H]; [simpl; tauto|]). destruct H.
  - intros H. unfold configured_networks in H.
    repeat (destruct H as [<-|H]; [eexists; reflexivity|]). destruct H.
Qed.

Lemma inherited_at (network : string) :
  In network Object_prototype_names -> NETWORK_CONFIG_at network = Inherited.
Proof.
  intros H. unfold Object_prototype_names in H.
  repeat (destruct H as [<-|H]; [reflexivity|]). destruct H.
Qed.

Lemma not_configured_iff (network : string) :
  not_configured network = true <->
  ~ In network configured_networks /\ ~ In network Object_prototype_names.
Proof.
  unfold not_configured. split.
  - intros H. split.
    + intros Hin. apply configured_iff in Hin. destruct Hin as [cfg Hc].
      rewrite Hc in H. discriminate.
    + intros Hin. rewrite (inherited_at _ Hin) in H. discriminate.
  - intros [H1 H2]. destruct (NETWORK_CONFIG_at network) as [cfg| |] eqn:E.
    + exfalso. apply H1, configured_iff. now exists cfg.
    + exfalso. apply H2. unfold NETWORK_CONFIG_at in E.
      destruct (assoc network NETWORK_CONFIG); [discriminate|].
      destruct (existsb (String.eqb network) Object_prototype_names) eqn:Ex;
        [|discriminate].
      apply existsb_exists in Ex. destruct Ex as [x [Hx Heq]].
      apply String.eqb_eq in Heq. subst x. exact Hx.
    + reflexivity.
Qed.

Lemma configured_table (network : string) (cfg : NetworkConfig.t) :
  In (network, cfg) NETWORK_CONFIG ->
  NetworkConfig.chainIdCAIP cfg = "eip155:" ++ decimal (NetworkConfig.chainId cfg) /\
  is_address (NetworkConfig.asset cfg) = true.
Proof.
  intros H. unfold NETWORK_CONFIG in H.
  repeat (destruct H as [[= <- <-]|H]; [split; reflexivity|]). destruct H.
Qed.

(** X1.  [buildPaymentRequirements] throws exactly for the networks that are not
    one of the four keys of [NETWORK_CONFIG], the names inherited from
    [Object.prototype] among them.  What it returns otherwise is exactly one
    requirement: of scheme [exact], paying [recipient] for [resourceUrl]
    within 300 seconds, on the CAIP-2 network [eip155:<chainId>] of the
    configuration, in an asset whose address is well formed. *)
Theorem buildPaymentRequirements_result
    (recipient network : string) (amountCents : number) (resourceUrl : string) :
  (buildPaymentRequirements recipient network amountCents resourceUrl = None <->
   ~ In network configured_networks)
  /\
  (forall reqs,
     buildPaymentRequirements recipient network amountCents resourceUrl = Some reqs ->
     exists r cfg,
       reqs = [r] /\ In (network, cfg) NETWORK_CONFIG /\
       PaymentRequirement.scheme r = "exact" /\
       PaymentRequirement.payTo r = recipient /\
       PaymentRequirement.resource r = resourceUrl /\
       PaymentRequirement.maxTimeoutSeconds r = Int 300 /\
       PaymentRequirement.network r
         = "eip155:" ++ decimal (NetworkConfig.chainId cfg) /\
       PaymentRequirement.asset r = NetworkConfig.asset cfg /\
       is_address (PaymentRequirement.asset r) = true).
Proof.
  split.
  - split.
    + intros H Hin. apply configured_iff in Hin. destruct Hin as [cfg Hcfg].
      destruct (build_configured recipient network cfg amountCents resourceUrl Hcfg)
        as [r [Hb _]]. congruence.
    + intros Hn. unfold buildPaymentRequirements.
      destruct (NETWORK_CONFIG_at network) as [cfg| |] eqn:E; try reflexivity.
      exfalso. apply Hn, configured_iff. now exists cfg.
  - intros reqs Hb.
    destruct (NETWORK_CONFIG_at network) as [cfg| |] eqn:E;
      try (unfold buildPaymentRequirements in Hb; rewrite E in Hb; discriminate).
    destruct (build_configured recipient network cfg amountCents resourceUrl E)
      as [r [Hb' [F1 [F2 [F3 [F4 [F5 [F6 [F7 [F8 [F9 F10]]]]]]]]]]].
    rewrite Hb' in Hb. injection Hb as <-.
    pose proof (configured_cases network cfg E) as Hin.
    destruct (configured_table network cfg Hin) as [T1 T2].
    exists r, cfg. repeat split; trivial.
    + rewrite F2. exact T1.
    + rewrite F9. exact T2.
Qed.

(** *** Challenges in general *)

Lemma challenge_built (recipient network : string) (cfg : NetworkConfig.t)
    (amountCents : number) (resourceUrl : string) :
  NETWORK_CONFIG_at network = Own cfg ->
  is_ascii recipient = true -> is_ascii resourceUrl = true ->
  exists r blob,
    buildPaymentRequirements recipient network amountCents resourceUrl = Some [r] /\
    btoa (JSON_stringify (paymentRequired [r])) = Some blob /\
    createPaymentRequiredResponse [r] =
      Some {| status := 402;
              headers := [("Content-Type", "application/json");
                          ("PAYMENT-REQUIRED", blob)];
              body := JSON_stringify (JObj [("error", JStr "Payment Required")]) |}.
Proof.
  intros Hcfg Hr Hu.
  destruct (build_configured recipient network cfg amountCents resourceUrl Hcfg)
    as [r [Hb _]].
  destruct (btoa_ascii (JSON_stringify (paymentRequired [r]))) as [blob Hblob].
  { apply (challenge_is_ascii recipient network cfg amountCents resourceUrl); trivial. }
  exists r, blob. split; [exact Hb|]. split; [exact Hblob|].
  unfold createPaymentRequiredResponse. rewrite Hblob. reflexivity.
Qed.

Lemma GET_challenge (request : Request) (params : Params) (cfg : NetworkConfig.t) :
  is_address (recipient params) = true ->
  NETWORK_CONFIG_at (network params) = Own cfg ->
  Number_lt (amountCents_of request) (Int 1) = false ->
  is_ascii (url request) = true ->
  challenges_with paymentRequired request params.
Proof.
  intros Ha Hcfg Hlt Hu.
  destruct (challenge_built (recipient params) (network params) cfg
              (amountCents_of request) (url request) Hcfg
              (is_address_ascii _ Ha) Hu) as [r [blob [Hb [Hblob Hresp]]]].
  exists [r], blob. split; [exact Hb|]. split; [exact Hblob|].
  unfold run, GET, not_configured, bind, lift, ret.
  rewrite Ha, Hcfg, Hlt, Hb, Hresp. reflexivity.
Qed.

(** X2.  GET answers with a 402 challenge exactly when the recipient matches the
    address pattern, the network is one of the four configured ones and the
    parsed amount is not below 1 (which NaN is not); the request URL is
    ASCII, as a serialised URL is. *)
Theorem GET_challenges_iff (request : Request) (params : Params) :
  is_ascii (url request) = true ->
  ((exists resp, fst (run (GET request params)) = Fulfilled resp /\ status resp = 402)
   <->
   is_address (recipient params) = true /\
   In (network params) configured_networks /\
   Number_lt (amountCents_of request) (Int 1) = false).
Proof.
  intros Hu. split.
  - intros [resp [H Hs]]. unfold run, GET in H.
    destruct (is_address (recipient params)); cbn [negb] in H.
    2:{ injection H as <-. discriminate Hs. }
    destruct (not_configured (network params)).
    { injection H as <-. discriminate Hs. }
    destruct (Number_lt (amountCents_of request) (Int 1)).
    { injection H as <-. discriminate Hs. }
    repeat split. unfold bind, lift, throw in H.
    destruct (buildPaymentRequirements _ _ _ _) as [reqs|] eqn:Hb; [|discriminate H].
    destruct (proj1 (buildPaymentRequirements_result (recipient params) (network params)
                (amountCents_of request) (url request))) as [_ Hnone].
    destruct (in_dec string_dec (network params) configured_networks) as [Hin|Hn];
      [exact Hin|].
    rewrite (Hnone Hn) in Hb. discriminate Hb.
  - intros [Ha [Hin Hlt]]. apply configured_iff in Hin. destruct Hin as [cfg Hcfg].
    destruct (challenge_built (recipient params) (network params) cfg
                (amountCents_of request) (url request) Hcfg
                (is_address_ascii _ Ha) Hu) as [r [blob [Hb [_ Hresp]]]].
    eexists. unfold run, GET, not_configured, bind, lift, ret.
    rewrite Ha, Hcfg, Hlt, Hb, Hresp. cbn [negb fst]. split; reflexivity.
Qed.

(** [GET_challenges_iff] on the test doubles. *)
Lemma GET_challenges_iff_witness :
  exists resp,
    fst (run (GET (example_request (Some "300") []) example_params)) = Fulfilled resp /\
    status resp = 402.
Proof.
  apply (proj2 (GET_challenges_iff (example_request (Some "300") []) example_params
                  eq_refl)).
  repeat split. simpl. tauto.
Defined.

(** X3.  The three rejections of GET, in the order of the checks: a recipient
    that does not match the address pattern is answered 400 "Invalid
    recipient address" whatever the network and the amount; then a network
    that is no property of [NETWORK_CONFIG] at all, 400 "Unsupported
    network"; then a parsed amount below 1, 400 "Invalid amount".  None of
    them builds a requirement or calls anything. *)
Theorem GET_rejections (request : Request) (params : Params) :
  (is_address (recipient params) = false ->
   run (GET request params) =
     (Fulfilled (Response_json (JObj [("error", JStr "Invalid recipient address")]) 400),
      []))
  /\
  (is_address (recipient params) = true ->
   ~ In (network params) configured_networks ->
   ~ In (network params) Object_prototype_names ->
   run (GET request params) =
     (Fulfilled (Response_json (JObj [("error", JStr "Unsupported network")]) 400), []))
  /\
  (is_address (recipient params) = true ->
   In (network params) configured_networks ->
   Number_lt (amountCents_of request) (Int 1) = true ->
   run (GET request params) =
     (Fulfilled (Response_json (JObj [("error", JStr "Invalid amount")]) 400), [])).
Proof.
  repeat split.
  - intros Ha. unfold run, GET. rewrite Ha. reflexivity.
  - intros Ha H1 H2. unfold run, GET. rewrite Ha.
    rewrite (proj2 (not_configured_iff (network params)) (conj H1 H2)). reflexivity.
  - intros Ha Hin Hlt. unfold run, GET, not_configured. rewrite Ha.
    apply configured_iff in Hin. destruct Hin as [cfg Hcfg]. rewrite Hcfg, Hlt.
    reflexivity.
Qed.

(** [GET_rejections] on the test doubles. *)
Lemma GET_rejections_witness :
  run (GET (example_request (Some "300") []) {| recipient := "bob"; network := "nowhere" |})
  = (Fulfilled (Response_json (JObj [("error", JStr "Invalid recipient address")]) 400),
     [])
  /\
  run (GET (example_request (Some "0") [])
         {| recipient := example_recipient; network := "nowhere" |})
  = (Fulfilled (Response_json (JObj [("error", JStr "Unsupported network")]) 400), [])
  /\
  run (GET (example_request (Some "0") []) example_params)
  = (Fulfilled (Response_json (JObj [("error", JStr "Invalid amount")]) 400), []).
Proof.
  split; [|split].
  - apply (proj1 (GET_rejections (example_request (Some "300") [])
                    {| recipient := "bob"; network := "nowhere" |})).
    reflexivity.
  - apply (proj1 (proj2 (GET_rejections (example_request (Some "0") [])
                           {| recipient := example_recipient; network := "nowhere" |}))).
    + reflexivity.
    + simpl. intros H. decompose [or] H; discriminate || assumption.
    + simpl. intros H. decompose [or] H; discriminate || assumption.
  - apply (proj2 (proj2 (GET_rejections (example_request (Some "0") []) example_params))).
    + reflexivity.
    + simpl. tauto.
    + reflexivity.
Defined.

(** X4.  Without an [amount] parameter, or with an empty one, GET charges 100
    cents: for a well-formed recipient on a configured network the
    challenge advertises the amount 1000000 and the description says
    $1.00. *)
Theorem GET_default_amount (request : Request) (params : Params) :
  searchParams_amount request = None \/ searchParams_amount request = Some "" ->
  is_address (recipient params) = true ->
  In (network params) configured_networks ->
  is_ascii (url request) = true ->
  challenges_with paymentRequired request params /\
  exists r,
    buildPaymentRequirements (recipient params) (network params)
      (amountCents_of request) (url request) = Some [r] /\
    PaymentRequirement.amount r = "1000000" /\
    PaymentRequirement.description r = "Donation of $1.00 to " ++ recipient params.
Proof.
  intros Hq Ha Hin Hu.
  assert (Hc : amountCents_of request = Int 100).
  { unfold amountCents_of. destruct Hq as [-> | ->]; reflexivity. }
  apply configured_iff in Hin. destruct Hin as [cfg Hcfg]. split.
  - apply (GET_challenge request params cfg); trivial. rewrite Hc. reflexivity.
  - destruct (build_configured (recipient params) (network params) cfg
                (amountCents_of request) (url request) Hcfg)
      as [r [Hb [_ [_ [F3 [_ [F5 _]]]]]]].
    exists r. split; [exact Hb|]. rewrite F3, F5, Hc. split; reflexivity.
Qed.

(** [GET_default_amount] on the test doubles. *)
Lemma GET_default_amount_witness :
  challenges_with paymentRequired (example_request None []) example_params /\
  exists r,
    buildPaymentRequirements example_recipient "base"
      (amountCents_of (example_request None [])) example_url = Some [r] /\
    PaymentRequirement.amount r = "1000000" /\
    PaymentRequirement.description r = "Donation of $1.00 to " ++ example_recipient.
Proof.
  apply (GET_default_amount (example_request None []) example_params).
  - left. reflexivity.
  - reflexivity.
  - simpl. tauto.
  - reflexivity.
Defined.

(** *** Networks named like a property of [Object.prototype] *)

(** X5.  A network named like a property that [NETWORK_CONFIG] inherits from
    [Object.prototype] ([constructor], [toString], ...) passes the network
    check of both handlers, and [buildPaymentRequirements] then throws: GET
    (for a well-formed recipient and an amount that passes) and a POST
    without payment header end in an unhandled exception, a POST with a
    payment header answers 500 "Payment processing failed"; the facilitator
    is not called. *)
Theorem inherited_network_names
    (JSON_parse : string -> option value) (env : Env.process_env)
    (world : FetchRequest -> settled FetchResponse)
    (request : Request) (params : Params) :
  In (network params) Object_prototype_names ->
  (is_address (recipient params) = true ->
   Number_lt (amountCents_of request) (Int 1) = false ->
   run (GET request params) = (Rejected, []))
  /\
  (paymentHeader_of request = None \/ paymentHeader_of request = Some "" ->
   run (POST JSON_parse env world request params) = (Rejected, []))
  /\
  (forall header,
     paymentHeader_of request = Some header -> header <> "" ->
     run (POST JSON_parse env world request params) =
       (Fulfilled (Response_json (JObj [("error", JStr "Payment processing failed")]) 500),
        [])).
Proof.
  intros Hin. pose proof (inherited_at _ Hin) as Hi.
  assert (Hb : buildPaymentRequirements (recipient params) (network params)
                 (amountCents_of request) (url request) = None).
  { unfold buildPaymentRequirements. rewrite Hi. reflexivity. }
  repeat split.
  - intros Ha Hlt. unfold run, GET, not_configured, bind, lift, throw.
    rewrite Ha, Hi, Hlt, Hb. reflexivity.
  - intros Hh. unfold run, POST, not_configured, bind, lift, throw.
    rewrite Hi, Hb. destruct Hh as [-> | ->]; reflexivity.
  - intros header Hh Hne. unfold run, POST, not_configured. rewrite Hi, Hh.
    apply String.eqb_neq in Hne. rewrite Hne.
    unfold try_catch, redeem, bind, lift, ret, throw.
    destruct (atob header) as [decoded|]; [|reflexivity].
    destruct (JSON_parse decoded) as [payload|]; [|reflexivity].
    rewrite Hb. reflexivity.
Qed.

(** [inherited_network_names] on the test doubles. *)
Lemma inherited_network_names_witness :
  run (GET (example_request (Some "300") [])
         {| recipient := example_recipient; network := "constructor" |})
  = (Rejected, [])
  /\
  run (POST parse_empty_object no_env (facilitator no_env verify_valid settle_paid)
         paying_request
         {| recipient := example_recipient; network := "toString" |})
  = (Fulfilled (Response_json (JObj [("error", JStr "Payment processing failed")]) 500),
     []).
Proof.
  split.
  - apply (proj1 (inherited_network_names parse_empty_object no_env
                    (facilitator no_env verify_valid settle_paid)
                    (example_request (Some "300") [])
                    {| recipient := example_recipient; network := "constructor" |}
                    ltac:(simpl; tauto))); reflexivity.
  - apply (proj2 (proj2 (inherited_network_names parse_empty_object no_env
                    (facilitator no_env verify_valid settle_paid)
                    paying_request
                    {| recipient := example_recipient; network := "toString" |}
                    ltac:(simpl; tauto))) "e30="); [reflexivity | discriminate].
Defined.

(** *** POST without a payment header *)

(** X6.  POST validates neither the recipient nor the amount: without a payment
    header, on a configured network, it issues a 402 challenge for every
    ASCII recipient and every amount parameter, and the requirement it
    advertises pays that recipient the amount as parsed (zero, negative or
    NaN included). *)
Theorem POST_challenges_anything
    (JSON_parse : string -> option value) (env : Env.process_env)
    (world : FetchRequest -> settled FetchResponse)
    (request : Request) (params : Params) :
  paymentHeader_of request = None \/ paymentHeader_of request = Some "" ->
  In (network params) configured_networks ->
  is_ascii (recipient params) = true ->
  is_ascii (url request) = true ->
  exists r resp,
    buildPaymentRequirements (recipient params) (network params)
      (amountCents_of request) (url request) = Some [r] /\
    PaymentRequirement.payTo r = recipient params /\
    PaymentRequirement.amount r
      = Number_toString (Number_mul (amountCents_of request) (Int 10000)) /\
    createPaymentRequiredResponse [r] = Some resp /\
    status resp = 402 /\
    run (POST JSON_parse env world request params) = (Fulfilled resp, []).
Proof.
  intros Hh Hin Hr Hu. apply configured_iff in Hin. destruct Hin as [cfg Hcfg].
  destruct (challenge_built (recipient params) (network params) cfg
              (amountCents_of request) (url request) Hcfg Hr Hu)
    as [r [blob [Hb [_ Hresp]]]].
  destruct (build_configured (recipient params) (network params) cfg
              (amountCents_of request) (url request) Hcfg)
    as [r' [Hb' [_ [_ [F3 [_ [_ [_ [F7 _]]]]]]]]].
  rewrite Hb in Hb'. injection Hb' as <-.
  eexists r, _. split; [exact Hb|]. split; [exact F7|]. split; [exact F3|].
  split; [exact Hresp|]. split; [reflexivity|].
  unfold run, POST, not_configured, bind, lift, ret. rewrite Hcfg, Hb, Hresp.
  destruct Hh as [-> | ->]; reflexivity.
Qed.

(** [POST_challenges_anything] on the test doubles. *)
Lemma POST_challenges_anything_witness :
  exists r resp,
    buildPaymentRequirements "bob" "base"
      (amountCents_of (example_request (Some "-5") [])) example_url = Some [r] /\
    PaymentRequirement.payTo r = "bob" /\
    PaymentRequirement.amount r = "-50000" /\
    createPaymentRequiredResponse [r] = Some resp /\
    status resp = 402 /\
    run (POST parse_empty_object no_env (facilitator no_env verify_valid settle_paid)
           (example_request (Some "-5") []) {| recipient := "bob"; network := "base" |})
    = (Fulfilled resp, []).
Proof.
  apply (POST_challenges_anything parse_empty_object no_env
           (facilitator no_env verify_valid settle_paid)
           (example_request (Some "-5") []) {| recipient := "bob"; network := "base" |}).
  - left. reflexivity.
  - simpl. tauto.
  - reflexivity.
  - reflexivity.
Defined.

(* ===================================================================== *)
(** ** More about the redemption *)
(* ===================================================================== *)

(** *** Errors of the redemption *)

Section RedemptionErrors.
Variable JSON_parse : string -> option value.
Variable env : Env.process_env.
Variable world : FetchRequest -> settled FetchResponse.

Ltac enter H :=
  let cfg := fresh "cfg" in
  let Hcfg := fresh "Hcfg" in
  let header := fresh "header" in
  let decoded := fresh "decoded" in
  let payload := fresh "payload" in
  let Hh := fresh "Hh" in
  let Hne := fresh "Hne" in
  let Ha := fresh "Ha" in
  let Hp := fresh "Hp" in
  destruct H as [[cfg Hcfg] [header [decoded [payload [Hh [Hne [Ha Hp]]]]]]];
  unfold run, POST, not_configured; rewrite Hcfg, Hh;
  apply String.eqb_neq in Hne; rewrite Hne;
  unfold try_catch, redeem, bind, lift, ret, throw, fetch;
  rewrite Ha, Hp; unfold buildPaymentRequirements; rewrite Hcfg;
  cbv beta iota.

Ltac answer Hw :=
  match goal with
  | |- context [world ?r] => rewrite (Hw r eq_refl); cbv beta iota
  end.

(** X7.  A payment header that is not Base64, or whose decoded text is not JSON,
    is answered 500 "Payment processing failed" on a configured network; the
    facilitator is not called. *)
Theorem malformed_payment_header (request : Request) (params : Params)
    (header : string) :
  In (network params) configured_networks ->
  paymentHeader_of request = Some header -> header <> "" ->
  atob header = None \/
  (exists decoded, atob header = Some decoded /\ JSON_parse decoded = None) ->
  run (POST JSON_parse env world request params) = (Fulfilled processing_failed, []).
Proof.
  intros Hin Hh Hne Hbad. apply configured_iff in Hin. destruct Hin as [cfg Hcfg].
  unfold run, POST, not_configured. rewrite Hcfg, Hh.
  apply String.eqb_neq in Hne. rewrite Hne.
  unfold try_catch, redeem, bind, lift, ret, throw.
  destruct Hbad as [-> | [decoded [-> ->]]]; reflexivity.
Qed.

(** X8.  Once verify has accepted the payment, a settle answer that is not 2xx
    gives 500 "Payment settlement failed" with the text of the answer as
    [details], and a settle call that fails gives 500 "Payment processing
    failed"; in both cases verify and settle were each called once. *)
Theorem settle_transport_failure (request : Request) (params : Params)
    (vr : FetchResponse) (body isValid : value) :
  redeemable JSON_parse request params ->
  verify_answers env world vr -> ok vr = true -> response_json vr = Some body ->
  get_prop body "isValid" = Some isValid -> truthy isValid = true ->
  (forall sr,
     settle_answers env world sr -> ok sr = false ->
     exists v s,
       run (POST JSON_parse env world request params) =
         (Fulfilled
            (Response_json
               (JObj [("error", JStr "Payment settlement failed");
                      ("details", JStr (response_text sr))]) 500),
          [v; s]))
  /\
  (settle_fails env world ->
   exists v s,
     run (POST JSON_parse env world request params) =
       (Fulfilled processing_failed, [v; s])).
Proof.
  intros H Hv Hok Hj Hi Ht. split.
  - intros sr Hs Hsok. enter H. answer Hv.
    rewrite Hok, Hj. cbv beta iota. rewrite Hi. cbv beta iota. rewrite Ht.
    cbv beta iota. answer Hs. rewrite Hsok. eexists; eexists. reflexivity.
  - intros Hs. enter H. answer Hv.
    rewrite Hok, Hj. cbv beta iota. rewrite Hi. cbv beta iota. rewrite Ht.
    cbv beta iota. answer Hs. eexists; eexists. reflexivity.
Qed.

(** X9.  A 2xx answer of verify that is not what the facilitator promises: a
    body that is not JSON, or the JSON [null], gives 500 "Payment processing
    failed"; any other JSON value whose [isValid] is missing or falsy (an
    empty object, an array, a number) gives 400 "Invalid payment" with the
    [invalidReason] it has, if any.  Settle is not called: verify is the
    only request sent. *)
Theorem verify_unexpected_body (request : Request) (params : Params)
    (vr : FetchResponse) :
  redeemable JSON_parse request params ->
  verify_answers env world vr -> ok vr = true ->
  (response_json vr = None \/ response_json vr = Some JNull ->
   exists v,
     run (POST JSON_parse env world request params) = (Fulfilled processing_failed, [v]))
  /\
  (forall body isValid reason,
     response_json vr = Some body ->
     get_prop body "isValid" = Some isValid -> truthy isValid = false ->
     get_prop body "invalidReason" = Some reason ->
     exists v,
       run (POST JSON_parse env world request params) =
         (Fulfilled
            (Response_json
               (JObj [("error", JStr "Invalid payment"); ("reason", reason)]) 400),
          [v])).
Proof.
  intros H Hv Hok. split.
  - intros Hj. enter H. answer Hv. rewrite Hok.
    destruct Hj as [-> | ->]; eexists; reflexivity.
  - intros body isValid reason Hj Hi Ht Hr. enter H. answer Hv.
    rewrite Hok, Hj. cbv beta iota. rewrite Hi. cbv beta iota. rewrite Ht, Hr.
    eexists. reflexivity.
Qed.

End RedemptionErrors.

(** *** The outcomes of POST *)

Lemma created_status (reqs : list PaymentRequirement.t) (resp : Response) :
  createPaymentRequiredResponse reqs = Some resp -> status resp = 402.
Proof.
  unfold createPaymentRequiredResponse. destruct (btoa _); [|discriminate].
  intros [= <-]. reflexivity.
Qed.

Section Outcomes.
Variable JSON_parse : string -> option value.
Variable env : Env.process_env.
Variable world : FetchRequest -> settled FetchResponse.

Lemma redeem_outcomes (request : Request) (params : Params) (header : string)
    (resp : Response) (sent : list FetchRequest) :
  redeem JSON_parse env world request params header [] = (Fulfilled resp, sent) ->
  (status resp = 400 /\ exists v, sent = [v]) \/
  (status resp = 500 /\ exists v s, sent = [v; s] /\ valid_verify env world v) \/
  (status resp = 200 /\ settled_outcome env world params resp sent).
Proof.
  cbv [redeem bind lift ret throw fetch]. cbn [app].
  destruct (atob header) as [decoded|]; [|discriminate].
  destruct (JSON_parse decoded) as [payload|]; [|discriminate].
  destruct (buildPaymentRequirements _ _ _ _) as [reqs|]; [|discriminate].
  match goal with |- context [world ?r] => set (v := r) end.
  destruct (world v) as [vr|] eqn:Ev; [|discriminate].
  destruct (ok vr) eqn:Eok; cbn [negb].
  2:{ intros [= <- <-]. left. split; [reflexivity | now exists v]. }
  destruct (response_json vr) as [body|] eqn:Ej; [|discriminate].
  destruct (get_prop body "isValid") as [iv|] eqn:Ei; [|discriminate].
  destruct (truthy iv) eqn:Et; cbn [negb].
  2:{ destruct (get_prop body "invalidReason"); [|discriminate].
      intros [= <- <-]. left. split; [reflexivity | now exists v]. }
  assert (Hv : valid_verify env world v).
  { split; [reflexivity|]. exists vr, body, iv. auto. }
  match goal with |- context [world ?r] => set (s := r) end.
  destruct (world s) as [sr|] eqn:Es; [|discriminate].
  destruct (ok sr) eqn:Esok; cbn [negb].
  2:{ intros [= <- <-]. right; left. split; [reflexivity|]. now exists v, s. }
  destruct (response_json sr) as [sbody|] eqn:Esj; [|discriminate].
  destruct (get_prop sbody "success") as [sv|] eqn:Esu; [|discriminate].
  destruct (truthy sv) eqn:Est; cbn [negb].
  2:{ destruct (get_prop sbody "errorReason"); [|discriminate].
      intros [= <- <-]. right; left. split; [reflexivity|]. now exists v, s. }
  destruct (get_prop sbody "transaction") as [t|] eqn:Etx; [|discriminate].
  intros [= <- <-]. right; right. split; [reflexivity|].
  exists v, s, t. split; [reflexivity|]. split; [exact Hv|]. split; [|reflexivity].
  split; [reflexivity|]. exists sr, sbody, sv. auto 10.
Qed.

(** X10.  Every response of POST has one of the statuses 200, 400, 402 and 500,
    and a 200 is the success body for the transaction of a settle call:
    exactly two requests were sent, a verify request answered 2xx with a
    truthy [isValid], then a settle request answered 2xx with a truthy
    [success]. *)
Theorem POST_outcomes (request : Request) (params : Params)
    (resp : Response) (sent : list FetchRequest) :
  run (POST JSON_parse env world request params) = (Fulfilled resp, sent) ->
  In (status resp) [200; 400; 402; 500] /\
  (status resp = 402 -> sent = []) /\
  (status resp = 200 -> settled_outcome env world params resp sent).
Proof.
  unfold run, POST.
  destruct (not_configured (network params)).
  { intros [= <- <-]. cbn [status Response_json]. split; [simpl; tauto|].
    split; [reflexivity | discriminate]. }
  assert (Hchallenge :
    bind (lift (buildPaymentRequirements (recipient params) (network params)
                  (amountCents_of request) (url request)))
         (fun reqs => lift (createPaymentRequiredResponse reqs)) []
    = (Fulfilled resp, sent) ->
    In (status resp) [200; 400; 402; 500] /\
    (status resp = 402 -> sent = []) /\
    (status resp = 200 -> settled_outcome env world params resp sent)).
  { unfold bind, lift, ret, throw.
    destruct (buildPaymentRequirements _ _ _ _) as [reqs|]; [|discriminate].
    destruct (createPaymentRequiredResponse reqs) as [r|] eqn:E; [|discriminate].
    intros [= <- <-]. rewrite (created_status reqs r E).
    split; [simpl; tauto|]. split; [reflexivity | discriminate]. }
  destruct (paymentHeader_of request) as [header|]; [|exact Hchallenge].
  destruct (header =? "")%string; [exact Hchallenge|].
  unfold try_catch.
  destruct (redeem JSON_parse env world request params header []) as [[r|] sent'] eqn:E.
  - intros [= <- <-].
    destruct (redeem_outcomes request params header r sent' E)
      as [[Hs [v Hv]]|[[Hs [v [s [Hv _]]]]|[Hs Hout]]]; rewrite Hs.
    + split; [simpl; tauto|]. split; discriminate.
    + split; [simpl; tauto|]. split; discriminate.
    + split; [simpl; tauto|]. split; [discriminate|]. intros _. exact Hout.
  - unfold ret. intros [= <- <-]. cbn [status Response_json].
    split; [simpl; tauto|]. split; discriminate.
Qed.

End Outcomes.

(** *** The requests sent to the facilitator *)

Section Requests.
Variable JSON_parse : string -> option value.
Variable env : Env.process_env.
Variable world : FetchRequest -> settled FetchResponse.

Lemma redeem_requests (request : Request) (params : Params) (header : string) :
  paymentHeader_of request = Some header ->
  let sent := snd (redeem JSON_parse env world request params header []) in
  sent = [] \/
  (exists v, sent = [v] /\ facilitator_request JSON_parse env request params "/verify" v) \/
  (exists v s, sent = [v; s] /\ facilitator_request JSON_parse env request params "/verify" v /\
               facilitator_request JSON_parse env request params "/settle" s).
Proof.
  intros Hh. cbv [redeem bind lift ret throw fetch]. cbn [app].
  destruct (atob header) as [decoded|] eqn:Ea; [|left; reflexivity].
  destruct (JSON_parse decoded) as [payload|] eqn:Ep; [|left; reflexivity].
  destruct (buildPaymentRequirements _ _ _ _) as [reqs|] eqn:Eb; [|left; reflexivity].
  match goal with |- context [world ?r] => set (v := r) end.
  assert (Hv : facilitator_request JSON_parse env request params "/verify" v).
  { exists header, decoded, payload, reqs. repeat split; trivial. }
  destruct (world v) as [vr|]; [|right; left; exists v; split; [reflexivity | exact Hv]].
  destruct (ok vr); cbn [negb];
    [|right; left; exists v; split; [reflexivity | exact Hv]].
  destruct (response_json vr) as [body|];
    [|right; left; exists v; split; [reflexivity | exact Hv]].
  destruct (get_prop body "isValid") as [iv|];
    [|right; left; exists v; split; [reflexivity | exact Hv]].
  destruct (truthy iv); cbn [negb].
  2:{ destruct (get_prop body "invalidReason");
        right; left; exists v; (split; [reflexivity | exact Hv]). }
  match goal with |- context [world ?r] => set (s := r) end.
  assert (Hs : facilitator_request JSON_parse env request params "/settle" s).
  { exists header, decoded, payload, reqs. repeat split; trivial. }
  right; right. exists v, s. split; [|split; [exact Hv | exact Hs]].
  destruct (world s) as [sr|]; [|reflexivity].
  destruct (ok sr); cbn [negb]; [|reflexivity].
  destruct (response_json sr) as [sbody|]; [|reflexivity].
  destruct (get_prop sbody "success") as [sv|]; [|reflexivity].
  destruct (truthy sv); cbn [negb].
  - destruct (get_prop sbody "transaction"); reflexivity.
  - destruct (get_prop sbody "errorReason"); reflexivity.
Qed.

(** X11.  Whatever POST sends goes to the facilitator named by the environment
    variable [FACILITATOR_URL] (https://x402.org/facilitator when it is not
    set): first to its [/verify], then to its [/settle], and nothing after
    that.  Each request is a POST with the single header [Content-Type:
    application/json] and the JSON text of [{x402Version: 2, paymentPayload,
    paymentRequirements}] as body, the payload being the decoded payment
    header and the requirement the one built for the request; so the settle
    request has the body of the verify request. *)
Theorem facilitator_requests (request : Request) (params : Params) :
  let sent := snd (run (POST JSON_parse env world request params)) in
  sent = [] \/
  (exists v, sent = [v] /\ facilitator_request JSON_parse env request params "/verify" v) \/
  (exists v s, sent = [v; s] /\
               facilitator_request JSON_parse env request params "/verify" v /\
               facilitator_request JSON_parse env request params "/settle" s /\
               fetch_body s = fetch_body v /\ fetch_headers s = fetch_headers v).
Proof.
  unfold run, POST.
  destruct (not_configured _); [left; reflexivity|].
  assert (Hchallenge :
    snd (bind (lift (buildPaymentRequirements (recipient params) (network params)
                       (amountCents_of request) (url request)))
              (fun reqs => lift (createPaymentRequiredResponse reqs)) []) = []).
  { unfold bind, lift, ret, throw.
    destruct (buildPaymentRequirements _ _ _ _) as [reqs|]; [|reflexivity].
    destruct (createPaymentRequiredResponse reqs); reflexivity. }
  destruct (paymentHeader_of request) as [header|] eqn:Hh; [|left; exact Hchallenge].
  destruct (header =? "")%string; [left; exact Hchallenge|].
  pose proof (redeem_requests request params header Hh) as H. cbv zeta in H.
  unfold try_catch.
  destruct (redeem JSON_parse env world request params header []) as [[resp|] sent];
    cbn [snd] in *.
  - destruct H as [H|[H|[v [s [H [Hv Hs]]]]]]; [now left | now right; left |].
    right; right. exists v, s. split; [exact H|]. split; [exact Hv|]. split; [exact Hs|].
    destruct Hv as [h1 [d1 [p1 [r1 [E1 [E2 [E3 [E4 ->]]]]]]]].
    destruct Hs as [h2 [d2 [p2 [r2 [F1 [F2 [F3 [F4 ->]]]]]]]].
    cbn [fetch_body fetch_headers]. split; [|reflexivity]. congruence.
  - destruct H as [H|[H|[v [s [H [Hv Hs]]]]]]; [now left | now right; left |].
    right; right. exists v, s. split; [exact H|]. split; [exact Hv|]. split; [exact Hs|].
    destruct Hv as [h1 [d1 [p1 [r1 [E1 [E2 [E3 [E4 ->]]]]]]]].
    destruct Hs as [h2 [d2 [p2 [r2 [F1 [F2 [F3 [F4 ->]]]]]]]].
    cbn [fetch_body fetch_headers]. split; [|reflexivity]. congruence.
Qed.

End Requests.

(* ===================================================================== *)
(** ** Numerals, prices and Base64 *)
(* ===================================================================== *)

(** *** Reading a numeral back *)

Lemma dec_small (z : Z) : 0 <= z < 10 -> dec z = String (digit_char z) "".
Proof.
  intros H. rewrite (dec_fuel z 0) by (change (10 ^ Z.of_nat 1) with 10; lia).
  rewrite dec_aux_S. rewrite Z.mod_small by lia.
  destruct (Z.ltb_spec z 10); [reflexivity | lia].
Qed.

Lemma dec_step (z : Z) :
  10 <= z -> dec z = dec (z / 10) ++ String (digit_char (z mod 10)) "".
Proof.
  intros Hz.
  pose proof (Z.mod_pos_bound z 10 ltac:(lia)) as Hm.
  pose proof (Z.div_mod z 10 ltac:(lia)) as Hdm.
  assert (Hq : 1 <= z / 10) by (apply Z.div_le_lower_bound; lia).
  pose proof (Z.log2_nonneg (z / 10)) as Hl.
  pose proof (Z.log2_spec (z / 10) ltac:(lia)) as [_ Hlog].
  pose proof (pow2_le_pow10 (Z.succ (Z.log2 (z / 10))) ltac:(lia)) as Hp.
  set (g := Z.to_nat (Z.log2 (z / 10))).
  assert (Hg : z / 10 < 10 ^ Z.of_nat (S g)).
  { unfold g. rewrite Nat2Z.inj_succ, Z2Nat.id by lia. lia. }
  rewrite (dec_fuel z (S g)); [| lia |].
  - rewrite dec_aux_S. destruct (Z.ltb_spec z 10); [lia|].
    rewrite dec_aux_acc. rewrite <- (dec_fuel (z / 10) g) by (trivial; lia).
    reflexivity.
  - rewrite Nat2Z.inj_succ, Z.pow_succ_r by lia. lia.
Qed.

Lemma digit_char_digit (d : Z) :
  0 <= d < 10 -> is_digit (digit_char d) = true /\ code (digit_char d) - 48 = d.
Proof.
  intros H. unfold is_digit, digit_char. rewrite code_chr by lia.
  split; [|lia].
  apply andb_true_iff. split; apply Z.leb_le; lia.
Qed.

Lemma digits_value_digit (d : Z) (s : string) (acc : Z) (seen : bool) :
  0 <= d < 10 ->
  digits_value (String (digit_char d) s) acc seen = digits_value s (acc * 10 + d) true.
Proof.
  intros H. destruct (digit_char_digit d H) as [H1 H2].
  cbn [digits_value]. rewrite H1, H2. reflexivity.
Qed.

Lemma digits_value_dec (n : nat) : forall z rest acc seen,
  0 <= z < 10 ^ Z.of_nat n ->
  digits_value (dec z ++ rest) acc seen
  = digits_value rest (acc * 10 ^ Z.of_nat (String.length (dec z)) + z) true.
Proof.
  assert (Hsmall : forall z rest acc seen, 0 <= z < 10 ->
    digits_value (dec z ++ rest) acc seen
    = digits_value rest (acc * 10 ^ Z.of_nat (String.length (dec z)) + z) true).
  { intros z rest acc seen Hz. rewrite dec_small by lia.
    cbn [append String.length]. rewrite digits_value_digit by lia.
    change (10 ^ Z.of_nat 1) with 10. reflexivity. }
  induction n as [|n IH]; intros z rest acc seen Hz.
  - change (10 ^ Z.of_nat 0) with 1 in Hz. apply Hsmall. lia.
  - destruct (Z.lt_ge_cases z 10) as [Hlt|Hge]; [apply Hsmall; lia|].
    pose proof (Z.mod_pos_bound z 10 ltac:(lia)) as Hm.
    pose proof (Z.div_mod z 10 ltac:(lia)) as Hdm.
    rewrite dec_step by lia. rewrite append_assoc.
    rewrite IH.
    2:{ split; [apply Z.div_pos; lia|].
        apply Z.div_lt_upper_bound; [lia|].
        rewrite Nat2Z.inj_succ, Z.pow_succ_r in Hz by lia. lia. }
    cbn [append]. rewrite digits_value_digit by exact Hm.
    f_equal. rewrite length_append. cbn [String.length].
    rewrite Nat2Z.inj_add. change (Z.of_nat 1) with 1.
    rewrite Z.pow_add_r by lia. change (10 ^ 1) with 10. lia.
Qed.

Lemma digits_value_stop (rest : string) (acc : Z) :
  no_digit_ahead rest = true -> digits_value rest acc true = Some acc.
Proof.
  destruct rest as [|c rest]; [reflexivity|]. simpl. intros H.
  apply negb_true_iff in H. rewrite H. reflexivity.
Qed.

Lemma dec_head (z : Z) :
  0 <= z -> exists d rest, 0 <= d < 10 /\ dec z = String (digit_char d) rest.
Proof.
  intros Hz. unfold dec. generalize (Z.to_nat (Z.log2 z)) as f.
  assert (H : forall f z acc, exists d rest,
             0 <= d < 10 /\ dec_aux (S f) z acc = String (digit_char d) rest).
  { induction f as [|f IH]; intros z0 acc; rewrite dec_aux_S.
    - exists (z0 mod 10). eexists. split; [apply Z.mod_pos_bound; lia|].
      destruct (z0 <? 10); reflexivity.
    - destruct (z0 <? 10).
      + exists (z0 mod 10). eexists. split; [apply Z.mod_pos_bound; lia | reflexivity].
      + apply IH. }
  intros f. apply H.
Qed.

Lemma skip_white_space_digit (a : ascii) (r : string) :
  is_digit a = true -> skip_white_space (String a r) = String a r.
Proof.
  intros H. unfold is_digit in H. apply andb_true_iff in H.
  destruct H as [H1 H2]. apply Z.leb_le in H1. apply Z.leb_le in H2.
  assert (W1 : is_white_space1 a = false).
  { unfold is_white_space1.
    destruct (Z.leb_spec (code a) 13); [lia|]. rewrite andb_false_r.
    destruct (Z.eqb_spec (code a) 32); [lia | reflexivity]. }
  assert (W2 : forall b, is_white_space2 a b = false).
  { intros b. unfold is_white_space2.
    destruct (Z.eqb_spec (code a) 194); [lia | reflexivity]. }
  assert (W3 : forall b c, is_white_space3 a b c = false).
  { intros b c. unfold is_white_space3.
    destruct (Z.eqb_spec (code a) 225); [lia|].
    destruct (Z.eqb_spec (code a) 226); [lia|].
    destruct (Z.eqb_spec (code a) 227); [lia|].
    destruct (Z.eqb_spec (code a) 239); [lia|]. reflexivity. }
  destruct r as [|b [|c r]]; cbn [skip_white_space]; rewrite W1; try reflexivity;
    rewrite W2; try reflexivity.
  rewrite W3. reflexivity.
Qed.

Lemma parseInt_numeral (s : string) (d : Z) (rest : string) :
  0 <= d < 10 -> s = String (digit_char d) rest ->
  parseInt s = match digits_value s 0 false with
               | Some v => of_integer v
               | None => NaN
               end.
Proof.
  intros Hd ->. unfold parseInt.
  rewrite skip_white_space_digit by (apply digit_char_digit; exact Hd).
  assert (d = 0 \/ d = 1 \/ d = 2 \/ d = 3 \/ d = 4 \/ d = 5 \/ d = 6 \/ d = 7 \/
          d = 8 \/ d = 9) as H by lia.
  destruct H as [->|[->|[->|[->|[->|[->|[->|[->|[->| ->]]]]]]]]]; reflexivity.
Qed.

Lemma parseInt_decimal_then (c : Z) (rest : string) :
  0 <= c < 2 ^ 53 -> no_digit_ahead rest = true ->
  parseInt (decimal c ++ rest) = Int c.
Proof.
  intros Hc Hr. unfold decimal. destruct (Z.ltb_spec c 0); [lia|].
  destruct (dec_head c ltac:(lia)) as [d [tl [Hd Hdec]]].
  rewrite (parseInt_numeral (dec c ++ rest) d (tl ++ rest) Hd)
    by (rewrite Hdec; reflexivity).
  assert (Hb : c < 10 ^ Z.of_nat 16).
  { assert (2 ^ 53 < 10 ^ Z.of_nat 16) by (vm_compute; reflexivity). lia. }
  rewrite (digits_value_dec 16) by lia.
  rewrite digits_value_stop by exact Hr.
  rewrite Z.mul_0_l, Z.add_0_l. apply of_integer_exact. lia.
Qed.

(** X12.  [parseInt] reads a decimal numeral back: for [0 <= c < 2^53], the
    numeral of [c] followed by anything that does not start with a digit
    (nothing, [.99], [abc]) parses to [c].  So the amount that the page puts
    into [?amount=] reaches the handlers unchanged, and a fractional or
    decorated amount is charged by its integer prefix. *)
Theorem parseInt_reads_numeral (c : Z) (rest : string) :
  0 <= c < 2 ^ 53 -> no_digit_ahead rest = true ->
  parseInt (decimal c ++ rest) = Int c /\
  (rest = "" -> 1 <= c -> parseInt (Number_toString (Int c)) = Int c).
Proof.
  intros Hc Hrest. split; [apply parseInt_decimal_then; trivial|].
  intros -> H1. rewrite Number_toString_exact by lia.
  rewrite <- (append_nil_r (decimal c)). apply parseInt_decimal_then; trivial.
Qed.

(** [parseInt_reads_numeral] on the test doubles. *)
Lemma parseInt_reads_numeral_witness :
  parseInt ("3" ++ ".99") = Int 3 /\ parseInt (Number_toString (Int 300)) = Int 300.
Proof.
  split.
  - apply (proj1 (parseInt_reads_numeral 3 ".99" ltac:(lia) eq_refl)).
  - apply (proj2 (parseInt_reads_numeral 300 "" ltac:(lia) eq_refl) eq_refl). lia.
Defined.

(** *** The price in dollars *)

Lemma round_ratio_100 (c : Z) :
  1 <= c < 2 ^ 52 ->
  exists m k delta,
    round_ratio c 100 = (m, - k) /\ 7 <= k /\
    100 * m = c * 2 ^ k + delta /\ -50 <= delta <= 50.
Proof.
  intros [H1 H2]. unfold round_ratio.
  assert (Hl : 0 <= Z.log2 c <= 51).
  { split; [apply Z.log2_nonneg|]. 
    assert (Z.log2 c < 52) by (apply Z.log2_lt_pow2; lia). lia. }
  change (Z.log2 100) with 6.
  set (e1 := Z.log2 c - 6 - 52).
  assert (He1 : e1 <= -7) by (unfold e1; lia).
  destruct (Z.leb_spec 0 e1) as [|_]; [lia|].
  set (e := if c * 2 ^ (- e1) <? 2 ^ 52 * 100 then e1 - 1 else e1).
  assert (He : e <= -7) by (unfold e; destruct (_ <? _); lia).
  destruct (Z.leb_spec 0 e) as [|_]; [lia|].
  set (N := c * 2 ^ (- e)).
  pose proof (Z.div_mod N 100 ltac:(lia)) as Hdm.
  pose proof (Z.mod_pos_bound N 100 ltac:(lia)) as Hr.
  set (qt := N / 100) in *. set (r := N mod 100) in *.
  assert (Hk : e = - (- e)) by lia.
  destruct (Z.ltb_spec (2 * r) 100).
  { exists qt, (- e), (- r). rewrite <- Hk. repeat split; try lia. }
  destruct (Z.ltb_spec 100 (2 * r)).
  { exists (qt + 1), (- e), (100 - r). rewrite <- Hk. repeat split; try lia. }
  destruct (Z.even qt).
  - exists qt, (- e), (- r). rewrite <- Hk. repeat split; try lia.
  - exists (qt + 1), (- e), (100 - r). rewrite <- Hk. repeat split; try lia.
Qed.

Lemma toFixed_cents (c : Z) :
  0 <= c < 2 ^ 52 ->
  toFixed (Number_div (Int c) 100) 2 =
  let ds := pad_left "0" 3 (dec c) in
  substring 0 (String.length ds - 2) ds ++ "."
  ++ substring (String.length ds - 2) 2 ds.
Proof.
  intros [H0 H1]. unfold Number_div.
  destruct (Z.eqb_spec c 0) as [->|Hc]; [reflexivity|].
  destruct (round_ratio_100 c ltac:(lia)) as [m [k [delta [Hrr [Hk [Hm Hd]]]]]].
  rewrite Z.abs_eq by lia. rewrite Hrr.
  destruct (Z.ltb_spec c 0); [lia|].
  unfold toFixed. cbn [andb].
  destruct (Z.leb_spec 0 (- k)); [lia|]. cbn [andb].
  rewrite Z.opp_involutive.
  assert (Hn : (2 * m * 10 ^ 2 + 2 ^ k) / (2 * 2 ^ k) = c).
  { assert (HP : 128 <= 2 ^ k).
    { change 128 with (2 ^ 7). apply Z.pow_le_mono_r; lia. }
    symmetry. apply (Z.div_unique _ _ c (2 * delta + 2 ^ k)); [lia|].
    change (10 ^ 2) with 100. lia. }
  rewrite Hn. reflexivity.
Qed.

Lemma substring_prefix (a b : string) :
  substring 0 (String.length a) (a ++ b) = a.
Proof.
  induction a as [|c a IH]; simpl.
  - destruct b; reflexivity.
  - rewrite IH. reflexivity.
Qed.

Lemma substring_suffix (a b : string) :
  substring (String.length a) (String.length b) (a ++ b) = b.
Proof.
  induction a as [|c a IH]; simpl; [|exact IH].
  induction b as [|c b IHb]; simpl; [reflexivity|]. rewrite IHb. reflexivity.
Qed.

Lemma dec_nonempty (z : Z) : 0 <= z -> (1 <= String.length (dec z))%nat.
Proof.
  intros H. destruct (dec_head z H) as [d [rest [_ ->]]]. simpl. lia.
Qed.

Lemma padded_cents (c : Z) :
  0 <= c ->
  pad_left "0" 3 (dec c) =
  dec (c / 100)
  ++ String (digit_char (c / 10 mod 10)) (String (digit_char (c mod 10)) "").
Proof.
  intros H0. unfold pad_left.
  destruct (Z.lt_ge_cases c 10) as [H1|H1].
  - rewrite (dec_small c) by lia.
    rewrite (Z.div_small c 100), (Z.div_small c 10), (Z.mod_small c 10) by lia.
    reflexivity.
  - rewrite (dec_step c) by lia.
    pose proof (Z.div_pos c 10 H0 ltac:(lia)) as Hq.
    assert (Hcc : c / 10 / 10 = c / 100) by (rewrite Z.div_div by lia; reflexivity).
    destruct (Z.lt_ge_cases c 100) as [H2|H2].
    + assert (Hq10 : c / 10 < 10) by (apply Z.div_lt_upper_bound; lia).
      rewrite (dec_small (c / 10)) by lia.
      rewrite (Z.div_small c 100), (Z.mod_small (c / 10) 10) by lia.
      reflexivity.
    + assert (Hq10 : 10 <= c / 10) by (apply Z.div_le_lower_bound; lia).
      rewrite (dec_step (c / 10)) by lia. rewrite Hcc.
      pose proof (dec_nonempty (c / 100) ltac:(apply Z.div_pos; lia)) as Hlen.
      rewrite append_assoc. cbn [append].
      rewrite length_append. cbn [String.length].
      replace (3 - (String.length (dec (c / 100)) + 2))%nat with 0%nat by lia.
      reflexivity.
Qed.

(** X13.  The dollar amount in the description of a requirement is exact: for
    every amount of [0 <= c < 2^52] cents, [(amountCents / 100).toFixed(2)]
    is the numeral of [c / 100], a point and the two digits of [c mod 100],
    although the division is a rounded binary one. *)
Theorem price_in_dollars_exact (recipient network : string)
    (cfg : NetworkConfig.t) (c : Z) (resourceUrl : string) :
  NETWORK_CONFIG_at network = Own cfg ->
  0 <= c < 2 ^ 52 ->
  toFixed (Number_div (Int c) 100) 2 = dollars c /\
  exists r,
    buildPaymentRequirements recipient network (Int c) resourceUrl = Some [r] /\
    PaymentRequirement.description r
      = "Donation of $" ++ dollars c ++ " to " ++ recipient.
Proof.
  intros Hcfg Hc.
  assert (Hd : toFixed (Number_div (Int c) 100) 2 = dollars c).
  { rewrite toFixed_cents by exact Hc. cbv zeta.
    rewrite padded_cents by lia. unfold dollars.
    set (A := dec (c / 100)).
    set (T := String (digit_char (c / 10 mod 10)) (String (digit_char (c mod 10)) "")).
    assert (HL : (String.length (A ++ T) - 2)%nat = String.length A).
    { rewrite length_append. unfold T. cbn [String.length]. lia. }
    rewrite HL. rewrite substring_prefix.
    change 2%nat with (String.length T) at 1. rewrite substring_suffix. reflexivity. }
  split; [exact Hd|].
  destruct (build_configured recipient network cfg (Int c) resourceUrl Hcfg)
    as [r [Hb [_ [_ [_ [_ [F5 _]]]]]]].
  exists r. split; [exact Hb|]. rewrite F5, Hd. reflexivity.
Qed.

(** [price_in_dollars_exact] on the test doubles. *)
Lemma price_in_dollars_exact_witness :
  toFixed (Number_div (Int 12345) 100) 2 = "123.45" /\
  exists r,
    buildPaymentRequirements "bob" "base" (Int 12345) example_url = Some [r] /\
    PaymentRequirement.description r = "Donation of $123.45 to bob".
Proof.
  apply (price_in_dollars_exact "bob" "base" _ 12345 example_url eq_refl). lia.
Defined.

(** *** Base64 there and back *)

Lemma sextet_char_spec (i : Z) :
  0 <= i < 64 ->
  sextet_of (sextet_char i) = Some i /\
  (code (sextet_char i) =? 61) = false /\
  is_ascii_white_space (sextet_char i) = false /\
  (code (sextet_char i) <? 128) = true.
Proof.
  intros H.
  assert (Hn : forall n, (n < 64)%nat ->
            sextet_of (sextet_char (Z.of_nat n)) = Some (Z.of_nat n) /\
            (code (sextet_char (Z.of_nat n)) =? 61) = false /\
            is_ascii_white_space (sextet_char (Z.of_nat n)) = false /\
            (code (sextet_char (Z.of_nat n)) <? 128) = true).
  { intros n Hlt.
    do 64 (destruct n as [|n]; [vm_compute; auto|]). lia. }
  rewrite <- (Z2Nat.id i) by lia. apply Hn. lia.
Qed.

Lemma list_ind3 (P : list Z -> Prop) :
  P [] -> (forall a, P [a]) -> (forall a b, P [a; b]) ->
  (forall a b c rest, P rest -> P (a :: b :: c :: rest)) ->
  forall l, P l.
Proof.
  intros H0 H1 H2 H3.
  assert (H : forall n l, (List.length l <= n)%nat -> P l).
  { induction n as [|n IH]; intros l Hl.
    - destruct l; [exact H0 | simpl in Hl; lia].
    - destruct l as [|a [|b [|c rest]]]; auto.
      apply H3, IH. simpl in Hl. lia. }
  intros l. apply (H (List.length l)). lia.
Qed.

Lemma sextet_bounds (n : Z) :
  0 <= n < 16777216 ->
  0 <= n / 262144 < 64 /\ 0 <= n / 4096 mod 64 < 64 /\
  0 <= n / 64 mod 64 < 64 /\ 0 <= n mod 64 < 64.
Proof.
  intros H. repeat split; try (apply Z.mod_pos_bound; lia).
  - apply Z.div_pos; lia.
  - apply Z.div_lt_upper_bound; lia.
Qed.

Lemma group_value (a b c : Z) :
  is_byte a -> is_byte b -> is_byte c ->
  0 <= a * 65536 + b * 256 + c < 16777216.
Proof. unfold is_byte. lia. Qed.

Lemma ends_with_eq_cons (x y : ascii) (t : string) :
  ends_with_eq (String x (String y t)) = ends_with_eq (String y t).
Proof.
  unfold ends_with_eq. cbn [String.length]. 
  replace (S (S (String.length t)) - 1)%nat with (S (String.length t)) by lia.
  replace (S (String.length t) - 1)%nat with (String.length t) by lia.
  reflexivity.
Qed.

Lemma drop_last_cons (x y : ascii) (t : string) :
  drop_last (String x (String y t)) = String x (drop_last (String y t)).
Proof.
  unfold drop_last. cbn [String.length].
  replace (S (S (String.length t)) - 1)%nat with (S (String.length t)) by lia.
  replace (S (String.length t) - 1)%nat with (String.length t) by lia.
  reflexivity.
Qed.

Lemma drop_last_length (s : string) :
  String.length (drop_last s) = (String.length s - 1)%nat.
Proof.
  unfold drop_last.
  assert (H : forall s n, (n <= String.length s)%nat ->
            String.length (substring 0 n s) = n).
  { induction s0 as [|c s0 IH]; intros n Hn.
    - simpl in Hn. assert (n = 0)%nat by lia. subst. reflexivity.
    - destruct n; [reflexivity|]. simpl. rewrite IH; [reflexivity|]. simpl in Hn. lia. }
  apply H. lia.
Qed.

Lemma strip_padding_group (c1 c2 c3 c4 : ascii) (t : string) :
  (4 <= String.length t)%nat ->
  strip_padding (String c1 (String c2 (String c3 (String c4 t))))
  = String c1 (String c2 (String c3 (String c4 (strip_padding t)))).
Proof.
  intros Hlen. destruct t as [|y t]; [simpl in Hlen; lia|].
  unfold strip_padding.
  replace (Nat.modulo (String.length (String c1 (String c2 (String c3 (String c4 (String y t)))))) 4)
    with (Nat.modulo (String.length (String y t)) 4).
  2:{ cbn [String.length].
      replace (S (S (S (S (S (String.length t))))))
        with (S (String.length t) + 1 * 4)%nat by lia.
      rewrite Nat.Div0.mod_add. reflexivity. }
  rewrite !ends_with_eq_cons.
  destruct ((Nat.modulo (String.length (String y t)) 4 =? 0)%nat
            && ends_with_eq (String y t)); [|reflexivity].
  rewrite !drop_last_cons.
  pose proof (drop_last_length (String y t)) as Hd.
  destruct (drop_last (String y t)) as [|z t1] eqn:E.
  - simpl in Hd. simpl in Hlen. lia.
  - rewrite !ends_with_eq_cons.
    destruct (ends_with_eq (String z t1)); [|reflexivity].
    rewrite !drop_last_cons. reflexivity.
Qed.

Lemma encode_length (l : list Z) :
  l <> [] -> (4 <= String.length (encode_base64 l))%nat.
Proof.
  destruct l as [|a [|b [|c rest]]]; intros H; [congruence | | |];
    cbn [encode_base64 String.length]; lia.
Qed.

Lemma remove_white_space_encode (l : list Z) :
  Forall is_byte l -> remove_white_space (encode_base64 l) = encode_base64 l.
Proof.
  induction l as [| a | a b | a b c rest IH] using list_ind3; intros H.
  - reflexivity.
  - inversion H as [|? ? Ha _]; subst.
    destruct (sextet_bounds (a * 65536) ltac:(unfold is_byte in Ha; lia))
      as [B1 [B2 _]].
    cbn [encode_base64 remove_white_space].
    rewrite (proj1 (proj2 (proj2 (sextet_char_spec _ B1)))).
    rewrite (proj1 (proj2 (proj2 (sextet_char_spec _ B2)))). reflexivity.
  - inversion H as [|? ? Ha H']; subst. inversion H' as [|? ? Hb _]; subst.
    destruct (sextet_bounds (a * 65536 + b * 256)
                ltac:(unfold is_byte in Ha, Hb; lia)) as [B1 [B2 [B3 _]]].
    cbn [encode_base64 remove_white_space].
    rewrite (proj1 (proj2 (proj2 (sextet_char_spec _ B1)))).
    rewrite (proj1 (proj2 (proj2 (sextet_char_spec _ B2)))).
    rewrite (proj1 (proj2 (proj2 (sextet_char_spec _ B3)))). reflexivity.
  - inversion H as [|? ? Ha H']; subst. inversion H' as [|? ? Hb H'']; subst.
    inversion H'' as [|? ? Hc Hrest]; subst.
    destruct (sextet_bounds _ (group_value a b c Ha Hb Hc)) as [B1 [B2 [B3 B4]]].
    cbn [encode_base64 remove_white_space].
    rewrite (proj1 (proj2 (proj2 (sextet_char_spec _ B1)))).
    rewrite (proj1 (proj2 (proj2 (sextet_char_spec _ B2)))).
    rewrite (proj1 (proj2 (proj2 (sextet_char_spec _ B3)))).
    rewrite (proj1 (proj2 (proj2 (sextet_char_spec _ B4)))).
    rewrite (IH Hrest). reflexivity.
Qed.

Lemma sextets_group (n : Z) :
  0 <= n < 16777216 ->
  sextets (sextet_char (n / 262144)) (sextet_char (n / 4096 mod 64))
          (sextet_char (n / 64 mod 64)) (sextet_char (n mod 64)) = Some n.
Proof.
  intros H. destruct (sextet_bounds n H) as [B1 [B2 [B3 B4]]].
  unfold sextets.
  rewrite (proj1 (sextet_char_spec _ B1)), (proj1 (sextet_char_spec _ B2)),
          (proj1 (sextet_char_spec _ B3)), (proj1 (sextet_char_spec _ B4)).
  f_equal. 
  pose proof (Z.div_mod n 64 ltac:(lia)).
  pose proof (Z.div_mod (n / 64) 64 ltac:(lia)).
  pose proof (Z.div_mod (n / 64 / 64) 64 ltac:(lia)).
  assert (E1 : n / 4096 = n / 64 / 64) by (rewrite Z.div_div by lia; reflexivity).
  assert (E2 : n / 262144 = n / 64 / 64 / 64) by (rewrite !Z.div_div by lia; reflexivity).
  rewrite E1, E2. lia.
Qed.

Lemma strip_one (x y z : ascii) :
  (code z =? 61) = false ->
  strip_padding (String x (String y (String z "="))) = String x (String y (String z "")).
Proof.
  intros H. unfold strip_padding, ends_with_eq, drop_last.
  cbn [String.length Nat.sub String.get substring Nat.modulo Nat.divmod Nat.eqb
       snd fst negb andb].
  change (code "=" =? 61) with true. cbn [andb negb].
  rewrite H. reflexivity.
Qed.

Lemma decode_strip_encode (l : list Z) :
  Forall is_byte l -> decode_sextets (strip_padding (encode_base64 l)) = Some l.
Proof.
  induction l as [| a | a b | a b c rest IH] using list_ind3; intros H.
  - reflexivity.
  - inversion H as [|? ? Ha _]; subst. unfold is_byte in Ha.
    pose proof (sextets_group (a * 65536) ltac:(lia)) as Hs.
    replace (a * 65536 / 64 mod 64) with 0 in Hs.
    2:{ replace (a * 65536) with (a * 1024 * 64) by lia.
        rewrite Z.div_mul by lia. replace (a * 1024) with (a * 16 * 64) by lia.
        rewrite Z.mod_mul by lia. reflexivity. }
    replace (a * 65536 mod 64) with 0 in Hs.
    2:{ replace (a * 65536) with (a * 1024 * 64) by lia.
        rewrite Z.mod_mul by lia. reflexivity. }
    change (sextet_char 0) with "A"%char in Hs.
    cbn [encode_base64]. 
    match goal with
    | |- decode_sextets (strip_padding (String ?x (String ?y "=="))) = _ =>
        change (strip_padding (String x (String y "=="))) with (String x (String y ""))
    end.
    cbn [decode_sextets]. rewrite Hs. rewrite Z.div_mul by lia. reflexivity.
  - inversion H as [|? ? Ha H']; subst. inversion H' as [|? ? Hb _]; subst.
    unfold is_byte in Ha, Hb.
    pose proof (sextets_group (a * 65536 + b * 256) ltac:(lia)) as Hs.
    replace ((a * 65536 + b * 256) mod 64) with 0 in Hs.
    2:{ replace (a * 65536 + b * 256) with ((a * 1024 + b * 4) * 64) by lia.
        rewrite Z.mod_mul by lia. reflexivity. }
    change (sextet_char 0) with "A"%char in Hs.
    cbn [encode_base64].
    destruct (sextet_bounds (a * 65536 + b * 256) ltac:(lia)) as [_ [_ [B3 _]]].
    rewrite strip_one by (apply sextet_char_spec; exact B3).
    cbn [decode_sextets]. rewrite Hs. repeat f_equal.
    + replace (a * 65536 + b * 256) with (b * 256 + a * 65536) by lia.
      rewrite Z.div_add by lia. rewrite Z.div_small by lia. lia.
    + replace (a * 65536 + b * 256) with ((a * 256 + b) * 256) by lia.
      rewrite Z.div_mul by lia.
      replace (a * 256 + b) with (b + a * 256) by lia.
      rewrite Z.mod_add by lia. apply Z.mod_small. lia.
  - inversion H as [|? ? Ha H']; subst. inversion H' as [|? ? Hb H'']; subst.
    inversion H'' as [|? ? Hc Hrest]; subst.
    pose proof (group_value a b c Ha Hb Hc) as Hn.
    pose proof (sextets_group _ Hn) as Hs.
    unfold is_byte in Ha, Hb, Hc.
    destruct rest as [|r0 rest].
    + cbn [encode_base64].
      destruct (sextet_bounds _ Hn) as [_ [_ [_ B4]]].
      match goal with
      | |- decode_sextets (strip_padding ?s) = _ =>
          assert (Hst : strip_padding s = s)
      end.
      { unfold strip_padding, ends_with_eq. cbn [String.length String.get Nat.sub].
        rewrite (proj1 (proj2 (sextet_char_spec _ B4))). rewrite andb_false_r.
        reflexivity. }
      rewrite Hst. cbn [decode_sextets]. rewrite Hs. repeat f_equal.
      * replace (a * 65536 + b * 256 + c) with (b * 256 + c + a * 65536) by lia.
        rewrite Z.div_add by lia. rewrite Z.div_small by lia. lia.
      * replace (a * 65536 + b * 256 + c) with (c + (a * 256 + b) * 256) by lia.
        rewrite Z.div_add by lia. rewrite Z.div_small by lia.
        replace (0 + (a * 256 + b)) with (b + a * 256) by lia.
        rewrite Z.mod_add by lia. apply Z.mod_small. lia.
      * replace (a * 65536 + b * 256 + c) with (c + (a * 256 + b) * 256) by lia.
        rewrite Z.mod_add by lia. apply Z.mod_small. lia.
    + change (encode_base64 (a :: b :: c :: r0 :: rest))
        with (String (sextet_char ((a * 65536 + b * 256 + c) / 262144))
                (String (sextet_char ((a * 65536 + b * 256 + c) / 4096 mod 64))
                   (String (sextet_char ((a * 65536 + b * 256 + c) / 64 mod 64))
                      (String (sextet_char ((a * 65536 + b * 256 + c) mod 64))
                         (encode_base64 (r0 :: rest)))))).
      rewrite strip_padding_group by (apply encode_length; discriminate).
      cbn [decode_sextets]. rewrite Hs, (IH Hrest). repeat f_equal.
      * replace (a * 65536 + b * 256 + c) with (b * 256 + c + a * 65536) by lia.
        rewrite Z.div_add by lia. rewrite Z.div_small by lia. lia.
      * replace (a * 65536 + b * 256 + c) with (c + (a * 256 + b) * 256) by lia.
        rewrite Z.div_add by lia. rewrite Z.div_small by lia.
        replace (0 + (a * 256 + b)) with (b + a * 256) by lia.
        rewrite Z.mod_add by lia. apply Z.mod_small. lia.
      * replace (a * 65536 + b * 256 + c) with (c + (a * 256 + b) * 256) by lia.
        rewrite Z.mod_add by lia. apply Z.mod_small. lia.
Qed.

Lemma latin1_units_bytes (s : string) :
  is_ascii s = true -> latin1_units s = Some (bytes_of s).
Proof.
  induction s as [|c s IH]; intros H; [reflexivity|].
  rewrite is_ascii_cons in H. apply andb_true_iff in H. destruct H as [Hc Hs].
  cbn [latin1_units bytes_of]. rewrite Hc, (IH Hs). reflexivity.
Qed.

Lemma bytes_of_bytes (s : string) : Forall is_byte (bytes_of s).
Proof.
  induction s as [|c s IH]; constructor; [|exact IH].
  unfold is_byte, code. pose proof (N_ascii_bounded c). lia.
Qed.

Lemma of_latin1_units_bytes (s : string) :
  is_ascii s = true -> of_latin1_units (bytes_of s) = s.
Proof.
  induction s as [|c s IH]; intros H; [reflexivity|].
  rewrite is_ascii_cons in H. apply andb_true_iff in H. destruct H as [Hc Hs].
  cbn [of_latin1_units bytes_of]. rewrite Hc, (IH Hs).
  unfold chr, code. rewrite N2Z.id, ascii_N_embedding. reflexivity.
Qed.

Lemma atob_btoa (s t : string) :
  is_ascii s = true -> btoa s = Some t -> atob t = Some s.
Proof.
  intros Hs Ht. unfold btoa in Ht. rewrite (latin1_units_bytes s Hs) in Ht.
  injection Ht as <-. unfold atob.
  rewrite remove_white_space_encode by apply bytes_of_bytes.
  rewrite decode_strip_encode by apply bytes_of_bytes.
  cbn [option_map]. rewrite of_latin1_units_bytes by exact Hs. reflexivity.
Qed.

(** X14.  The [PAYMENT-REQUIRED] header can be read back: for an ASCII recipient
    and request URL on a configured network, [createPaymentRequiredResponse]
    answers with a header whose [atob] is the JSON text of
    [{x402Version: 2, accepts: [requirement], error: "Payment Required"}],
    the requirement being the one [buildPaymentRequirements] built. *)
Theorem challenge_header_decodes (recipient network : string)
    (amountCents : number) (resourceUrl : string) :
  In network configured_networks ->
  is_ascii recipient = true -> is_ascii resourceUrl = true ->
  exists r resp blob,
    buildPaymentRequirements recipient network amountCents resourceUrl = Some [r] /\
    createPaymentRequiredResponse [r] = Some resp /\
    Headers_get (headers resp) "PAYMENT-REQUIRED" = Some blob /\
    atob blob = Some (JSON_stringify (paymentRequired [r])).
Proof.
  intros Hin Hr Hu. apply configured_iff in Hin. destruct Hin as [cfg Hcfg].
  destruct (challenge_built recipient network cfg amountCents resourceUrl Hcfg Hr Hu)
    as [r [blob [Hb [Hblob Hresp]]]].
  eexists r, _, blob. split; [exact Hb|]. split; [exact Hresp|].
  split; [reflexivity|].
  apply atob_btoa; [|exact Hblob].
  apply (challenge_is_ascii recipient network cfg amountCents resourceUrl); trivial.
Qed.

(** [challenge_header_decodes] on the test doubles. *)
Lemma challenge_header_decodes_witness :
  exists r resp blob,
    buildPaymentRequirements example_recipient "base" (Int 300) example_url
      = Some [r] /\
    createPaymentRequiredResponse [r] = Some resp /\
    Headers_get (headers resp) "PAYMENT-REQUIRED" = Some blob /\
    atob blob = Some (JSON_stringify (paymentRequired [r])).
Proof.
  apply (challenge_header_decodes example_recipient "base" (Int 300) example_url).
  - simpl. tauto.
  - reflexivity.
  - reflexivity.
Defined.

(** *** The bounds of the amount *)

Lemma of_integer_exact_neg (z : Z) : - 2 ^ 53 < z < 2 ^ 53 -> of_integer z = Int z.
Proof.
  intros [Hlo Hhi]. destruct (Z.le_gt_cases 0 z) as [H|H].
  - apply of_integer_exact. lia.
  - unfold of_integer. rewrite Z.abs_neq by lia.
    rewrite round53_small by lia.
    assert (2 ^ 53 < 2 ^ 1024) by (apply Z.pow_lt_mono_r; lia).
    destruct (Z.leb_spec (2 ^ 1024) (- z)); [lia|].
    f_equal. rewrite Z.sgn_neg by lia. lia.
Qed.

Lemma parseInt_negative (n : Z) :
  0 < n < 2 ^ 53 -> parseInt ("-" ++ dec n) = Int (- n).
Proof.
  intros Hn.
  destruct (dec_head n ltac:(lia)) as [d [tl [Hd Hdec]]].
  assert (Hv : digits_value (dec n) 0 false = Some n).
  { rewrite <- (append_nil_r (dec n)).
    assert (Hb : n < 10 ^ Z.of_nat 16).
    { assert (2 ^ 53 < 10 ^ Z.of_nat 16) by (vm_compute; reflexivity). lia. }
    rewrite (digits_value_dec 16) by lia. cbn [digits_value]. f_equal; lia. }
  unfold parseInt.
  assert (Hs : skip_white_space ("-" ++ dec n) = "-" ++ dec n).
  { rewrite Hdec. destruct tl as [|b tl]; reflexivity. }
  rewrite Hs. cbn [append]. rewrite Hv. apply of_integer_exact_neg. lia.
Qed.

Lemma decimal_nonempty (c : Z) : (decimal c =? "")%string = false.
Proof.
  unfold decimal. destruct (Z.ltb_spec c 0); [reflexivity|].
  destruct (dec_head c ltac:(lia)) as [d [tl [_ ->]]]. reflexivity.
Qed.

Lemma amountCents_of_decimal (request : Request) (c : Z) :
  searchParams_amount request = Some (decimal c) ->
  - 2 ^ 53 < c < 2 ^ 53 ->
  amountCents_of request = Int c.
Proof.
  intros Hq Hc. unfold amountCents_of. rewrite Hq.
  cbn [or_else]. rewrite decimal_nonempty.
  destruct (Z.lt_ge_cases c 0) as [Hneg|Hpos].
  - unfold decimal. destruct (Z.ltb_spec c 0); [|lia].
    replace c with (- (- c)) at 2 by lia. apply parseInt_negative. lia.
  - rewrite <- (append_nil_r (decimal c)). apply parseInt_decimal_then; [lia|reflexivity].
Qed.

(** X15.  GET accepts an amount exactly from 1 cent on: for a well-formed
    recipient on a configured network and the amount parameter written as
    the decimal numeral of [c] (between [-2^53] and [2^53]), GET answers 400
    "Invalid amount" when [c < 1], zero and the negative amounts included,
    and issues the 402 challenge when [c >= 1]. *)
Theorem GET_amount_bound (request : Request) (params : Params) (c : Z) :
  searchParams_amount request = Some (decimal c) ->
  - 2 ^ 53 < c < 2 ^ 53 ->
  is_address (recipient params) = true ->
  In (network params) configured_networks ->
  is_ascii (url request) = true ->
  (c < 1 ->
   run (GET request params) =
     (Fulfilled (Response_json (JObj [("error", JStr "Invalid amount")]) 400), []))
  /\
  (1 <= c -> challenges_with paymentRequired request params).
Proof.
  intros Hq Hc Ha Hin Hu.
  pose proof (amountCents_of_decimal request c Hq Hc) as Hamt.
  apply configured_iff in Hin. destruct Hin as [cfg Hcfg]. split.
  - intros Hlt. unfold run, GET, not_configured. rewrite Ha, Hcfg, Hamt.
    cbn [negb Number_lt]. destruct (Z.ltb_spec c 1); [reflexivity | lia].
  - intros Hge. apply (GET_challenge request params cfg); trivial.
    rewrite Hamt. cbn [Number_lt]. destruct (Z.ltb_spec c 1); [lia | reflexivity].
Qed.

(** [GET_amount_bound] on the test doubles. *)
Lemma GET_amount_bound_witness :
  run (GET (example_request (Some "-5") []) example_params) =
    (Fulfilled (Response_json (JObj [("error", JStr "Invalid amount")]) 400), [])
  /\
  challenges_with paymentRequired (example_request (Some "1") []) example_params.
Proof.
  split.
  - apply (proj1 (GET_amount_bound (example_request (Some "-5") []) example_params (-5)
                    eq_refl ltac:(lia) eq_refl ltac:(simpl; tauto) eq_refl)). lia.
  - apply (proj2 (GET_amount_bound (example_request (Some "1") []) example_params 1
                    eq_refl ltac:(lia) eq_refl ltac:(simpl; tauto) eq_refl)). lia.
Defined.

(* ===================================================================== *)
(** ** Witnesses on the test doubles, and the shape of failures *)
(* ===================================================================== *)

(** *** More about the test doubles *)

Lemma facilitator_settle_fails (env : Env.process_env) (verify : settled FetchResponse) :
  settle_fails env (facilitator env verify Rejected).
Proof.
  intros r Hr. unfold facilitator. rewrite Hr, String.eqb_refl.
  destruct (String.eqb_spec (settle_url env) (verify_url env)) as [E|_];
    [|reflexivity].
  exfalso. apply (verify_url_not_settle env). symmetry. exact E.
Qed.

(** [malformed_payment_header] on the test doubles. *)
Lemma malformed_payment_header_witness :
  run (POST parse_empty_object no_env (facilitator no_env verify_valid settle_paid)
         (paying_with "%%%") example_params) = (Fulfilled processing_failed, [])
  /\
  run (POST parse_empty_object no_env (facilitator no_env verify_valid settle_paid)
         (paying_with "bm90IGpzb24=") example_params) = (Fulfilled processing_failed, []).
Proof.
  split.
  - apply (malformed_payment_header parse_empty_object no_env _
             (paying_with "%%%") example_params "%%%").
    + simpl. tauto.
    + reflexivity.
    + discriminate.
    + left. reflexivity.
  - apply (malformed_payment_header parse_empty_object no_env _
             (paying_with "bm90IGpzb24=") example_params "bm90IGpzb24=").
    + simpl. tauto.
    + reflexivity.
    + discriminate.
    + right. exists "not json". split; reflexivity.
Defined.

(** [settle_transport_failure] on the test doubles. *)
Lemma settle_transport_failure_witness :
  (exists v s,
     run (POST parse_empty_object no_env
            (facilitator no_env verify_valid settle_unavailable)
            paying_request example_params) =
       (Fulfilled
          (Response_json
             (JObj [("error", JStr "Payment settlement failed");
                    ("details", JStr "Service Unavailable")]) 500),
        [v; s]))
  /\
  (exists v s,
     run (POST parse_empty_object no_env (facilitator no_env verify_valid Rejected)
            paying_request example_params) = (Fulfilled processing_failed, [v; s])).
Proof.
  split.
  - eapply (proj1 (settle_transport_failure parse_empty_object no_env _
                     paying_request example_params
                     (json_response 200 (JObj [("isValid", JBool true)]))
                     (JObj [("isValid", JBool true)]) (JBool true)
                     paying_request_redeemable
                     (facilitator_verify _ _ _) eq_refl eq_refl eq_refl eq_refl)
              (text_response 503 "Service Unavailable"));
      [apply facilitator_settle | reflexivity].
  - eapply (proj2 (settle_transport_failure parse_empty_object no_env _
                     paying_request example_params
                     (json_response 200 (JObj [("isValid", JBool true)]))
                     (JObj [("isValid", JBool true)]) (JBool true)
                     paying_request_redeemable
                     (facilitator_verify _ _ _) eq_refl eq_refl eq_refl eq_refl)).
    apply facilitator_settle_fails.
Defined.

(** [verify_unexpected_body] on the test doubles. *)
Lemma verify_unexpected_body_witness :
  (exists v,
     run (POST parse_empty_object no_env (facilitator no_env verify_plain_text settle_paid)
            paying_request example_params) = (Fulfilled processing_failed, [v]))
  /\
  (exists v,
     run (POST parse_empty_object no_env
            (facilitator no_env verify_empty_object settle_paid)
            paying_request example_params) =
       (Fulfilled (Response_json (JObj [("error", JStr "Invalid payment");
                                        ("reason", JUndefined)]) 400), [v])).
Proof.
  split.
  - apply (proj1 (verify_unexpected_body parse_empty_object no_env _
                    paying_request example_params (text_response 200 "OK")
                    paying_request_redeemable (facilitator_verify _ _ _) eq_refl)).
    left. reflexivity.
  - apply (proj2 (verify_unexpected_body parse_empty_object no_env _
                    paying_request example_params (json_response 200 (JObj []))
                    paying_request_redeemable (facilitator_verify _ _ _) eq_refl)
             (JObj []) JUndefined JUndefined); reflexivity.
Defined.

Lemma paid_run :
  exists v s,
    run (POST parse_empty_object no_env (facilitator no_env verify_valid settle_paid)
           paying_request example_params) =
      (Fulfilled
         (Response_json
            (JObj [("success", JBool true);
                   ("message", JStr thank_you);
                   ("recipient", JStr example_recipient);
                   ("network", JStr "base");
                   ("txHash", JStr "0xabc123")]) 200),
       [v; s]).
Proof. vm_compute. eexists; eexists. reflexivity. Qed.

(** [POST_outcomes] on the test doubles. *)
Lemma POST_outcomes_witness :
  exists v s,
    settled_outcome no_env (facilitator no_env verify_valid settle_paid) example_params
      (Response_json
         (JObj [("success", JBool true);
                ("message", JStr thank_you);
                ("recipient", JStr example_recipient);
                ("network", JStr "base");
                ("txHash", JStr "0xabc123")]) 200)
      [v; s].
Proof.
  destruct paid_run as [v [s H]]. exists v, s.
  apply (proj2 (proj2 (POST_outcomes parse_empty_object no_env _ paying_request
                         example_params _ _ H))).
  reflexivity.
Defined.

(** *** Every failure is a JSON error *)

Lemma Response_json_error (message : string) (rest : list (string * value)) (st : Z) :
  error_response (Response_json (JObj (("error", JStr message) :: rest)) st).
Proof. split; [reflexivity|]. exists message, rest. reflexivity. Qed.

Lemma created_error (reqs : list PaymentRequirement.t) (resp : Response) :
  createPaymentRequiredResponse reqs = Some resp -> error_response resp.
Proof.
  unfold createPaymentRequiredResponse. destruct (btoa _) as [blob|]; [|discriminate].
  intros [= <-]. split; [reflexivity|]. exists "Payment Required", []. reflexivity.
Qed.

Section Failures.
Variable JSON_parse : string -> option value.
Variable env : Env.process_env.
Variable world : FetchRequest -> settled FetchResponse.

Lemma redeem_error (request : Request) (params : Params) (header : string)
    (resp : Response) (sent : list FetchRequest) :
  redeem JSON_parse env world request params header [] = (Fulfilled resp, sent) ->
  status resp <> 200 -> error_response resp.
Proof.
  cbv [redeem bind lift ret throw fetch]. cbn [app].
  destruct (atob header) as [decoded|]; [|discriminate].
  destruct (JSON_parse decoded) as [payload|]; [|discriminate].
  destruct (buildPaymentRequirements _ _ _ _) as [reqs|]; [|discriminate].
  match goal with |- context [world ?r] => destruct (world r) as [vr|] end;
    [|discriminate].
  destruct (ok vr); cbn [negb].
  2:{ intros [= <- _] _. apply Response_json_error. }
  destruct (response_json vr) as [body|]; [|discriminate].
  destruct (get_prop body "isValid") as [iv|]; [|discriminate].
  destruct (truthy iv); cbn [negb].
  2:{ destruct (get_prop body "invalidReason"); [|discriminate].
      intros [= <- _] _. apply Response_json_error. }
  match goal with |- context [world ?r] => destruct (world r) as [sr|] end;
    [|discriminate].
  destruct (ok sr); cbn [negb].
  2:{ intros [= <- _] _. apply Response_json_error. }
  destruct (response_json sr) as [sbody|]; [|discriminate].
  destruct (get_prop sbody "success") as [sv|]; [|discriminate].
  destruct (truthy sv); cbn [negb].
  2:{ destruct (get_prop sbody "errorReason"); [|discriminate].
      intros [= <- _] _. apply Response_json_error. }
  destruct (get_prop sbody "transaction"); [|discriminate].
  intros [= <- _] H. exfalso. apply H. reflexivity.
Qed.

(** X16.  Whatever GET and POST answer that is not a 200 is a JSON error: the
    content type is [application/json] and the body is the JSON text of an
    object that starts with an [error] string.  GET never answers 200. *)
Theorem failures_are_json_errors (request : Request) (params : Params)
    (resp : Response) :
  (fst (run (GET request params)) = Fulfilled resp ->
   status resp <> 200 /\ error_response resp)
  /\
  (fst (run (POST JSON_parse env world request params)) = Fulfilled resp ->
   status resp <> 200 -> error_response resp).
Proof.
  split.
  - unfold run, GET.
    destruct (negb (is_address (recipient params))).
    { intros [= <-]. split; [discriminate | apply Response_json_error]. }
    destruct (not_configured (network params)).
    { intros [= <-]. split; [discriminate | apply Response_json_error]. }
    destruct (Number_lt (amountCents_of request) (Int 1)).
    { intros [= <-]. split; [discriminate | apply Response_json_error]. }
    unfold bind, lift, ret, throw.
    destruct (buildPaymentRequirements _ _ _ _) as [reqs|]; [|discriminate].
    destruct (createPaymentRequiredResponse reqs) as [r|] eqn:E; [|discriminate].
    intros [= <-]. split; [|apply (created_error reqs r E)].
    rewrite (created_status reqs r E). discriminate.
  - unfold run, POST.
    destruct (not_configured (network params)).
    { intros [= <-] _. apply Response_json_error. }
    assert (Hchallenge :
      fst (bind (lift (buildPaymentRequirements (recipient params) (network params)
                         (amountCents_of request) (url request)))
                (fun reqs => lift (createPaymentRequiredResponse reqs)) [])
      = Fulfilled resp -> status resp <> 200 -> error_response resp).
    { unfold bind, lift, ret, throw.
      destruct (buildPaymentRequirements _ _ _ _) as [reqs|]; [|discriminate].
      destruct (createPaymentRequiredResponse reqs) as [r|] eqn:E; [|discriminate].
      intros [= <-] _. apply (created_error reqs r E). }
    destruct (paymentHeader_of request) as [header|]; [|exact Hchallenge].
    destruct (header =? "")%string; [exact Hchallenge|].
    unfold try_catch.
    destruct (redeem JSON_parse env world request params header []) as [[r|] sent] eqn:E.
    + intros [= <-]. apply (redeem_error request params header r sent E).
    + intros [= <-] _. apply Response_json_error.
Qed.

End Failures.
